(** * Store-policy validator of the Chrome extension toolkit

    A shallow embedding of the [StoreValidator] component
    (components/mini-tools/store-validator): the rulebook
    [STORE_REQUIREMENTS], the five checks that [validateForStore] runs
    over a decoded manifest and the uploaded files, and
    [calculateOverallScore].

    Modelling conventions.
    - The manifest is whatever [JSON.parse] returned: a [json] value.  An
      object lists its own properties in the order [Object.entries]
      enumerates them.  [undefined] is the absent [value].
    - Strings are sequences of 8-bit code units: a string of the
      component is modelled when all its characters lie in U+0000 to
      U+00FF, each being one unit here as it is one UTF-16 code unit
      there, so that lengths and positions agree.  A string with a
      character beyond U+00FF has no image, and what is proved about the
      length or the contents of a string is proved for the others.
    - Numbers are the integers (every count and size of the component is
      one, below 2^53, where double arithmetic on them is exact).  An
      integer is printed in full, as the engine prints it below 10^21;
      a numeral is read as the integer it denotes, as the engine reads it
      up to 2^53 - 1.
    - A JavaScript [TypeError] is the [TypeError] completion; the findings
      array shared by the checks is threaded explicitly and survives a
      raised error, exactly as the mutated array does.
    - The one primitive left open is the conversion of a string to a
      number, whose rounding the language leaves to the engine: it is a
      parameter of the development ([StringToNumber_compare]). *)

From Stdlib Require Import ZArith List String Ascii Bool Lia Permutation.
From Stdlib Require Import Decimal DecimalString DecimalPos.
Import ListNotations.

Local Open Scope string_scope.
Local Open Scope Z_scope.

(** ** JavaScript values and the primitives the component uses *)

Module JS.

#[local] Set Warnings "-register-all".

Inductive json : Type :=
| JNull
| JBool (b : bool)
| JNum (n : Z)
| JStr (s : string)
| JArr (elems : list json)
| JObj (props : list (string * json)).

(** A property read yields a JSON value or [undefined]. *)
Definition value : Type := option json.
Definition undefined : value := None.

(** Abrupt completion: every error the checks can raise is a TypeError. *)
Inductive completion (A : Type) : Type :=
| Normal (a : A)
| TypeError.
Arguments Normal {A} a.
Arguments TypeError {A}.

Definition cbind {A B} (c : completion A) (k : A -> completion B) : completion B :=
  match c with
  | Normal a => k a
  | TypeError => TypeError
  end.

Notation "x <-- c ;; k" := (cbind c (fun x => k))
  (at level 61, c at next level, right associativity).

(** ToBoolean. *)
Definition truthy (v : value) : bool :=
  match v with
  | None => false
  | Some JNull => false
  | Some (JBool b) => b
  | Some (JNum n) => negb (n =? 0)
  | Some (JStr s) => negb (s =? "")%string
  | Some (JArr _) => true
  | Some (JObj _) => true
  end.

(** Number::toString on integers: the decimal expansion, which is what the
    engine prints for an integer below 10^21 in magnitude (from there on
    it prints an exponent, which is not modelled). *)
Definition numToString (n : Z) : string :=
  NilZero.string_of_int (Z.to_int n).

Fixpoint lookup (k : string) (props : list (string * json)) : value :=
  match props with
  | [] => undefined
  | (k', v) :: rest => if (k =? k')%string then Some v else lookup k rest
  end.

Definition hasOwn (k : string) (props : list (string * json)) : bool :=
  match lookup k props with Some _ => true | None => false end.

(** ToString.  An array joins its elements with a comma, [null] elements
    printing as the empty string; an object prints through
    [Object.prototype.toString] unless an own [toString] property (never
    callable in decoded JSON) shadows it, in which case the conversion
    raises. *)
Fixpoint ToString (v : json) : completion string :=
  match v with
  | JNull => Normal "null"
  | JBool true => Normal "true"
  | JBool false => Normal "false"
  | JNum n => Normal (numToString n)
  | JStr s => Normal s
  | JArr elems =>
      (fix join (l : list json) : completion string :=
         match l with
         | [] => Normal ""
         | x :: rest =>
             s <-- match x with JNull => Normal "" | _ => ToString x end ;;
             match rest with
             | [] => Normal s
             | _ => t <-- join rest ;; Normal (s ++ "," ++ t)
             end
         end) elems
  | JObj props =>
      if hasOwn "toString" props then TypeError else Normal "[object Object]"
  end.

(** [Array.prototype.join] of the component's two-element array literals:
    [undefined] and [null] print as the empty string. *)
Definition joinItem (v : value) : completion string :=
  match v with
  | None => Normal ""
  | Some JNull => Normal ""
  | Some j => ToString j
  end.

Definition isDigit (c : ascii) : bool :=
  let n := nat_of_ascii c in (48 <=? n)%nat && (n <=? 57)%nat.

Fixpoint allDigits (s : string) : bool :=
  match s with
  | EmptyString => true
  | String c r => isDigit c && allDigits r
  end.

Fixpoint digitsValue (acc : nat) (s : string) : nat :=
  match s with
  | EmptyString => acc
  | String c r => digitsValue (10 * acc + (nat_of_ascii c - 48))%nat r
  end.

(** A property key that is an array index: a canonical decimal numeral. *)
Definition arrayIndex (k : string) : option nat :=
  match k with
  | EmptyString => None
  | String c r =>
      if allDigits k && (negb (nat_of_ascii c =? 48)%nat || (r =? "")%string)
      then Some (digitsValue 0 k)
      else None
  end.

Fixpoint chars (s : string) : list json :=
  match s with
  | EmptyString => []
  | String c r => JStr (String c EmptyString) :: chars r
  end.

Definition indexed (k : string) (l : list json) : value :=
  match arrayIndex k with
  | Some i => nth_error l i
  | None => undefined
  end.

(** Property read [v[k]], for the keys the component reads: the manifest
    field names, decimal icon sizes and [length], none of which a
    prototype defines except [length] on strings and arrays.  The length
    of a string is its number of code units, one per character for the
    strings of the model (characters up to U+00FF). *)
Definition Get (v : json) (k : string) : completion value :=
  match v with
  | JNull => TypeError
  | JBool _ => Normal undefined
  | JNum _ => Normal undefined
  | JStr s =>
      if (k =? "length")%string then Normal (Some (JNum (Z.of_nat (String.length s))))
      else Normal (indexed k (chars s))
  | JArr l =>
      if (k =? "length")%string then Normal (Some (JNum (Z.of_nat (List.length l))))
      else Normal (indexed k l)
  | JObj props => Normal (lookup k props)
  end.

(** Optional chaining [v?.k]. *)
Definition GetOpt (v : value) (k : string) : completion value :=
  match v with
  | None => Normal undefined
  | Some JNull => Normal undefined
  | Some j => Get j k
  end.

Fixpoint enumerate (i : nat) (l : list json) : list (string * json) :=
  match l with
  | [] => []
  | x :: rest => (numToString (Z.of_nat i), x) :: enumerate (S i) rest
  end.

(** [Object.entries] of a truthy value. *)
Definition entries (v : json) : list (string * json) :=
  match v with
  | JObj props => props
  | JArr l => enumerate 0 l
  | JStr s => enumerate 0 (chars s)
  | _ => []
  end.

(** The iteration protocol of [for ... of]: arrays and strings iterate,
    anything else is not iterable. *)
Definition iterate (v : json) : completion (list json) :=
  match v with
  | JArr l => Normal l
  | JStr s => Normal (chars s)
  | _ => TypeError
  end.

(** The receiver of an [Array.prototype] method call such as [v.some(f)]:
    only an array has the method. *)
Definition asArray (v : json) : completion (list json) :=
  match v with
  | JArr l => Normal l
  | _ => TypeError
  end.

Fixpoint some {A} (p : A -> completion bool) (l : list A) : completion bool :=
  match l with
  | [] => Normal false
  | x :: rest => b <-- p x ;; if b then Normal true else some p rest
  end.

Fixpoint find {A} (p : A -> completion bool) (l : list A) : completion (option A) :=
  match l with
  | [] => Normal None
  | x :: rest => b <-- p x ;; if b then Normal (Some x) else find p rest
  end.

(** [String.prototype.endsWith] and [String.prototype.includes]. *)
Fixpoint endsWith (s suffix : string) : bool :=
  if (s =? suffix)%string then true
  else match s with
       | EmptyString => false
       | String _ r => endsWith r suffix
       end.

Fixpoint includes (s needle : string) : bool :=
  if String.prefix needle s then true
  else match s with
       | EmptyString => false
       | String _ r => includes r needle
       end.

(** [Array.prototype.includes] against a string (SameValueZero). *)
Definition isString (s : string) (v : json) : bool :=
  match v with
  | JStr t => (s =? t)%string
  | _ => false
  end.

Definition arrayIncludes (l : list json) (s : string) : bool :=
  existsb (isString s) l.

Definition listIncludes (l : list string) (v : json) : bool :=
  existsb (fun s => isString s v) l.

(** The method call [v.includes(s)]. *)
Definition callIncludes (v : json) (s : string) : completion bool :=
  match v with
  | JStr t => Normal (includes t s)
  | JArr l => Normal (arrayIncludes l s)
  | _ => TypeError
  end.

(** [String.prototype.toLowerCase] on 8-bit code units. *)
Definition lowerChar (c : ascii) : ascii :=
  let n := nat_of_ascii c in
  if ((65 <=? n) && (n <=? 90))%nat then ascii_of_nat (n + 32)
  else if ((192 <=? n) && (n <=? 222) && negb (n =? 215))%nat then ascii_of_nat (n + 32)
  else c.

Fixpoint toLowerCase (s : string) : string :=
  match s with
  | EmptyString => EmptyString
  | String c r => String (lowerChar c) (toLowerCase r)
  end.

(** [Number.prototype.toFixed(1)] of [bytes / 1024 / 1024]: the nearest
    tenth, ties upwards, printed with one decimal. *)
Definition tenthsOfMiB (bytes : Z) : Z :=
  (10 * bytes + 524288) / 1048576.

Definition toFixed1MiB (bytes : Z) : string :=
  let n := tenthsOfMiB bytes in
  numToString (n / 10) ++ "." ++ numToString (n mod 10).

End JS.

Import JS.

(** ** Data model *)

Inductive Category : Type :=
| manifest | icons | privacy | content | permissions | metadata.

Inductive ResultType : Type :=
| error | warning | info | success.

Inductive Severity : Type :=
| critical | high | medium | low.

Record StoreValidationResult : Type := mkResult {
  category : Category;
  type : ResultType;
  title : string;
  message : string;
  requirement : string;
  suggestion : option string;
  severity : Severity
}.

(** An uploaded file, as far as the checks look at it. *)
Record File : Type := mkFile {
  name : string;
  size : N
}.

(** ** The rulebook *)

Module STORE_REQUIREMENTS.

Module manifest.
Definition required_fields : list string :=
  ["name"; "version"; "description"; "manifest_version"].
Definition name_length_min : Z := 3.
Definition name_length_max : Z := 45.
Definition description_length_min : Z := 10.
Definition description_length_max : Z := 132.

(** [/^\d+(\.\d+)*$/]: groups of one or more digits separated by single
    dots; [inGroup] records that the current group has a digit. *)
Fixpoint version_format_from (inGroup : bool) (s : string) : bool :=
  match s with
  | EmptyString => inGroup
  | String c r =>
      if isDigit c then version_format_from true r
      else if (Ascii.eqb c "."%char) && inGroup then version_format_from false r
      else false
  end.
Definition version_format_test (s : string) : bool :=
  version_format_from false s.
End manifest.

Module icons.
Definition required_sizes : list Z := [16; 48; 128].
Definition recommended_sizes : list Z := [19; 38; 32; 64; 96].
Definition max_file_size : Z := 2 * 1024 * 1024.
Definition formats : list string := ["png"; "jpg"; "jpeg"].
End icons.

Module permissions.
Definition dangerous : list string :=
  ["<all_urls>"; "http://*/*"; "https://*/*"; "tabs"; "history"; "bookmarks"].
Definition requires_justification : list string :=
  ["activeTab"; "storage"; "notifications"].
End permissions.

Module content.
Definition max_package_size : Z := 128 * 1024 * 1024.
Definition prohibited_content : list string :=
  ["cryptocurrency"; "mining"; "adult"; "violence"].
End content.

Module privacy.
Definition required_if_data_collection : list string := ["privacy_policy"].
Definition data_collection_apis : list string :=
  ["identity"; "cookies"; "history"; "tabs"].
End privacy.

End STORE_REQUIREMENTS.

(** ** The findings array and abrupt completion of a check *)

(** What a check leaves behind: the findings array as it stands, and a
    result unless an error was raised on the way. *)
Inductive outcome (A : Type) : Type :=
| Done (a : A) (results : list StoreValidationResult)
| Raised (results : list StoreValidationResult).
Arguments Done {A} a results.
Arguments Raised {A} results.

Definition M (A : Type) : Type := list StoreValidationResult -> outcome A.

Definition ret {A} (a : A) : M A := fun results => Done a results.

Definition bind {A B} (c : M A) (k : A -> M B) : M B :=
  fun results =>
    match c results with
    | Done a results' => k a results'
    | Raised results' => Raised results'
    end.

(** [results.push(finding)]. *)
Definition push (finding : StoreValidationResult) : M unit :=
  fun results => Done tt (results ++ [finding]).

Definition lift {A} (c : completion A) : M A :=
  fun results =>
    match c with
    | Normal a => Done a results
    | TypeError => Raised results
    end.

Notation "x <- c ;; k" := (bind c (fun x => k))
  (at level 61, c at next level, right associativity).
Notation "c >> k" := (bind c (fun _ => k))
  (at level 61, right associativity).

Definition when (b : bool) (c : M unit) : M unit :=
  if b then c else ret tt.

Fixpoint forEach {A} (l : list A) (body : A -> M unit) : M unit :=
  match l with
  | [] => ret tt
  | x :: rest => body x >> forEach rest body
  end.

(** The findings array an outcome leaves. *)
Definition resultsOf {A} (o : outcome A) : list StoreValidationResult :=
  match o with
  | Done _ results => results
  | Raised results => results
  end.

Definition completed {A} (o : outcome A) : bool :=
  match o with
  | Done _ _ => true
  | Raised _ => false
  end.

Definition quote : string := String "034"%char EmptyString.

(** ** The findings the checks push *)

Module Findings.

Definition missingField (field : string) : StoreValidationResult :=
  {| category := manifest; type := error; severity := critical;
     title := "Missing " ++ field;
     message := "The " ++ field ++ " field is required for Chrome Web Store";
     requirement := "Chrome Web Store requires all extensions to have basic metadata";
     suggestion := Some ("Add " ++ quote ++ field ++ quote ++ " field to your manifest.json") |}.

Definition nameTooShort : StoreValidationResult :=
  {| category := manifest; type := error; severity := high;
     title := "Name too short";
     message := "Extension name must be at least "
                ++ numToString STORE_REQUIREMENTS.manifest.name_length_min ++ " characters";
     requirement := "Chrome Web Store naming requirements";
     suggestion := Some "Choose a more descriptive name for your extension" |}.

Definition nameTooLong : StoreValidationResult :=
  {| category := manifest; type := error; severity := high;
     title := "Name too long";
     message := "Extension name must be no more than "
                ++ numToString STORE_REQUIREMENTS.manifest.name_length_max ++ " characters";
     requirement := "Chrome Web Store naming requirements";
     suggestion := Some "Shorten your extension name" |}.

Definition descriptionTooShort : StoreValidationResult :=
  {| category := manifest; type := error; severity := high;
     title := "Description too short";
     message := "Description must be at least "
                ++ numToString STORE_REQUIREMENTS.manifest.description_length_min ++ " characters";
     requirement := "Chrome Web Store requires meaningful descriptions";
     suggestion := Some "Provide a more detailed description of your extension's functionality" |}.

Definition descriptionTooLong : StoreValidationResult :=
  {| category := manifest; type := warning; severity := medium;
     title := "Description too long";
     message := "Description should be no more than "
                ++ numToString STORE_REQUIREMENTS.manifest.description_length_max ++ " characters";
     requirement := "Chrome Web Store description guidelines";
     suggestion := Some "Shorten your description to be more concise" |}.

Definition invalidVersion : StoreValidationResult :=
  {| category := manifest; type := error; severity := high;
     title := "Invalid version format";
     message := "Version must follow semantic versioning (e.g., 1.0.0)";
     requirement := "Chrome Web Store version requirements";
     suggestion := Some "Use format like 1.0.0 or 2.1.3" |}.

Definition manifestV2 : StoreValidationResult :=
  {| category := manifest; type := warning; severity := high;
     title := "Manifest V2 deprecation";
     message := "Manifest V2 extensions will stop working in 2024";
     requirement := "Chrome Web Store is transitioning to Manifest V3";
     suggestion := Some "Migrate to Manifest V3 for future compatibility" |}.

Definition noIcons : StoreValidationResult :=
  {| category := icons; type := error; severity := critical;
     title := "No icons specified";
     message := "Chrome Web Store requires extension icons";
     requirement := "Icons are mandatory for store listing";
     suggestion := Some "Add icons field to manifest with at least 16px, 48px, and 128px sizes" |}.

Definition missingIcon (size : Z) : StoreValidationResult :=
  {| category := icons; type := error; severity := high;
     title := "Missing " ++ numToString size ++ "px icon";
     message := numToString size ++ "px icon is required for Chrome Web Store";
     requirement := "Chrome Web Store icon requirements";
     suggestion := Some ("Add a " ++ numToString size ++ "x" ++ numToString size
                         ++ " pixel icon to your extension") |}.

Definition recommendedIcon (size : Z) : StoreValidationResult :=
  {| category := icons; type := info; severity := low;
     title := "Recommended " ++ numToString size ++ "px icon missing";
     message := numToString size ++ "px icon is recommended for better display";
     requirement := "Chrome Web Store icon best practices";
     suggestion := Some ("Consider adding a " ++ numToString size ++ "x" ++ numToString size
                         ++ " pixel icon") |}.

Definition iconNotFound (iconPath : string) : StoreValidationResult :=
  {| category := icons; type := error; severity := high;
     title := "Icon file not found";
     message := "Icon file " ++ iconPath ++ " referenced in manifest but not found";
     requirement := "All referenced files must be included";
     suggestion := Some ("Include the " ++ iconPath ++ " file in your extension package") |}.

Definition largeIcon (iconPath : string) (bytes : Z) : StoreValidationResult :=
  {| category := icons; type := warning; severity := medium;
     title := "Large icon file";
     message := "Icon " ++ iconPath ++ " is " ++ toFixed1MiB bytes ++ "MB";
     requirement := "Keep icon files small for faster loading";
     suggestion := Some "Optimize icon files to reduce size" |}.

Definition broadPermission (permission : string) : StoreValidationResult :=
  {| category := permissions; type := warning; severity := high;
     title := "Broad permission: " ++ permission;
     message := "This permission may require additional review";
     requirement := "Chrome Web Store reviews extensions with broad permissions carefully";
     suggestion := Some "Consider using more specific permissions if possible" |}.

Definition manyPermissions (count : string) : StoreValidationResult :=
  {| category := permissions; type := warning; severity := medium;
     title := "Many permissions requested";
     message := "Extension requests " ++ count ++ " permissions";
     requirement := "Extensions should request minimal permissions";
     suggestion := Some "Review if all permissions are necessary" |}.

Definition hostPermissions : StoreValidationResult :=
  {| category := permissions; type := error; severity := high;
     title := "Host permissions in wrong field";
     message := "Host permissions should be in host_permissions field in Manifest V3";
     requirement := "Manifest V3 permission structure";
     suggestion := Some "Move URL patterns to host_permissions field" |}.

Definition privacyPolicyRequired : StoreValidationResult :=
  {| category := privacy; type := error; severity := critical;
     title := "Privacy policy required";
     message := "Extensions that collect user data must have a privacy policy";
     requirement := "Chrome Web Store privacy requirements";
     suggestion := Some "Add privacy policy URL to your developer dashboard" |}.

Definition identityPermission : StoreValidationResult :=
  {| category := privacy; type := info; severity := medium;
     title := "Identity permission detected";
     message := "Extension can access user identity information";
     requirement := "Clearly explain why identity access is needed";
     suggestion := Some "Document identity usage in your privacy policy" |}.

Definition cookieAccess : StoreValidationResult :=
  {| category := privacy; type := info; severity := medium;
     title := "Cookie access detected";
     message := "Extension can access website cookies";
     requirement := "Explain cookie usage to users";
     suggestion := Some "Document cookie handling in your privacy policy" |}.

Definition packageTooLarge (totalSize : Z) : StoreValidationResult :=
  {| category := content; type := error; severity := high;
     title := "Package too large";
     message := "Extension package is " ++ toFixed1MiB totalSize ++ "MB";
     requirement := "Chrome Web Store has a 128MB size limit";
     suggestion := Some "Reduce package size by optimizing assets" |}.

Definition prohibitedContent (prohibited : string) : StoreValidationResult :=
  {| category := content; type := warning; severity := high;
     title := "Potentially prohibited content";
     message := "Content may contain references to " ++ prohibited;
     requirement := "Chrome Web Store content policies";
     suggestion := Some "Review content policy compliance" |}.

Definition multipleFunctionalities : StoreValidationResult :=
  {| category := content; type := info; severity := low;
     title := "Multiple functionalities detected";
     message := "Extension has multiple types of functionality";
     requirement := "Chrome Web Store prefers single-purpose extensions";
     suggestion := Some "Ensure all features serve a cohesive purpose" |}.

End Findings.

(** ** The icon resizer dashboard (app/page.tsx)

    The pure parts of [processImages]: the size list read from the sizes
    field and the names given to the generated icons. *)

Module Dashboard.

Inductive OutputFormat : Type :=
| png | jpeg | webp.

(** White space and line terminators among the 8-bit code units. *)
Definition isWhiteSpace (c : ascii) : bool :=
  let n := nat_of_ascii c in
  ((9 <=? n) && (n <=? 13) || (n =? 32) || (n =? 160))%nat.

Fixpoint trimStart (s : string) : string :=
  match s with
  | EmptyString => EmptyString
  | String c r => if isWhiteSpace c then trimStart r else s
  end.

Fixpoint trimEnd (s : string) : string :=
  match s with
  | EmptyString => EmptyString
  | String c r =>
      if isWhiteSpace c && (trimEnd r =? "")%string then EmptyString
      else String c (trimEnd r)
  end.

(** [String.prototype.trim]. *)
Definition trim (s : string) : string := trimEnd (trimStart s).

(** [s.split(sep)] for a one-character separator. *)
Fixpoint split (sep : ascii) (s : string) : list string :=
  match s with
  | EmptyString => [EmptyString]
  | String c r =>
      if Ascii.eqb c sep then EmptyString :: split sep r
      else match split sep r with
           | piece :: pieces => String c piece :: pieces
           | [] => [String c EmptyString]
           end
  end.

(** The value of a digit in a radix, if it is one. *)
Definition digitValue (radix : Z) (c : ascii) : option Z :=
  let n := Z.of_nat (nat_of_ascii c) in
  let v := if (48 <=? n) && (n <=? 57) then Some (n - 48)
           else if (97 <=? n) && (n <=? 122) then Some (n - 87)
           else if (65 <=? n) && (n <=? 90) then Some (n - 55)
           else None in
  match v with
  | Some d => if d <? radix then Some d else None
  | None => None
  end.

(** The value of the longest prefix of digits; [None] when it is empty. *)
Fixpoint digitsPrefix (radix : Z) (acc : option Z) (s : string) : option Z :=
  match s with
  | EmptyString => acc
  | String c r =>
      match digitValue radix c with
      | Some d =>
          digitsPrefix radix
            (Some (radix * match acc with Some a => a | None => 0 end + d)) r
      | None => acc
      end
  end.

(** [Number.parseInt(s)] with no radix given; [None] is NaN.  Leading
    white space is skipped, a sign is read, a [0x] or [0X] prefix selects
    radix 16, and the longest prefix of digits is the value.  The value
    is the integer the digits denote: it is the number the engine returns
    as long as it is a safe integer ([isSafeInteger] below), which the
    properties of [sizeArray] assume. *)
Definition startsWith (c : ascii) (s : string) : bool :=
  match s with
  | String c' _ => Ascii.eqb c' c
  | EmptyString => false
  end.

Definition dropFirst (s : string) : string :=
  match s with
  | String _ r => r
  | EmptyString => EmptyString
  end.

Definition parseInt (input : string) : option Z :=
  let s := trimStart input in
  let sign := if startsWith "-" s then -1 else 1 in
  let s := if startsWith "-" s || startsWith "+" s then dropFirst s else s in
  let hex := startsWith "0" s
             && (startsWith "x" (dropFirst s) || startsWith "X" (dropFirst s)) in
  let radix := if hex then 16 else 10 in
  let s := if hex then dropFirst (dropFirst s) else s in
  match digitsPrefix radix None s with
  | Some v => Some (sign * v)
  | None => None
  end.

(** [Number.MAX_SAFE_INTEGER]: up to it in magnitude a number holds an
    integer exactly, and [parseInt] above is [Number.parseInt]; a longer
    numeral is rounded by the engine to the nearest number (or to
    Infinity), which [parseInt] does not model. *)
Definition MAX_SAFE_INTEGER : Z := 9007199254740991.

Definition isSafeInteger (v : Z) : bool := Z.abs v <=? MAX_SAFE_INTEGER.

(** The sizes fields none of whose comma-separated pieces reads as an
    integer beyond the safe ones. *)
Definition safePieces (sizes : string) : bool :=
  forallb (fun piece => match parseInt (trim piece) with
                        | Some v => isSafeInteger v
                        | None => true
                        end)
          (split ","%char sizes).

(** [sizes.split(",").map((s) => Number.parseInt(s.trim())).filter((s) => s > 0)]. *)
Definition sizeArray (sizes : string) : list Z :=
  flat_map (fun parsed =>
              match parsed with
              | Some s => if 0 <? s then [s] else []
              | None => []
              end)
           (map (fun s => parseInt (trim s)) (split ","%char sizes)).

(** [[^/.]+$]: one or more characters, none a slash or a dot, to the end. *)
Fixpoint isExtension (s : string) : bool :=
  match s with
  | EmptyString => false
  | String c r =>
      negb (Ascii.eqb c "/"%char || Ascii.eqb c "."%char)
      && match r with
         | EmptyString => true
         | _ => isExtension r
         end
  end.

(** [name.replace(/\.[^/.]+$/, "")]: the leftmost dot that an extension
    follows to the end is where the name is cut. *)
Fixpoint baseName (name : string) : string :=
  match name with
  | EmptyString => EmptyString
  | String c r =>
      if Ascii.eqb c "."%char && isExtension r then EmptyString
      else String c (baseName r)
  end.

Definition extension (outputFormat : OutputFormat) : string :=
  match outputFormat with
  | jpeg => "jpg"
  | png => "png"
  | webp => "webp"
  end.

Definition filename (name : string) (size : Z) (outputFormat : OutputFormat) : string :=
  baseName name ++ "_" ++ numToString size ++ "x" ++ numToString size
  ++ "." ++ extension outputFormat.

End Dashboard.

(** ** The checks *)

Import Findings.

(** Reads on a value that may be [undefined]. *)
Definition GetV (v : value) (k : string) : completion value :=
  match v with
  | None => TypeError
  | Some j => Get j k
  end.

Definition ToStringV (v : value) : completion string :=
  match v with
  | None => Normal "undefined"
  | Some j => ToString j
  end.

Definition entriesV (v : value) : list (string * json) :=
  match v with
  | None => []
  | Some j => entries j
  end.

Definition iterateV (v : value) : completion (list json) :=
  match v with
  | None => TypeError
  | Some j => iterate j
  end.

Definition asArrayV (v : value) : completion (list json) :=
  match v with
  | None => TypeError
  | Some j => asArray j
  end.

(** [v === n] for a number literal [n]. *)
Definition strictEqualsNum (v : value) (n : Z) : bool :=
  match v with
  | Some (JNum k) => k =? n
  | _ => false
  end.

(** The optional call [v?.some(p)]: [undefined] when [v] is nullish. *)
Definition someOpt (v : value) (p : json -> completion bool) : completion bool :=
  match v with
  | None => Normal false
  | Some JNull => Normal false
  | Some j => l <-- asArray j ;; some p l
  end.

(** The optional call [v?.includes(s)]. *)
Definition includesOpt (v : value) (s : string) : completion bool :=
  match v with
  | None => Normal false
  | Some JNull => Normal false
  | Some j => callIncludes j s
  end.

Definition bit (b : bool) : Z := if b then 1 else 0.

Section Checks.

(** How the engine orders the number a string converts to against an
    integer; [None] when the string converts to NaN. *)
Variable StringToNumber_compare : string -> Z -> option comparison.

(** ToNumber of the left operand of [v < k] or [v > k], ordered against
    the integer [k]; [None] when the operand converts to NaN. *)
Definition ToNumber_compare (v : value) (k : Z) : completion (option comparison) :=
  match v with
  | None => Normal None
  | Some JNull => Normal (Some (0 ?= k))
  | Some (JBool b) => Normal (Some (bit b ?= k))
  | Some (JNum n) => Normal (Some (n ?= k))
  | Some (JStr s) => Normal (StringToNumber_compare s k)
  | Some (JArr l) => s <-- ToString (JArr l) ;; Normal (StringToNumber_compare s k)
  | Some (JObj props) => _ <-- ToString (JObj props) ;; Normal None
  end.

Definition lessThan (v : value) (k : Z) : completion bool :=
  c <-- ToNumber_compare v k ;;
  Normal match c with Some Lt => true | _ => false end.

Definition greaterThan (v : value) (k : Z) : completion bool :=
  c <-- ToNumber_compare v k ;;
  Normal match c with Some Gt => true | _ => false end.

Definition validateManifestRequirements (manifest : json) : M unit :=
  (* Required fields *)
  forEach STORE_REQUIREMENTS.manifest.required_fields (fun field =>
    v <- lift (Get manifest field) ;;
    when (negb (truthy v)) (push (missingField field))) >>
  (* Name length validation *)
  (nameV <- lift (Get manifest "name") ;;
   when (truthy nameV)
     (nameLength <- lift (GetV nameV "length") ;;
      short <- lift (lessThan nameLength STORE_REQUIREMENTS.manifest.name_length_min) ;;
      if short then push nameTooShort
      else
        long <- lift (greaterThan nameLength STORE_REQUIREMENTS.manifest.name_length_max) ;;
        when long (push nameTooLong))) >>
  (* Description length validation *)
  (descV <- lift (Get manifest "description") ;;
   when (truthy descV)
     (descLength <- lift (GetV descV "length") ;;
      short <- lift (lessThan descLength STORE_REQUIREMENTS.manifest.description_length_min) ;;
      if short then push descriptionTooShort
      else
        long <- lift (greaterThan descLength STORE_REQUIREMENTS.manifest.description_length_max) ;;
        when long (push descriptionTooLong))) >>
  (* Version format validation *)
  (version <- lift (Get manifest "version") ;;
   bad <- lift (if truthy version
                then s <-- ToStringV version ;;
                     Normal (negb (STORE_REQUIREMENTS.manifest.version_format_test s))
                else Normal false) ;;
   when bad (push invalidVersion)) >>
  (* Manifest version check *)
  (mv <- lift (Get manifest "manifest_version") ;;
   when (strictEqualsNum mv 2) (push manifestV2)).

(** The predicate of [files.find] in the icons check. *)
Definition iconMatches (iconPath : json) (f : File) : completion bool :=
  if isString (name f) iconPath then Normal true
  else s <-- ToString iconPath ;; Normal (endsWith (name f) s).

(** The body of the loop over [Object.entries(manifest.icons)]. *)
Definition checkIconFile (files : list File) (entry : string * json) : M unit :=
  let iconPath := snd entry in
  iconFile <- lift (find (iconMatches iconPath) files) ;;
  match iconFile with
  | None =>
      p <- lift (ToString iconPath) ;;
      push (iconNotFound p)
  | Some f =>
      (* Check file size *)
      when (STORE_REQUIREMENTS.icons.max_file_size <? Z.of_N (size f))
        (p <- lift (ToString iconPath) ;;
         push (largeIcon p (Z.of_N (size f))))
  end.

Definition validateIconRequirements (manifest : json) (files : list File) : M unit :=
  iconsV <- lift (Get manifest "icons") ;;
  if negb (truthy iconsV) then push noIcons
  else
    (* Check required icon sizes *)
    forEach STORE_REQUIREMENTS.icons.required_sizes (fun size =>
      v <- lift (GetV iconsV (numToString size)) ;;
      when (negb (truthy v)) (push (missingIcon size))) >>
    (* Check recommended icon sizes *)
    forEach STORE_REQUIREMENTS.icons.recommended_sizes (fun size =>
      v <- lift (GetV iconsV (numToString size)) ;;
      when (negb (truthy v)) (push (recommendedIcon size))) >>
    (* Validate icon files exist *)
    forEach (entriesV iconsV) (checkIconFile files).

Definition validatePermissionRequirements (manifest : json) : M unit :=
  perms <- lift (Get manifest "permissions") ;;
  if negb (truthy perms) then ret tt
  else
    (* Check for dangerous permissions *)
    (ps <- lift (iterateV perms) ;;
     forEach ps (fun permission =>
       when (listIncludes STORE_REQUIREMENTS.permissions.dangerous permission)
         (p <- lift (ToString permission) ;;
          push (broadPermission p)))) >>
    (* Check for excessive permissions *)
    (n <- lift (GetV perms "length") ;;
     many <- lift (greaterThan n 10) ;;
     when many
       (s <- lift (ToStringV n) ;;
        push (manyPermissions s))) >>
    (* Check for host permissions in Manifest V3 *)
    (mv <- lift (Get manifest "manifest_version") ;;
     host <- lift (if strictEqualsNum mv 3
                   then l <-- asArrayV perms ;;
                        some (fun p => callIncludes p "://") l
                   else Normal false) ;;
     when host (push hostPermissions)).

Definition validatePrivacyRequirements (manifest : json) : M unit :=
  perms <- lift (Get manifest "permissions") ;;
  collectsData <- lift (someOpt perms (fun p =>
    Normal (listIncludes STORE_REQUIREMENTS.privacy.data_collection_apis p))) ;;
  (required <- lift (if collectsData
                     then policy <-- Get manifest "privacy_policy" ;;
                          Normal (negb (truthy policy))
                     else Normal false) ;;
   when required (push privacyPolicyRequired)) >>
  (* Check for identity permission *)
  (identity <- lift (includesOpt perms "identity") ;;
   when identity (push identityPermission)) >>
  (* Check for cookies permission *)
  (cookies <- lift (includesOpt perms "cookies") ;;
   when cookies (push cookieAccess)).

Definition totalSize (files : list File) : Z :=
  fold_left (fun sum file => sum + Z.of_N (size file)) files 0.

(** The four summands of [hasMultiplePurposes]. *)
Definition hasContentScripts (manifest : json) : completion bool :=
  scripts <-- Get manifest "content_scripts" ;;
  len <-- GetOpt scripts "length" ;;
  greaterThan len 0.

Definition hasBackground (manifest : json) : completion bool :=
  background <-- Get manifest "background" ;;
  Normal (truthy background).

Definition hasAction (manifest : json) : completion bool :=
  action <-- Get manifest "action" ;;
  if truthy action then Normal true
  else browser_action <-- Get manifest "browser_action" ;;
       Normal (truthy browser_action).

Definition hasOptionsPage (manifest : json) : completion bool :=
  options_page <-- Get manifest "options_page" ;;
  Normal (truthy options_page).

Definition hasMultiplePurposes (manifest : json) : completion bool :=
  scripts <-- hasContentScripts manifest ;;
  background <-- hasBackground manifest ;;
  action <-- hasAction manifest ;;
  options <-- hasOptionsPage manifest ;;
  Normal (2 <? bit scripts + bit background + bit action + bit options).

(** The three parts of the content check. *)
Definition checkPackageSize (files : list File) : M unit :=
  when (STORE_REQUIREMENTS.content.max_package_size <? totalSize files)
    (push (packageTooLarge (totalSize files))).

Definition checkProhibitedContent (manifest : json) : M unit :=
  textContent <- lift (nameV <-- Get manifest "name" ;;
                       descV <-- Get manifest "description" ;;
                       a <-- joinItem nameV ;;
                       b <-- joinItem descV ;;
                       Normal (toLowerCase (a ++ " " ++ b))) ;;
  forEach STORE_REQUIREMENTS.content.prohibited_content (fun prohibited =>
    when (includes textContent prohibited) (push (prohibitedContent prohibited))).

Definition checkSinglePurpose (manifest : json) : M unit :=
  multiple <- lift (hasMultiplePurposes manifest) ;;
  when multiple (push multipleFunctionalities).

Definition validateContentPolicies (manifest : json) (files : list File) : M unit :=
  (* Check package size *)
  checkPackageSize files >>
  (* Check for prohibited content keywords *)
  checkProhibitedContent manifest >>
  (* Check for single purpose *)
  checkSinglePurpose manifest.

(** ** The component state and a validation run *)

Record Toast : Type := mkToast {
  toastTitle : string;
  description : string;
  variant : string
}.

Record State : Type := mkState {
  validationResults : list StoreValidationResult;
  isValidating : bool;
  progress : Z;
  overallScore : Z
}.

Definition setValidationResults (r : list StoreValidationResult) (st : State) : State :=
  {| validationResults := r; isValidating := isValidating st;
     progress := progress st; overallScore := overallScore st |}.

Definition setIsValidating (b : bool) (st : State) : State :=
  {| validationResults := validationResults st; isValidating := b;
     progress := progress st; overallScore := overallScore st |}.

Definition setProgress (p : Z) (st : State) : State :=
  {| validationResults := validationResults st; isValidating := isValidating st;
     progress := p; overallScore := overallScore st |}.

Definition setOverallScore (score : Z) (st : State) : State :=
  {| validationResults := validationResults st; isValidating := isValidating st;
     progress := progress st; overallScore := score |}.

(** The state of a freshly mounted component. *)
Definition initialState : State :=
  {| validationResults := []; isValidating := false; progress := 0; overallScore := 0 |}.

Definition weights (s : Severity) : Z :=
  match s with
  | critical => -25
  | high => -15
  | medium => -10
  | low => -5
  end.

(** [x || 0] on a number. *)
Definition orZero (x : Z) : Z := if x =? 0 then 0 else x.

Definition penalties (results : list StoreValidationResult) : Z :=
  fold_left (fun sum result => sum + orZero (weights (severity result))) results 0.

Definition calculateOverallScore (results : list StoreValidationResult) (st : State) : State :=
  let score := Z.max 0 (Z.min 100 (100 + penalties results)) in
  setOverallScore score st.

Definition isCritical (r : StoreValidationResult) : bool :=
  match severity r with critical => true | _ => false end.

Definition isError (r : StoreValidationResult) : bool :=
  match type r with error => true | _ => false end.

Definition validationComplete (results : list StoreValidationResult) : Toast :=
  let criticalIssues := Z.of_nat (List.length (filter isCritical results)) in
  let errors := Z.of_nat (List.length (filter isError results)) in
  {| toastTitle := "Store validation complete";
     description := "Found " ++ numToString criticalIssues ++ " critical issues and "
                    ++ numToString errors ++ " errors";
     variant := if 0 <? criticalIssues then "destructive" else "default" |}.

Definition validationFailed : Toast :=
  {| toastTitle := "Validation failed";
     description := "An error occurred during store validation";
     variant := "destructive" |}.

Definition validateForStore (manifest : json) (files : list File) (st : State) : State * Toast :=
  let st := setIsValidating true st in
  let st := setProgress 0 st in
  let results := [] in
  let '(st, toast) :=
    (* Validate manifest requirements *)
    match validateManifestRequirements manifest results with
    | Raised _ => (st, validationFailed)
    | Done _ results =>
    let st := setProgress 20 st in
    (* Validate icons *)
    match validateIconRequirements manifest files results with
    | Raised _ => (st, validationFailed)
    | Done _ results =>
    let st := setProgress 40 st in
    (* Validate permissions *)
    match validatePermissionRequirements manifest results with
    | Raised _ => (st, validationFailed)
    | Done _ results =>
    let st := setProgress 60 st in
    (* Validate privacy requirements *)
    match validatePrivacyRequirements manifest results with
    | Raised _ => (st, validationFailed)
    | Done _ results =>
    let st := setProgress 80 st in
    (* Validate content policies *)
    match validateContentPolicies manifest files results with
    | Raised _ => (st, validationFailed)
    | Done _ results =>
    let st := setProgress 100 st in
    let st := setValidationResults results st in
    let st := calculateOverallScore results st in
    (st, validationComplete results)
    end end end end end
  in
  (* finally *)
  (setIsValidating false st, toast).

(** The five checks in the order [validateForStore] runs them, over one
    findings array. *)
Definition runChecks (manifest : json) (files : list File) : M unit :=
  validateManifestRequirements manifest >>
  validateIconRequirements manifest files >>
  validatePermissionRequirements manifest >>
  validatePrivacyRequirements manifest >>
  validateContentPolicies manifest files.

(** ** Reasoning about the findings array *)

Local Open Scope list_scope.

(** An outcome seen from an array that already held [r]. *)
Definition appendOutcome {A} (r : list StoreValidationResult) (o : outcome A) : outcome A :=
  match o with
  | Done a r' => Done a (r ++ r')
  | Raised r' => Raised (r ++ r')
  end.

(** The findings a check pushes when started on an empty array. *)
Definition emitted {A} (c : M A) : list StoreValidationResult :=
  resultsOf (c []).

(** A computation that only appends to the array, every pushed finding
    satisfying [P]. *)
Definition appendsOnly {A} (P : StoreValidationResult -> Prop) (c : M A) : Prop :=
  (forall r, c r = appendOutcome r (c [])) /\ Forall P (emitted c).

Definition sumZ (l : list Z) : Z := fold_right Z.add 0 l.

(** The penalty table as the specification words it. *)
Definition penaltyOf (r : StoreValidationResult) : Z :=
  match severity r with
  | critical => -25
  | high => -15
  | medium => -10
  | low => -5
  end.

(** The findings each check can push. *)
Inductive manifestFinding : StoreValidationResult -> Prop :=
| mf_missing field :
    In field STORE_REQUIREMENTS.manifest.required_fields -> manifestFinding (missingField field)
| mf_nameTooShort : manifestFinding nameTooShort
| mf_nameTooLong : manifestFinding nameTooLong
| mf_descriptionTooShort : manifestFinding descriptionTooShort
| mf_descriptionTooLong : manifestFinding descriptionTooLong
| mf_invalidVersion : manifestFinding invalidVersion
| mf_manifestV2 : manifestFinding manifestV2.

Inductive iconFinding : StoreValidationResult -> Prop :=
| if_noIcons : iconFinding noIcons
| if_missing size :
    In size STORE_REQUIREMENTS.icons.required_sizes -> iconFinding (missingIcon size)
| if_recommended size :
    In size STORE_REQUIREMENTS.icons.recommended_sizes -> iconFinding (recommendedIcon size)
| if_notFound iconPath : iconFinding (iconNotFound iconPath)
| if_large iconPath bytes : iconFinding (largeIcon iconPath bytes).

Inductive permissionFinding : StoreValidationResult -> Prop :=
| pf_broad permission : permissionFinding (broadPermission permission)
| pf_many count : permissionFinding (manyPermissions count)
| pf_host : permissionFinding hostPermissions.

Inductive privacyFinding : StoreValidationResult -> Prop :=
| vf_policy : privacyFinding privacyPolicyRequired
| vf_identity : privacyFinding identityPermission
| vf_cookies : privacyFinding cookieAccess.

Inductive contentFinding : StoreValidationResult -> Prop :=
| cf_package total : contentFinding (packageTooLarge total)
| cf_prohibited prohibited :
    In prohibited STORE_REQUIREMENTS.content.prohibited_content ->
    contentFinding (prohibitedContent prohibited)
| cf_multiple : contentFinding multipleFunctionalities.

(** The first file whose name is the declared path or ends with it. *)
Definition matchingFile (iconPath : string) (files : list File) : option File :=
  List.find (fun f => (name f =? iconPath)%string || endsWith (name f) iconPath) files.

(** What the icons check reports for one declared path. *)
Definition iconEntryFindings (files : list File) (iconPath : string)
  : list StoreValidationResult :=
  match matchingFile iconPath files with
  | None => [iconNotFound iconPath]
  | Some f =>
      if STORE_REQUIREMENTS.icons.max_file_size <? Z.of_N (size f)
      then [largeIcon iconPath (Z.of_N (size f))]
      else []
  end.

(** What it reports for the sizes the declared icons lack. *)
Definition missingSizeFindings (declared : list (string * json)) : list StoreValidationResult :=
  flat_map (fun size => if truthy (lookup (numToString size) declared)
                        then [] else [missingIcon size])
           STORE_REQUIREMENTS.icons.required_sizes
  ++ flat_map (fun size => if truthy (lookup (numToString size) declared)
                           then [] else [recommendedIcon size])
              STORE_REQUIREMENTS.icons.recommended_sizes.

(** An icons mapping from sizes to paths, as the decoded manifest holds it. *)
Definition iconsObject (declared : list (string * string)) : list (string * json) :=
  map (fun entry => (fst entry, JStr (snd entry))) declared.

(** The findings of a list that carry a given title. *)
Definition withTitle (t : string) (l : list StoreValidationResult)
  : list StoreValidationResult :=
  filter (fun f => (title f =? t)%string) l.

(** The number of [true] among some flags. *)
Definition trueCount (flags : list bool) : Z :=
  Z.of_nat (List.length (filter (fun b => b) flags)).

(** Adding a property to an object (or giving an existing one a value). *)
Fixpoint setProp (k : string) (v : json) (props : list (string * json))
  : list (string * json) :=
  match props with
  | [] => [(k, v)]
  | (k', v') :: rest =>
      if (k =? k')%string then (k, v) :: rest else (k', v') :: setProp k v rest
  end.

(** Removing a property from an object. *)
Definition deleteProp (k : string) (props : list (string * json)) : list (string * json) :=
  filter (fun entry => negb (k =? fst entry)%string) props.

Definition withoutTitle (t : string) (l : list StoreValidationResult)
  : list StoreValidationResult :=
  filter (fun f => negb (title f =? t)%string) l.

(** The findings of the validations that follow a required field's
    presence test: length for name and description, format for version,
    the deprecation notice for manifest_version. *)
Definition followUps (field : string) : list StoreValidationResult :=
  if (field =? "name")%string then [nameTooShort; nameTooLong]
  else if (field =? "description")%string then [descriptionTooShort; descriptionTooLong]
  else if (field =? "version")%string then [invalidVersion]
  else if (field =? "manifest_version")%string then [manifestV2]
  else [].

(** A follow-up finding is pushed only for a field that passed its test. *)
Definition followUpGuard (props : list (string * json)) (f : StoreValidationResult) : Prop :=
  (In f (followUps "name") -> truthy (lookup "name" props) = true)
  /\ (In f (followUps "description") -> truthy (lookup "description" props) = true)
  /\ (In f (followUps "version") -> truthy (lookup "version" props) = true)
  /\ (In f (followUps "manifest_version") ->
      lookup "manifest_version" props = Some (JNum 2)).

(** The JSON values that are falsy. *)
Definition falsyValues : list json := [JStr ""; JNum 0; JBool false; JNull].

(** Shapes of manifest fields under which no check raises. *)
Definition primitive (v : json) : bool :=
  match v with
  | JArr _ => false
  | JObj _ => false
  | _ => true
  end.

Definition primitiveOrAbsent (v : value) : bool :=
  match v with
  | None => true
  | Some j => primitive j
  end.

Definition isJStr (v : json) : bool :=
  match v with
  | JStr _ => true
  | _ => false
  end.

Definition stringsOrAbsent (v : value) : bool :=
  match v with
  | None => true
  | Some JNull => true
  | Some (JArr l) => forallb isJStr l
  | Some _ => false
  end.

Definition notObject (v : value) : bool :=
  match v with
  | Some (JObj _) => false
  | _ => true
  end.

(** name, description and version absent or primitive; the values of the
    icons entries primitive; permissions absent, null or an array of
    strings; content_scripts absent or anything but a key-value object. *)
Definition wellShaped (props : list (string * json)) : bool :=
  primitiveOrAbsent (lookup "name" props)
  && primitiveOrAbsent (lookup "description" props)
  && primitiveOrAbsent (lookup "version" props)
  && forallb (fun entry => primitive (snd entry)) (entriesV (lookup "icons" props))
  && stringsOrAbsent (lookup "permissions" props)
  && notObject (lookup "content_scripts" props).

Definition isNormal {A} (c : completion A) : bool :=
  match c with
  | Normal _ => true
  | TypeError => false
  end.

(** A computation that raises from no findings array. *)
Definition completes {A} (c : M A) : Prop :=
  forall r, completed (c r) = true.

(** ** What the component renders from its state *)

Definition getScoreColor (score : Z) : string :=
  if 90 <=? score then "text-green-600"
  else if 70 <=? score then "text-yellow-600"
  else "text-red-600".

Definition getScoreLabel (score : Z) : string :=
  if 90 <=? score then "Excellent"
  else if 80 <=? score then "Good"
  else if 70 <=? score then "Fair"
  else if 60 <=? score then "Poor"
  else "Critical Issues".

Definition isWarning (r : StoreValidationResult) : bool :=
  match type r with warning => true | _ => false end.

Definition isSuccess (r : StoreValidationResult) : bool :=
  match type r with success => true | _ => false end.

Definition criticalIssues (st : State) : Z :=
  Z.of_nat (List.length (filter isCritical (validationResults st))).

Definition errors (st : State) : Z :=
  Z.of_nat (List.length (filter isError (validationResults st))).

Definition warnings (st : State) : Z :=
  Z.of_nat (List.length (filter isWarning (validationResults st))).

(** The score card is rendered under [overallScore > 0]. *)
Definition showsScoreCard (st : State) : bool := 0 <? overallScore st.

(** The three figures of the store readiness summary. *)
Definition complianceScore (st : State) : Z := 100 - criticalIssues st * 10.

Definition requirementsMet (st : State) : Z :=
  Z.of_nat (List.length (filter isSuccess (validationResults st))).

Definition daysToReview (st : State) : Z :=
  Z.max 0 (7 - criticalIssues st - errors st).

Definition Category_eqb (a b : Category) : bool :=
  match a, b with
  | manifest, manifest => true
  | icons, icons => true
  | privacy, privacy => true
  | content, content => true
  | permissions, permissions => true
  | metadata, metadata => true
  | _, _ => false
  end.

(** The findings listed under a category tab, and under the issues tab. *)
Definition categoryTab (c : Category) (st : State) : list StoreValidationResult :=
  filter (fun r => Category_eqb (category r) c) (validationResults st).

Definition issuesTab (st : State) : list StoreValidationResult :=
  filter (fun r => isCritical r || isError r) (validationResults st).

(** ** Uploads *)

(** [JSON.parse] is an argument of the handlers below: a function from
    the text of the manifest file to the decoded value, [None] when it
    throws. *)

(** A file of an upload together with the text [file.text()] resolves to. *)
Record Upload : Type := mkUpload {
  file : File;
  text : string
}.

Record Component : Type := mkComponent {
  store : State;
  extensionData : option json;
  dragActive : bool
}.

Definition setStore (st : State) (c : Component) : Component :=
  {| store := st; extensionData := extensionData c; dragActive := dragActive c |}.

Definition setExtensionData (m : json) (c : Component) : Component :=
  {| store := store c; extensionData := Some m; dragActive := dragActive c |}.

Definition setDragActive (b : bool) (c : Component) : Component :=
  {| store := store c; extensionData := extensionData c; dragActive := b |}.

Definition handleDrag (eventType : string) (c : Component) : Component :=
  if (eventType =? "dragenter")%string || (eventType =? "dragover")%string
  then setDragActive true c
  else if (eventType =? "dragleave")%string then setDragActive false c
  else c.

Definition invalidManifest : Toast :=
  {| toastTitle := "Invalid manifest";
     description := "Could not parse manifest.json";
     variant := "destructive" |}.

Definition manifestNotFound : Toast :=
  {| toastTitle := "Manifest not found";
     description := "Please include manifest.json in your upload";
     variant := "destructive" |}.

Definition findManifestFile (uploads : list Upload) : option Upload :=
  List.find (fun f => (name (file f) =? "manifest.json")%string) uploads.

(** The part the drop handler and the file input share: parse the
    manifest file and validate it against all the files. *)
Definition parseAndValidate (JSON_parse : string -> option json)
                            (manifestFile : Upload) (uploads : list Upload)
                            (c : Component) : Component * Toast :=
  match JSON_parse (text manifestFile) with
  | Some decoded =>
      let c := setExtensionData decoded c in
      let '(st, toast) := validateForStore decoded (map file uploads) (store c) in
      (setStore st c, toast)
  | None => (c, invalidManifest)
  end.

Definition handleDrop (JSON_parse : string -> option json)
                      (uploads : list Upload) (c : Component) : Component * Toast :=
  let c := setDragActive false c in
  match findManifestFile uploads with
  | Some manifestFile => parseAndValidate JSON_parse manifestFile uploads c
  | None => (c, manifestNotFound)
  end.

(** The [onChange] handler of the file input: no toast without a manifest. *)
Definition handleFileInput (JSON_parse : string -> option json)
                          (uploads : list Upload) (c : Component)
  : Component * option Toast :=
  match findManifestFile uploads with
  | Some manifestFile =>
      let '(c', toast) := parseAndValidate JSON_parse manifestFile uploads c in
      (c', Some toast)
  | None => (c, None)
  end.

(** ** The manifest check on primitive fields *)

(** The findings of the required-field loop. *)
Definition missingFindings (props : list (string * json)) : list StoreValidationResult :=
  flat_map (fun field => if truthy (lookup field props) then [] else [missingField field])
           STORE_REQUIREMENTS.manifest.required_fields.

(** The findings of a length validation on a field that is absent or
    primitive: only a non-empty string has a length to compare. *)
Definition lengthFindings (v : value) (lo hi : Z)
                          (tooShort tooLong : StoreValidationResult)
  : list StoreValidationResult :=
  match v with
  | Some (JStr s) =>
      if (s =? "")%string then []
      else if Z.of_nat (String.length s) <? lo then [tooShort]
      else if hi <? Z.of_nat (String.length s) then [tooLong]
      else []
  | _ => []
  end.

Definition versionFindings (v : value) : list StoreValidationResult :=
  if truthy v
  then match ToStringV v with
       | Normal s =>
           if STORE_REQUIREMENTS.manifest.version_format_test s then [] else [invalidVersion]
       | TypeError => []
       end
  else [].

(** One or more groups of one or more digits, joined by dots. *)
Definition isVersionNumber (s : string) : Prop :=
  exists groups,
    groups <> []
    /\ Forall (fun g => g <> EmptyString /\ allDigits g = true) groups
    /\ s = String.concat "." groups.


(** Whether a character occurs in a string. *)
Fixpoint hasChar (c : ascii) (s : string) : bool :=
  match s with
  | EmptyString => false
  | String c' r => Ascii.eqb c c' || hasChar c r
  end.

(** An occurrence of [needle] in [s]. *)
Definition occursIn (needle s : string) : Prop :=
  exists pre post, s = (pre ++ needle ++ post)%string.


(** ** Sample inputs *)

(** The conversion used with the samples: an unsigned decimal numeral
    converts to its value and the empty string to 0; any other string is
    taken to convert to NaN, which no sample relies on. *)
Definition decimalCompare (s : string) (k : Z) : option comparison :=
  if allDigits s then Some (Z.of_nat (digitsValue 0 s) ?= k) else None.

Definition emptyManifest : list (string * json) := [].

Definition tabsManifest : list (string * json) :=
  [("permissions", JArr [JStr "tabs"])].

Definition policyUrl : json := JStr "https://example.com/policy".

Definition icon128Manifest : list (string * json) :=
  [("icons", JObj (iconsObject [("128", "icon128.png")]))].

Definition blankNameManifest : list (string * json) :=
  [("name", JStr ""); ("version", JStr "1.0.0");
   ("description", JStr "A sample extension"); ("manifest_version", JNum 0)].

Definition manyPurposesManifest : list (string * json) :=
  [("name", JStr "Sample"); ("content_scripts", JArr [JObj []]);
   ("background", JObj []); ("action", JObj [])].

(** permissions written as a string instead of an array. *)
Definition stringPermissionsManifest : list (string * json) :=
  [("permissions", JStr "tabs")].

Definition largePackage : list File :=
  [mkFile "bundle.js" 136314880].

(** A first draft: a name and a description that are too short, and the
    deprecated manifest version. *)
Definition draftManifest : list (string * json) :=
  [("name", JStr "Ab"); ("version", JStr "1.0");
   ("description", JStr "Too short"); ("manifest_version", JNum 2)].

Definition miningManifest : list (string * json) :=
  [("name", JStr "Coin Mining Helper"); ("description", JStr "Shows the hash rate")].

(** permissions written as the number 0. *)
Definition zeroPermissionsManifest : list (string * json) :=
  [("permissions", JNum 0)].

(** A decoder that knows the text of the empty object only. *)
Definition sampleParse (source : string) : option json :=
  if (source =? "{}")%string then Some (JObj []) else None.

Definition brokenUpload : list Upload :=
  [mkUpload (mkFile "manifest.json" 1) "{"].

Definition sampleUpload : list Upload :=
  [mkUpload (mkFile "icon128.png" 2048) ""; mkUpload (mkFile "manifest.json" 2) "{}"].

Definition initialComponent : Component :=
  {| store := initialState; extensionData := None; dragActive := true |}.

Definition previousReport : State :=
  {| validationResults := [noIcons]; isValidating := false;
     progress := 100; overallScore := 75 |}.

(** A manifest on which the only finding is the missing icons. *)
Definition noIconsManifest : list (string * json) :=
  [("name", JStr "Tab Helper"); ("version", JStr "1.0.0");
   ("description", JStr "Keeps your tabs tidy"); ("manifest_version", JNum 3)].

(** A name that cannot be converted to a string, and three purposes. *)
Definition objectNameManifest : list (string * json) :=
  [("name", JObj [("toString", JNum 1)]); ("content_scripts", JArr [JObj []]);
   ("background", JObj []); ("action", JObj [])].

(** * Properties *)

Local Open Scope list_scope.

(** ** The findings array is append-only *)

Lemma appendOutcome_nil {A} (o : outcome A) : appendOutcome [] o = o.
Proof. destruct o; reflexivity. Qed.

Lemma appendOutcome_app {A} (r1 r2 : list StoreValidationResult) (o : outcome A) :
  appendOutcome r1 (appendOutcome r2 o) = appendOutcome (r1 ++ r2) o.
Proof. destruct o; simpl; now rewrite app_assoc. Qed.

Lemma resultsOf_appendOutcome {A} r (o : outcome A) :
  resultsOf (appendOutcome r o) = r ++ resultsOf o.
Proof. destruct o; reflexivity. Qed.

Lemma completed_appendOutcome {A} r (o : outcome A) :
  completed (appendOutcome r o) = completed o.
Proof. destruct o; reflexivity. Qed.

Section AppendsOnly.

Variable P : StoreValidationResult -> Prop.

Lemma appendsOnly_ret {A} (a : A) : appendsOnly P (ret a).
Proof.
  split; [intro r; unfold ret; simpl; now rewrite app_nil_r | constructor].
Qed.

Lemma appendsOnly_push f : P f -> appendsOnly P (push f).
Proof.
  intro Hf; split; [reflexivity | repeat constructor; exact Hf].
Qed.

Lemma appendsOnly_lift {A} (c : completion A) : appendsOnly P (lift c).
Proof.
  split.
  - intro r; destruct c; simpl; now rewrite app_nil_r.
  - destruct c; constructor.
Qed.

Lemma appendsOnly_bind {A B} (c : M A) (k : A -> M B) :
  appendsOnly P c -> (forall a, appendsOnly P (k a)) -> appendsOnly P (bind c k).
Proof.
  intros [Hc Pc] Hk; unfold emitted in *.
  assert (Hrun : forall r, bind c k r =
                 match c [] with
                 | Done a r1 => appendOutcome (r ++ r1) (k a [])
                 | Raised r1 => Raised (r ++ r1)
                 end).
  { intro r; unfold bind; rewrite (Hc r).
    destruct (c []) as [a r1 | r1]; simpl; [| reflexivity].
    destruct (Hk a) as [Ha _]; apply Ha. }
  split.
  - intro r; rewrite (Hrun r), (Hrun []).
    destruct (c []) as [a r1 | r1]; simpl; [| reflexivity].
    now rewrite appendOutcome_app.
  - unfold emitted; rewrite (Hrun []); simpl.
    destruct (c []) as [a r1 | r1]; simpl in *; [| exact Pc].
    destruct (Hk a) as [_ Pa]; unfold emitted in Pa.
    rewrite resultsOf_appendOutcome.
    apply Forall_app; split; assumption.
Qed.

Lemma appendsOnly_when (b : bool) (c : M unit) :
  (b = true -> appendsOnly P c) -> appendsOnly P (when b c).
Proof.
  destruct b; simpl; intro H; [now apply H | apply appendsOnly_ret].
Qed.

Lemma appendsOnly_forEach {A} (l : list A) (body : A -> M unit) :
  (forall x, In x l -> appendsOnly P (body x)) -> appendsOnly P (forEach l body).
Proof.
  induction l as [| x rest IH]; intro H; simpl.
  - apply appendsOnly_ret.
  - apply appendsOnly_bind; [apply H; now left |].
    intros _; apply IH; intros y Hy; apply H; now right.
Qed.

End AppendsOnly.

Lemma appendsOnly_run {A} P (c : M A) r :
  appendsOnly P c -> c r = appendOutcome r (c []).
Proof. intros [H _]; apply H. Qed.

Lemma appendsOnly_weaken {A} (P Q : StoreValidationResult -> Prop) (c : M A) :
  (forall f, P f -> Q f) -> appendsOnly P c -> appendsOnly Q c.
Proof.
  intros HPQ [H1 H2]; split; [exact H1 |].
  eapply Forall_impl; eauto.
Qed.

(** ** Scoring *)

Lemma orZero_id x : orZero x = x.
Proof. unfold orZero; destruct (Z.eqb_spec x 0); congruence. Qed.

Lemma weights_penaltyOf r : orZero (weights (severity r)) = penaltyOf r.
Proof. rewrite orZero_id; unfold penaltyOf; now destruct (severity r). Qed.

Lemma penalties_from acc results :
  fold_left (fun sum result => sum + orZero (weights (severity result))) results acc
  = acc + sumZ (map penaltyOf results).
Proof.
  revert acc; induction results as [| r rest IH]; intro acc; simpl.
  - lia.
  - rewrite IH, weights_penaltyOf; lia.
Qed.

Lemma penalties_sum results : penalties results = sumZ (map penaltyOf results).
Proof. unfold penalties; now rewrite penalties_from. Qed.

Lemma penaltyOf_neg r : penaltyOf r < 0.
Proof. unfold penaltyOf; destruct (severity r); lia. Qed.

Lemma penalties_nonpos results : penalties results <= 0.
Proof.
  rewrite penalties_sum; induction results as [| r rest IH]; simpl; [lia |].
  pose proof (penaltyOf_neg r); lia.
Qed.

Lemma penalties_app r1 r2 : penalties (r1 ++ r2) = penalties r1 + penalties r2.
Proof.
  rewrite !penalties_sum, map_app; induction (map penaltyOf r1); simpl; lia.
Qed.

(** C1: the score set by [calculateOverallScore] is
    max(0, min(100, 100 + sum of the findings' penalties)), the penalty of
    a finding depending on its severity alone (critical -25, high -15,
    medium -10, low -5); hence it lies between 0 and 100. *)
Theorem calculateOverallScore_formula :
  forall (results : list StoreValidationResult) (st : State),
    let score := overallScore (calculateOverallScore results st) in
    score = Z.max 0 (Z.min 100 (100 + sumZ (map penaltyOf results)))
    /\ (forall r, penaltyOf r =
                  match severity r with
                  | critical => -25 | high => -15 | medium => -10 | low => -5
                  end)
    /\ 0 <= score <= 100.
Proof.
  intros results st.
  cbv zeta; unfold calculateOverallScore, setOverallScore; cbn [overallScore].
  rewrite penalties_sum.
  repeat split; lia.
Qed.

(** C4: one more critical finding lowers the score by exactly 25, down to
    0 at most. *)
Theorem critical_finding_lowers_score :
  forall (results : list StoreValidationResult) (extra : StoreValidationResult) (st : State),
    severity extra = critical ->
    let old := overallScore (calculateOverallScore results st) in
    let new := overallScore (calculateOverallScore (results ++ [extra]) st) in
    new = Z.max 0 (Z.min 100 (100 + penalties results - 25))
    /\ new = Z.max 0 (old - 25)
    /\ (0 < old -> new < old).
Proof.
  intros results extra st Hsev.
  cbv zeta; unfold calculateOverallScore, setOverallScore; cbn [overallScore].
  rewrite penalties_app.
  assert (Hx : penalties [extra] = -25).
  { rewrite penalties_sum; simpl; unfold penaltyOf; rewrite Hsev; reflexivity. }
  rewrite Hx.
  pose proof (penalties_nonpos results).
  repeat split; lia.
Qed.

(** ** Every check only appends findings of its own kind *)

Ltac appends_step :=
  first
    [ apply appendsOnly_ret
    | apply appendsOnly_lift
    | apply appendsOnly_push
    | apply appendsOnly_bind; [| intros ?]
    | apply appendsOnly_when; intros ?
    | apply appendsOnly_forEach; intros ? ?
    | match goal with
      | |- appendsOnly _ (if ?b then _ else _) => destruct b
      | |- appendsOnly _ (match ?x with _ => _ end) => destruct x
      end ].

Ltac appends := repeat appends_step.

Lemma validateManifestRequirements_appendsOnly manifest :
  appendsOnly manifestFinding (validateManifestRequirements manifest).
Proof.
  unfold validateManifestRequirements; appends; try (constructor; simpl; tauto).
Qed.

Lemma checkIconFile_appendsOnly files entry :
  appendsOnly iconFinding (checkIconFile files entry).
Proof.
  unfold checkIconFile; appends; constructor.
Qed.

Lemma validateIconRequirements_appendsOnly manifest files :
  appendsOnly iconFinding (validateIconRequirements manifest files).
Proof.
  unfold validateIconRequirements; appends;
    try apply checkIconFile_appendsOnly; try (constructor; simpl; tauto).
Qed.

Lemma validatePermissionRequirements_appendsOnly manifest :
  appendsOnly permissionFinding (validatePermissionRequirements manifest).
Proof.
  unfold validatePermissionRequirements; appends; constructor.
Qed.

Lemma validatePrivacyRequirements_appendsOnly manifest :
  appendsOnly privacyFinding (validatePrivacyRequirements manifest).
Proof.
  unfold validatePrivacyRequirements; appends; constructor.
Qed.

Lemma checkPackageSize_appendsOnly files :
  appendsOnly contentFinding (checkPackageSize files).
Proof. unfold checkPackageSize; appends; constructor. Qed.

Lemma checkProhibitedContent_appendsOnly manifest :
  appendsOnly (fun f => exists prohibited, f = prohibitedContent prohibited)
    (checkProhibitedContent manifest).
Proof. unfold checkProhibitedContent; appends; eexists; reflexivity. Qed.

Lemma checkSinglePurpose_appendsOnly manifest :
  appendsOnly contentFinding (checkSinglePurpose manifest).
Proof. unfold checkSinglePurpose; appends; constructor. Qed.

Lemma validateContentPolicies_appendsOnly manifest files :
  appendsOnly contentFinding (validateContentPolicies manifest files).
Proof.
  unfold validateContentPolicies.
  apply appendsOnly_bind; [apply checkPackageSize_appendsOnly | intros _].
  apply appendsOnly_bind; [| intros _; apply checkSinglePurpose_appendsOnly].
  unfold checkProhibitedContent; appends; constructor; simpl; tauto.
Qed.

(** ** A run of the five checks *)

Lemma resultsOf_seq (c k : M unit) :
  (forall r, k r = appendOutcome r (k [])) ->
  resultsOf ((c >> k) []) = emitted c ++ (if completed (c []) then emitted k else []).
Proof.
  intro Hk; unfold bind, emitted.
  destruct (c []) as [[] r1 | r1]; simpl.
  - now rewrite (Hk r1), resultsOf_appendOutcome.
  - now rewrite app_nil_r.
Qed.

Lemma completed_seq (c k : M unit) :
  (forall r, k r = appendOutcome r (k [])) ->
  completed ((c >> k) []) = completed (c []) && completed (k []).
Proof.
  intro Hk; unfold bind.
  destruct (c []) as [[] r1 | r1]; simpl; [| reflexivity].
  now rewrite (Hk r1), completed_appendOutcome.
Qed.

Lemma appendsOnly_any {A} P (c : M A) :
  appendsOnly P c -> appendsOnly (fun _ => True) c.
Proof. apply appendsOnly_weaken; intros; exact I. Qed.

Lemma afterManifest_appendsOnly manifest files :
  appendsOnly (fun _ => True)
    (validateIconRequirements manifest files >>
     validatePermissionRequirements manifest >>
     validatePrivacyRequirements manifest >>
     validateContentPolicies manifest files).
Proof.
  apply appendsOnly_bind;
    [exact (appendsOnly_any _ _ (validateIconRequirements_appendsOnly manifest files)) | intros _].
  apply appendsOnly_bind;
    [exact (appendsOnly_any _ _ (validatePermissionRequirements_appendsOnly manifest)) | intros _].
  apply appendsOnly_bind;
    [exact (appendsOnly_any _ _ (validatePrivacyRequirements_appendsOnly manifest)) | intros _].
  exact (appendsOnly_any _ _ (validateContentPolicies_appendsOnly manifest files)).
Qed.

Lemma runChecks_appendsOnly manifest files :
  appendsOnly (fun _ => True) (runChecks manifest files).
Proof.
  unfold runChecks.
  apply appendsOnly_bind;
    [exact (appendsOnly_any _ _ (validateManifestRequirements_appendsOnly manifest)) | intros _].
  apply afterManifest_appendsOnly.
Qed.

(** The findings of a run start with those of the manifest check. *)
Lemma runChecks_starts_with_manifest manifest files :
  exists rest,
    resultsOf (runChecks manifest files []) =
    emitted (validateManifestRequirements manifest) ++ rest.
Proof.
  unfold runChecks.
  rewrite resultsOf_seq; [eexists; reflexivity |].
  intro r; apply (afterManifest_appendsOnly manifest files).
Qed.

(** ** The findings of a run, check by check *)

Lemma afterIcons_appendsOnly manifest files :
  appendsOnly (fun _ => True)
    (validatePermissionRequirements manifest >>
     validatePrivacyRequirements manifest >>
     validateContentPolicies manifest files).
Proof.
  apply appendsOnly_bind;
    [exact (appendsOnly_any _ _ (validatePermissionRequirements_appendsOnly manifest)) | intros _].
  apply appendsOnly_bind;
    [exact (appendsOnly_any _ _ (validatePrivacyRequirements_appendsOnly manifest)) | intros _].
  exact (appendsOnly_any _ _ (validateContentPolicies_appendsOnly manifest files)).
Qed.

Lemma afterPermissions_appendsOnly manifest files :
  appendsOnly (fun _ => True)
    (validatePrivacyRequirements manifest >>
     validateContentPolicies manifest files).
Proof.
  apply appendsOnly_bind;
    [exact (appendsOnly_any _ _ (validatePrivacyRequirements_appendsOnly manifest)) | intros _].
  exact (appendsOnly_any _ _ (validateContentPolicies_appendsOnly manifest files)).
Qed.

(** The findings array after a run: the findings of each check in turn,
    up to and including the first check that raises. *)
Lemma runChecks_results manifest files :
  resultsOf (runChecks manifest files []) =
  emitted (validateManifestRequirements manifest)
  ++ (if completed (validateManifestRequirements manifest [])
      then emitted (validateIconRequirements manifest files)
           ++ (if completed (validateIconRequirements manifest files [])
               then emitted (validatePermissionRequirements manifest)
                    ++ (if completed (validatePermissionRequirements manifest [])
                        then emitted (validatePrivacyRequirements manifest)
                             ++ (if completed (validatePrivacyRequirements manifest [])
                                 then emitted (validateContentPolicies manifest files)
                                 else [])
                        else [])
               else [])
      else []).
Proof.
  pose proof (appendsOnly_any _ _ (validateContentPolicies_appendsOnly manifest files)) as A5.
  unfold runChecks.
  rewrite resultsOf_seq by apply (afterManifest_appendsOnly manifest files).
  unfold emitted at 2; rewrite resultsOf_seq by apply (afterIcons_appendsOnly manifest files).
  unfold emitted at 3; rewrite resultsOf_seq by apply (afterPermissions_appendsOnly manifest files).
  unfold emitted at 4; rewrite resultsOf_seq by apply A5.
  reflexivity.
Qed.

Lemma runChecks_completed manifest files :
  completed (runChecks manifest files []) =
  completed (validateManifestRequirements manifest [])
  && (completed (validateIconRequirements manifest files [])
      && (completed (validatePermissionRequirements manifest [])
          && (completed (validatePrivacyRequirements manifest [])
              && completed (validateContentPolicies manifest files [])))).
Proof.
  pose proof (appendsOnly_any _ _ (validateContentPolicies_appendsOnly manifest files)) as A5.
  unfold runChecks.
  rewrite completed_seq by apply (afterManifest_appendsOnly manifest files).
  rewrite completed_seq by apply (afterIcons_appendsOnly manifest files).
  rewrite completed_seq by apply (afterPermissions_appendsOnly manifest files).
  rewrite completed_seq by apply A5.
  reflexivity.
Qed.

(** A run that completes publishes its findings and their score; a run
    that raises publishes a failure toast and leaves the results and the
    score of the state as they were. *)
Lemma validateForStore_run manifest files st :
  validateForStore manifest files st =
  match runChecks manifest files [] with
  | Done _ results =>
      ({| validationResults := results; isValidating := false; progress := 100;
          overallScore := Z.max 0 (Z.min 100 (100 + penalties results)) |},
       validationComplete results)
  | Raised _ =>
      (setIsValidating false (fst (validateForStore manifest files st)), validationFailed)
  end.
Proof.
  unfold validateForStore, runChecks, bind.
  destruct (validateManifestRequirements manifest []) as [[] r1 | r1]; [| reflexivity].
  destruct (validateIconRequirements manifest files r1) as [[] r2 | r2]; [| reflexivity].
  destruct (validatePermissionRequirements manifest r2) as [[] r3 | r3]; [| reflexivity].
  destruct (validatePrivacyRequirements manifest r3) as [[] r4 | r4]; [| reflexivity].
  destruct (validateContentPolicies manifest files r4) as [[] r5 | r5]; reflexivity.
Qed.

Lemma validateForStore_raised manifest files st :
  completed (runChecks manifest files []) = false ->
  let st' := fst (validateForStore manifest files st) in
  snd (validateForStore manifest files st) = validationFailed
  /\ validationResults st' = validationResults st
  /\ overallScore st' = overallScore st
  /\ isValidating st' = false
  /\ progress st' < 100.
Proof.
  unfold validateForStore, runChecks, bind.
  destruct (validateManifestRequirements manifest []) as [[] r1 | r1];
    [| intros _; simpl; repeat split; lia].
  destruct (validateIconRequirements manifest files r1) as [[] r2 | r2];
    [| intros _; simpl; repeat split; lia].
  destruct (validatePermissionRequirements manifest r2) as [[] r3 | r3];
    [| intros _; simpl; repeat split; lia].
  destruct (validatePrivacyRequirements manifest r3) as [[] r4 | r4];
    [| intros _; simpl; repeat split; lia].
  destruct (validateContentPolicies manifest files r4) as [[] r5 | r5];
    [discriminate | intros _; simpl; repeat split; lia].
Qed.

(** A run in which a check raises, with the step at which the progress
    bar stops: 20 per check that completed before the one that raised. *)
Lemma validateForStore_failed manifest files st :
  completed (runChecks manifest files []) = false ->
  snd (validateForStore manifest files st) = validationFailed
  /\ validationResults (fst (validateForStore manifest files st)) = validationResults st
  /\ overallScore (fst (validateForStore manifest files st)) = overallScore st
  /\ isValidating (fst (validateForStore manifest files st)) = false
  /\ progress (fst (validateForStore manifest files st)) =
     (if completed (validateManifestRequirements manifest []) then
        if completed (validateIconRequirements manifest files []) then
          if completed (validatePermissionRequirements manifest []) then
            if completed (validatePrivacyRequirements manifest []) then 80 else 60
          else 40
        else 20
      else 0).
Proof.
  rewrite runChecks_completed.
  unfold validateForStore.
  destruct (validateManifestRequirements manifest []) as [[] r1 | r1];
    [| intros _; repeat split].
  rewrite (appendsOnly_run _ _ r1 (validateIconRequirements_appendsOnly manifest files)).
  destruct (validateIconRequirements manifest files []) as [[] r2 | r2];
    [| intros _; repeat split].
  cbn [appendOutcome].
  rewrite (appendsOnly_run _ _ (r1 ++ r2) (validatePermissionRequirements_appendsOnly manifest)).
  destruct (validatePermissionRequirements manifest []) as [[] r3 | r3];
    [| intros _; repeat split].
  cbn [appendOutcome].
  rewrite (appendsOnly_run _ _ ((r1 ++ r2) ++ r3)
             (validatePrivacyRequirements_appendsOnly manifest)).
  destruct (validatePrivacyRequirements manifest []) as [[] r4 | r4];
    [| intros _; repeat split].
  cbn [appendOutcome].
  rewrite (appendsOnly_run _ _ (((r1 ++ r2) ++ r3) ++ r4)
             (validateContentPolicies_appendsOnly manifest files)).
  destruct (validateContentPolicies manifest files []) as [[] r5 | r5];
    [discriminate | intros _; repeat split].
Qed.

Lemma validateForStore_progress manifest files st1 st2 :
  progress (fst (validateForStore manifest files st1)) =
  progress (fst (validateForStore manifest files st2)).
Proof.
  unfold validateForStore.
  destruct (validateManifestRequirements manifest []) as [[] r1 | r1]; [| reflexivity].
  destruct (validateIconRequirements manifest files r1) as [[] r2 | r2]; [| reflexivity].
  destruct (validatePermissionRequirements manifest r2) as [[] r3 | r3]; [| reflexivity].
  destruct (validatePrivacyRequirements manifest r3) as [[] r4 | r4]; [| reflexivity].
  destruct (validateContentPolicies manifest files r4) as [[] r5 | r5]; reflexivity.
Qed.

(** C2 (as amended): from any two prior states the two runs of the same
    manifest and files end with the same toast and progress.  When the five
    checks complete, the two published states are equal, their findings are
    exactly those the checks pushed on this run's fresh array, in order, and
    the score is computed from those findings only.  When a check raises,
    both runs end with "Validation failed" and each leaves in place the
    findings and the score it started from, so the two reports differ as
    the prior states did. *)
Theorem validateForStore_deterministic :
  forall (manifest : json) (files : list File) (st1 st2 : State),
    let run1 := validateForStore manifest files st1 in
    let run2 := validateForStore manifest files st2 in
    snd run1 = snd run2
    /\ progress (fst run1) = progress (fst run2)
    /\ (completed (runChecks manifest files []) = true ->
        fst run1 = fst run2
        /\ validationResults (fst run1) = resultsOf (runChecks manifest files [])
        /\ overallScore (fst run1) =
           Z.max 0 (Z.min 100 (100 + sumZ (map penaltyOf (validationResults (fst run1))))))
    /\ (completed (runChecks manifest files []) = false ->
        snd run1 = validationFailed
        /\ snd run2 = validationFailed
        /\ validationResults (fst run1) = validationResults st1
        /\ overallScore (fst run1) = overallScore st1
        /\ validationResults (fst run2) = validationResults st2
        /\ overallScore (fst run2) = overallScore st2).
Proof.
  intros manifest files st1 st2; cbv zeta.
  split; [| split; [| split]];
    [| | | intro Hraised;
           destruct (validateForStore_failed manifest files st1 Hraised)
             as (Ht1 & Hr1 & Hs1 & _);
           destruct (validateForStore_failed manifest files st2 Hraised)
             as (Ht2 & Hr2 & Hs2 & _);
           repeat split; assumption].
  - rewrite (validateForStore_run manifest files st1),
            (validateForStore_run manifest files st2).
    destruct (runChecks manifest files []); reflexivity.
  - apply validateForStore_progress.
  - intro Hdone.
    rewrite (validateForStore_run manifest files st1),
            (validateForStore_run manifest files st2).
    destruct (runChecks manifest files []) as [[] r | r]; [| discriminate].
    simpl; rewrite penalties_sum; repeat split.
Qed.

(** ** Required fields *)

Lemma penalties_missing_fields :
  penalties (map missingField STORE_REQUIREMENTS.manifest.required_fields) = -100.
Proof. reflexivity. Qed.

(** C3 (as amended): when name, version, description and manifest_version
    are all missing, the manifest check pushes exactly the four "Missing
    ..." findings, each an error of critical severity, for any files.  A
    run whose five checks complete then publishes the score 0; a run in
    which a later check raises publishes no score, and the score of the
    previous run stays. *)
Theorem missing_required_fields :
  forall (props : list (string * json)) (files : list File) (st : State),
    (forall field, In field STORE_REQUIREMENTS.manifest.required_fields ->
                   lookup field props = None) ->
    let check := validateManifestRequirements (JObj props) in
    check [] = Done tt (map missingField STORE_REQUIREMENTS.manifest.required_fields)
    /\ List.length (emitted check) = 4%nat
    /\ Forall (fun f => type f = error /\ severity f = critical) (emitted check)
    /\ (completed (runChecks (JObj props) files []) = true ->
        overallScore (fst (validateForStore (JObj props) files st)) = 0)
    /\ (completed (runChecks (JObj props) files []) = false ->
        snd (validateForStore (JObj props) files st) = validationFailed
        /\ overallScore (fst (validateForStore (JObj props) files st)) = overallScore st).
Proof.
  intros props files st Hmissing; cbv zeta.
  assert (Hcheck : validateManifestRequirements (JObj props) [] =
                   Done tt (map missingField STORE_REQUIREMENTS.manifest.required_fields)).
  { unfold validateManifestRequirements; simpl.
    unfold bind, lift; simpl.
    rewrite !Hmissing by (simpl; tauto).
    reflexivity. }
  assert (Hscore : forall st0,
    overallScore (calculateOverallScore (resultsOf (runChecks (JObj props) files [])) st0) = 0).
  { intro st0.
    destruct (runChecks_starts_with_manifest (JObj props) files) as [rest Hrest].
    rewrite Hrest; unfold emitted; rewrite Hcheck.
    unfold calculateOverallScore, setOverallScore; cbn [overallScore resultsOf].
    rewrite penalties_app, penalties_missing_fields.
    pose proof (penalties_nonpos rest); lia. }
  split; [exact Hcheck |].
  unfold emitted; rewrite Hcheck.
  split; [reflexivity |].
  split; [repeat constructor |].
  split.
  - intro Hdone.
    rewrite validateForStore_run.
    specialize (Hscore st).
    destruct (runChecks (JObj props) files []) as [[] r | r]; [| discriminate].
    exact Hscore.
  - intro Hraised.
    destruct (validateForStore_failed (JObj props) files st Hraised) as (Ht & _ & Hs & _).
    split; assumption.
Qed.

(** ** Icon files *)



Lemma find_iconMatches iconPath files :
  find (iconMatches (JStr iconPath)) files = Normal (matchingFile iconPath files).
Proof.
  unfold matchingFile; induction files as [| f rest IH]; simpl; [reflexivity |].
  unfold iconMatches at 1; simpl.
  destruct (name f =? iconPath)%string; simpl; [reflexivity |].
  destruct (endsWith (name f) iconPath); [reflexivity | exact IH].
Qed.



Lemma checkIconFile_string files key iconPath r :
  checkIconFile files (key, JStr iconPath) r = Done tt (r ++ iconEntryFindings files iconPath).
Proof.
  unfold checkIconFile, iconEntryFindings, bind, lift; simpl.
  rewrite find_iconMatches.
  destruct (matchingFile iconPath files) as [f |]; [| reflexivity].
  destruct (STORE_REQUIREMENTS.icons.max_file_size <? Z.of_N (size f)); simpl;
    [reflexivity | now rewrite app_nil_r].
Qed.

Lemma forEach_declared files declared r :
  forEach (iconsObject declared) (checkIconFile files) r =
  Done tt (r ++ flat_map (fun entry => iconEntryFindings files (snd entry)) declared).
Proof.
  revert r; induction declared as [| [key iconPath] rest IH]; intro r; simpl.
  - unfold ret; now rewrite app_nil_r.
  - unfold bind at 1; rewrite checkIconFile_string, IH.
    now rewrite app_assoc.
Qed.

Lemma forEach_sizes (mk : Z -> StoreValidationResult) declared sizes r :
  forEach sizes (fun size =>
    v <- lift (GetV (Some (JObj declared)) (numToString size)) ;;
    when (negb (truthy v)) (push (mk size))) r =
  Done tt (r ++ flat_map (fun size => if truthy (lookup (numToString size) declared)
                                      then [] else [mk size]) sizes).
Proof.
  revert r; induction sizes as [| size rest IH]; intro r.
  - simpl; unfold ret; now rewrite app_nil_r.
  - cbn [forEach flat_map]; unfold bind at 1.
    unfold bind at 1, lift; cbn [GetV Get].
    destruct (truthy (lookup (numToString size) declared)); cbn [negb when].
    + unfold ret; rewrite IH; reflexivity.
    + unfold push; rewrite IH; now rewrite <- app_assoc.
Qed.

Lemma validateIconRequirements_declared props declared files :
  lookup "icons" props = Some (JObj (iconsObject declared)) ->
  validateIconRequirements (JObj props) files [] =
  Done tt (missingSizeFindings (iconsObject declared)
           ++ flat_map (fun entry => iconEntryFindings files (snd entry)) declared).
Proof.
  intro Hicons.
  unfold validateIconRequirements.
  unfold bind at 1; unfold lift at 1; cbn [Get]; rewrite Hicons; cbn [truthy negb].
  unfold bind at 1; rewrite forEach_sizes.
  unfold bind at 1; rewrite forEach_sizes.
  cbn [entriesV entries]; rewrite forEach_declared.
  unfold missingSizeFindings; rewrite app_nil_l; reflexivity.
Qed.

Lemma string_app_assoc (a b c : string) :
  ((a ++ b) ++ c = a ++ (b ++ c))%string.
Proof. induction a; simpl; congruence. Qed.

Lemma tenthsOfMiB_nearest bytes :
  2 * Z.abs (1048576 * tenthsOfMiB bytes - 10 * bytes) <= 1048576.
Proof.
  unfold tenthsOfMiB.
  pose proof (Z.div_mod (10 * bytes + 524288) 1048576 ltac:(lia)) as Hdm.
  pose proof (Z.mod_pos_bound (10 * bytes + 524288) 1048576 ltac:(lia)) as Hb.
  lia.
Qed.


(** ** The content check *)

Lemma checkPackageSize_run files :
  checkPackageSize files [] =
  Done tt (if STORE_REQUIREMENTS.content.max_package_size <? totalSize files
           then [packageTooLarge (totalSize files)] else []).
Proof.
  unfold checkPackageSize.
  destruct (STORE_REQUIREMENTS.content.max_package_size <? totalSize files); reflexivity.
Qed.

Lemma checkSinglePurpose_run manifest :
  checkSinglePurpose manifest [] =
  match hasMultiplePurposes manifest with
  | Normal multiple => Done tt (if multiple then [multipleFunctionalities] else [])
  | TypeError => Raised []
  end.
Proof.
  unfold checkSinglePurpose, bind, lift.
  destruct (hasMultiplePurposes manifest) as [[|] |]; reflexivity.
Qed.

Lemma validateContentPolicies_emitted manifest files :
  emitted (validateContentPolicies manifest files) =
  emitted (checkPackageSize files)
  ++ emitted (checkProhibitedContent manifest)
  ++ (if completed (checkProhibitedContent manifest [])
      then emitted (checkSinglePurpose manifest) else []).
Proof.
  assert (Hsp : forall r, checkSinglePurpose manifest r =
                          appendOutcome r (checkSinglePurpose manifest [])).
  { apply (checkSinglePurpose_appendsOnly manifest). }
  assert (Hrest : appendsOnly (fun _ => True)
                    (checkProhibitedContent manifest >> checkSinglePurpose manifest)).
  { apply appendsOnly_bind;
      [exact (appendsOnly_any _ _ (checkProhibitedContent_appendsOnly manifest)) | intros _].
    exact (appendsOnly_any _ _ (checkSinglePurpose_appendsOnly manifest)). }
  unfold emitted at 1, validateContentPolicies.
  rewrite resultsOf_seq by apply Hrest.
  rewrite checkPackageSize_run; cbn [completed].
  unfold emitted at 2; now rewrite resultsOf_seq by exact Hsp.
Qed.

Lemma validateContentPolicies_completed manifest files :
  completed (validateContentPolicies manifest files []) =
  completed (checkProhibitedContent manifest []) && completed (checkSinglePurpose manifest []).
Proof.
  assert (Hsp : forall r, checkSinglePurpose manifest r =
                          appendOutcome r (checkSinglePurpose manifest [])).
  { apply (checkSinglePurpose_appendsOnly manifest). }
  assert (Hrest : appendsOnly (fun _ => True)
                    (checkProhibitedContent manifest >> checkSinglePurpose manifest)).
  { apply appendsOnly_bind;
      [exact (appendsOnly_any _ _ (checkProhibitedContent_appendsOnly manifest)) | intros _].
    exact (appendsOnly_any _ _ (checkSinglePurpose_appendsOnly manifest)). }
  unfold validateContentPolicies.
  rewrite completed_seq by apply Hrest.
  rewrite checkPackageSize_run; cbn [completed andb].
  now rewrite completed_seq by exact Hsp.
Qed.

Lemma withTitle_app t l1 l2 : withTitle t (l1 ++ l2) = withTitle t l1 ++ withTitle t l2.
Proof. apply filter_app. Qed.

Lemma withTitle_none t l :
  Forall (fun f => title f <> t) l -> withTitle t l = [].
Proof.
  induction 1 as [| f l Hf _ IH]; simpl; [reflexivity |].
  apply String.eqb_neq in Hf; now rewrite Hf.
Qed.

Lemma withTitle_prohibited t manifest :
  t <> "Potentially prohibited content" ->
  withTitle t (emitted (checkProhibitedContent manifest)) = [].
Proof.
  intro Ht; apply withTitle_none.
  destruct (checkProhibitedContent_appendsOnly manifest) as [_ H].
  eapply Forall_impl; [| exact H].
  intros f [prohibited ->]; simpl; congruence.
Qed.

Lemma totalSize_from acc files :
  fold_left (fun sum file => sum + Z.of_N (size file)) files acc
  = acc + sumZ (map (fun file => Z.of_N (size file)) files).
Proof.
  revert acc; induction files as [| f rest IH]; intro acc; simpl; [lia |].
  rewrite IH; lia.
Qed.

Lemma totalSize_sum files :
  totalSize files = sumZ (map (fun file => Z.of_N (size file)) files).
Proof. unfold totalSize; now rewrite totalSize_from. Qed.

(** C7: the content check sums the byte sizes of all files; it pushes
    "Package too large" (an error of high severity, once) exactly when the
    sum exceeds 128 MiB, its message giving the sum in MiB rounded to one
    decimal: 130 MiB reads "130.0MB", and 100 MiB yields no such finding. *)
Theorem package_size_rule :
  forall (manifest : json) (files : list File),
    let total := totalSize files in
    let out := emitted (validateContentPolicies manifest files) in
    total = sumZ (map (fun file => Z.of_N (size file)) files)
    /\ withTitle "Package too large" out =
       (if 128 * 1024 * 1024 <? total then [packageTooLarge total] else [])
    /\ (type (packageTooLarge total) = error
        /\ severity (packageTooLarge total) = high
        /\ message (packageTooLarge total) =
           ("Extension package is "
            ++ numToString (tenthsOfMiB total / 10) ++ "."
            ++ numToString (tenthsOfMiB total mod 10) ++ "MB")%string
        /\ 2 * Z.abs (1048576 * tenthsOfMiB total - 10 * total) <= 1048576)
    /\ (total = 130 * 1024 * 1024 ->
        withTitle "Package too large" out = [packageTooLarge total]
        /\ message (packageTooLarge total) = "Extension package is 130.0MB")
    /\ (total = 100 * 1024 * 1024 -> withTitle "Package too large" out = []).
Proof.
  intros manifest files; cbv zeta.
  assert (Hout : withTitle "Package too large" (emitted (validateContentPolicies manifest files)) =
                 (if 128 * 1024 * 1024 <? totalSize files
                  then [packageTooLarge (totalSize files)] else [])).
  { rewrite validateContentPolicies_emitted, !withTitle_app.
    rewrite withTitle_prohibited by discriminate.
    assert (Hsp : withTitle "Package too large"
                    (if completed (checkProhibitedContent manifest [])
                     then emitted (checkSinglePurpose manifest) else []) = []).
    { destruct (completed (checkProhibitedContent manifest [])); [| reflexivity].
      unfold emitted; rewrite checkSinglePurpose_run.
      destruct (hasMultiplePurposes manifest) as [[|] |]; reflexivity. }
    rewrite Hsp, !app_nil_r.
    unfold emitted; rewrite checkPackageSize_run; cbn [resultsOf].
    change STORE_REQUIREMENTS.content.max_package_size with (128 * 1024 * 1024).
    destruct (128 * 1024 * 1024 <? totalSize files); reflexivity. }
  split; [apply totalSize_sum |].
  split; [exact Hout |].
  split.
  { repeat split.
    - unfold packageTooLarge, toFixed1MiB; cbn [message].
      now rewrite string_app_assoc.
    - apply tenthsOfMiB_nearest. }
  split.
  - intro Htotal; rewrite Hout, Htotal; split; reflexivity.
  - intro Htotal; rewrite Hout, Htotal; reflexivity.
Qed.

Lemma hasAction_object props :
  hasAction (JObj props) =
  Normal (truthy (lookup "action" props) || truthy (lookup "browser_action" props)).
Proof.
  unfold hasAction; cbn [Get cbind].
  destruct (truthy (lookup "action" props)); reflexivity.
Qed.

Lemma hasMultiplePurposes_object props :
  hasMultiplePurposes (JObj props) =
  scripts <-- hasContentScripts (JObj props) ;;
  Normal (2 <? trueCount [scripts;
                          truthy (lookup "background" props);
                          truthy (lookup "action" props)
                          || truthy (lookup "browser_action" props);
                          truthy (lookup "options_page" props)]).
Proof.
  unfold hasMultiplePurposes; rewrite hasAction_object.
  unfold hasBackground, hasOptionsPage; cbn [Get cbind].
  destruct (hasContentScripts (JObj props)) as [scripts |]; [| reflexivity].
  cbn [cbind]; f_equal.
  destruct scripts, (truthy (lookup "background" props)),
    (truthy (lookup "action" props) || truthy (lookup "browser_action" props)),
    (truthy (lookup "options_page" props)); reflexivity.
Qed.

Lemma hasContentScripts_absent props :
  lookup "content_scripts" props = None ->
  hasContentScripts (JObj props) = Normal false.
Proof.
  intro H; unfold hasContentScripts; cbn [Get cbind]; rewrite H; reflexivity.
Qed.

Lemma hasContentScripts_array props l :
  lookup "content_scripts" props = Some (JArr l) ->
  hasContentScripts (JObj props) = Normal (0 <? Z.of_nat (List.length l)).
Proof.
  intro H; unfold hasContentScripts; cbn [Get cbind]; rewrite H.
  cbn [GetOpt Get String.eqb Ascii.eqb Bool.eqb cbind].
  unfold greaterThan, ToNumber_compare; cbn [cbind].
  rewrite Z.ltb_compare, Z.compare_antisym.
  destruct (0 ?= Z.of_nat (List.length l)); reflexivity.
Qed.

(** ** The privacy check and the privacy_policy field *)

Lemma lookup_setProp_eq k v props : lookup k (setProp k v props) = Some v.
Proof.
  induction props as [| [k' v'] rest IH]; simpl.
  - now rewrite String.eqb_refl.
  - destruct (String.eqb_spec k k') as [<- | Hne]; simpl.
    + now rewrite String.eqb_refl.
    + destruct (String.eqb_spec k k'); [contradiction | exact IH].
Qed.

Lemma lookup_setProp_neq k k' v props :
  k' <> k -> lookup k' (setProp k v props) = lookup k' props.
Proof.
  intro Hne; induction props as [| [k0 v0] rest IH]; simpl.
  - destruct (String.eqb_spec k' k); [contradiction | reflexivity].
  - destruct (String.eqb_spec k k0) as [<- | Hne0]; simpl.
    + destruct (String.eqb_spec k' k); [contradiction | reflexivity].
    + destruct (String.eqb_spec k' k0); [reflexivity | exact IH].
Qed.

Lemma lookup_deleteProp_eq k props : lookup k (deleteProp k props) = None.
Proof.
  unfold deleteProp; induction props as [| [k' v'] rest IH]; simpl; [reflexivity |].
  destruct (String.eqb_spec k k') as [<- | Hne]; simpl; [exact IH |].
  destruct (String.eqb_spec k k'); [contradiction | exact IH].
Qed.

Lemma lookup_deleteProp_neq k k' props :
  k' <> k -> lookup k' (deleteProp k props) = lookup k' props.
Proof.
  intro Hne; unfold deleteProp; induction props as [| [k0 v0] rest IH]; simpl;
    [reflexivity |].
  destruct (String.eqb_spec k k0) as [<- | Hne0]; simpl.
  - destruct (String.eqb_spec k' k); [contradiction | exact IH].
  - destruct (String.eqb_spec k' k0); [reflexivity | exact IH].
Qed.

(** Each check reads the manifest through a fixed set of fields. *)
Lemma validateManifestRequirements_reads props props' r :
  (forall field, In field STORE_REQUIREMENTS.manifest.required_fields ->
                 lookup field props' = lookup field props) ->
  validateManifestRequirements (JObj props') r = validateManifestRequirements (JObj props) r.
Proof.
  intro H; unfold validateManifestRequirements.
  cbn [forEach STORE_REQUIREMENTS.manifest.required_fields Get].
  rewrite !H by (simpl; tauto); reflexivity.
Qed.

Lemma validateIconRequirements_reads props props' files r :
  lookup "icons" props' = lookup "icons" props ->
  validateIconRequirements (JObj props') files r = validateIconRequirements (JObj props) files r.
Proof.
  intro H; unfold validateIconRequirements; cbn [Get]; rewrite H; reflexivity.
Qed.

Lemma validatePermissionRequirements_reads props props' r :
  (forall field, In field ["permissions"; "manifest_version"] ->
                 lookup field props' = lookup field props) ->
  validatePermissionRequirements (JObj props') r = validatePermissionRequirements (JObj props) r.
Proof.
  intro H; unfold validatePermissionRequirements; cbn [Get].
  rewrite !H by (simpl; tauto); reflexivity.
Qed.

Lemma validateContentPolicies_reads props props' files r :
  (forall field, In field ["name"; "description"; "content_scripts"; "background";
                           "action"; "browser_action"; "options_page"] ->
                 lookup field props' = lookup field props) ->
  validateContentPolicies (JObj props') files r = validateContentPolicies (JObj props) files r.
Proof.
  intro H.
  unfold validateContentPolicies, checkProhibitedContent, checkSinglePurpose,
    hasMultiplePurposes, hasContentScripts, hasBackground, hasAction, hasOptionsPage.
  cbn [Get]; rewrite !H by (simpl; tauto); reflexivity.
Qed.

Lemma validatePrivacyRequirements_run props :
  validatePrivacyRequirements (JObj props) [] =
  let perms := lookup "permissions" props in
  match someOpt perms (fun p =>
          Normal (listIncludes STORE_REQUIREMENTS.privacy.data_collection_apis p)) with
  | TypeError => Raised []
  | Normal collectsData =>
      let r1 := if collectsData && negb (truthy (lookup "privacy_policy" props))
                then [privacyPolicyRequired] else [] in
      match includesOpt perms "identity" with
      | TypeError => Raised r1
      | Normal hasIdentity =>
          let r2 := r1 ++ (if hasIdentity then [identityPermission] else []) in
          match includesOpt perms "cookies" with
          | TypeError => Raised r2
          | Normal hasCookies =>
              Done tt (r2 ++ (if hasCookies then [cookieAccess] else []))
          end
      end
  end.
Proof.
  unfold validatePrivacyRequirements, bind, lift; cbn [Get cbind].
  destruct (someOpt _ _) as [[|] |]; [| | reflexivity].
  - cbn [cbind andb].
    destruct (truthy (lookup "privacy_policy" props)); cbn [negb when];
      destruct (includesOpt (lookup "permissions" props) "identity") as [[|] |];
      try reflexivity;
      destruct (includesOpt (lookup "permissions" props) "cookies") as [[|] |];
      reflexivity.
  - cbn [cbind andb when].
    destruct (includesOpt (lookup "permissions" props) "identity") as [[|] |];
      try reflexivity;
      destruct (includesOpt (lookup "permissions" props) "cookies") as [[|] |];
      reflexivity.
Qed.

(** C6 (as amended): with permissions = ["tabs"] and no privacy_policy,
    the privacy check pushes exactly "Privacy policy required", a critical
    error.  Giving any manifest a privacy_policy with a truthy value, all
    other fields and the files unchanged, removes that finding from the
    privacy check, keeps its other findings and its completion, and leaves
    the manifest, icons, permissions and content checks as they were. *)
Theorem privacy_policy_frame :
  forall (props : list (string * json)) (policy : json) (files : list File),
    truthy (Some policy) = true ->
    let m := JObj props in
    let m' := JObj (setProp "privacy_policy" policy props) in
    (lookup "privacy_policy" (setProp "privacy_policy" policy props) = Some policy
     /\ forall field, field <> "privacy_policy" ->
          lookup field (setProp "privacy_policy" policy props) = lookup field props)
    /\ (forall r, validateManifestRequirements m' r = validateManifestRequirements m r)
    /\ (forall r, validateIconRequirements m' files r = validateIconRequirements m files r)
    /\ (forall r, validatePermissionRequirements m' r = validatePermissionRequirements m r)
    /\ (forall r, validateContentPolicies m' files r = validateContentPolicies m files r)
    /\ emitted (validatePrivacyRequirements m') =
       withoutTitle "Privacy policy required" (emitted (validatePrivacyRequirements m))
    /\ completed (validatePrivacyRequirements m' []) =
       completed (validatePrivacyRequirements m [])
    /\ ~ In privacyPolicyRequired (emitted (validatePrivacyRequirements m'))
    /\ (lookup "permissions" props = Some (JArr [JStr "tabs"]) ->
        lookup "privacy_policy" props = None ->
        validatePrivacyRequirements m [] = Done tt [privacyPolicyRequired]
        /\ type privacyPolicyRequired = error
        /\ severity privacyPolicyRequired = critical
        /\ title privacyPolicyRequired = "Privacy policy required"
        /\ validatePrivacyRequirements m' [] = Done tt []).
Proof.
  intros props policy files Htruthy; cbv zeta.
  assert (Hother : forall field, field <> "privacy_policy" ->
            lookup field (setProp "privacy_policy" policy props) = lookup field props).
  { intros field Hne; now apply lookup_setProp_neq. }
  assert (Hrun' : validatePrivacyRequirements (JObj (setProp "privacy_policy" policy props)) [] =
    match someOpt (lookup "permissions" props) (fun p =>
            Normal (listIncludes STORE_REQUIREMENTS.privacy.data_collection_apis p)) with
    | TypeError => Raised []
    | Normal _ =>
        match includesOpt (lookup "permissions" props) "identity" with
        | TypeError => Raised []
        | Normal hasIdentity =>
            match includesOpt (lookup "permissions" props) "cookies" with
            | TypeError => Raised (if hasIdentity then [identityPermission] else [])
            | Normal hasCookies =>
                Done tt ((if hasIdentity then [identityPermission] else [])
                         ++ (if hasCookies then [cookieAccess] else []))
            end
        end
    end).
  { rewrite validatePrivacyRequirements_run; cbv zeta.
    rewrite lookup_setProp_eq, Htruthy, (Hother "permissions") by discriminate.
    destruct (someOpt _ _) as [collects |]; [| reflexivity].
    rewrite andb_false_r; reflexivity. }
  split; [split; [apply lookup_setProp_eq | exact Hother] |].
  split.
  { intro r; apply validateManifestRequirements_reads.
    intros field Hin; apply Hother; simpl in Hin.
    intuition (subst; discriminate). }
  split.
  { intro r; apply validateIconRequirements_reads; apply Hother; discriminate. }
  split.
  { intro r; apply validatePermissionRequirements_reads.
    intros field Hin; apply Hother; simpl in Hin.
    intuition (subst; discriminate). }
  split.
  { intro r; apply validateContentPolicies_reads.
    intros field Hin; apply Hother; simpl in Hin.
    intuition (subst; discriminate). }
  split; [| split; [| split]].
  - unfold emitted; rewrite Hrun', validatePrivacyRequirements_run; cbv zeta.
    destruct (someOpt _ _) as [collects |]; [| reflexivity].
    destruct (collects && negb (truthy (lookup "privacy_policy" props)));
      destruct (includesOpt (lookup "permissions" props) "identity") as [[|] |];
      try reflexivity;
      destruct (includesOpt (lookup "permissions" props) "cookies") as [[|] |];
      reflexivity.
  - rewrite Hrun', validatePrivacyRequirements_run; cbv zeta.
    destruct (someOpt _ _) as [collects |]; [| reflexivity].
    destruct (includesOpt (lookup "permissions" props) "identity") as [[|] |];
      try reflexivity;
      destruct (includesOpt (lookup "permissions" props) "cookies") as [[|] |];
      reflexivity.
  - unfold emitted; rewrite Hrun'.
    destruct (someOpt _ _) as [collects |]; [| intros []].
    destruct (includesOpt (lookup "permissions" props) "identity") as [[|] |];
      try (intros []);
      destruct (includesOpt (lookup "permissions" props) "cookies") as [[|] |];
      simpl; intuition discriminate.
  - intros Hperms Hpolicy.
    rewrite Hrun', validatePrivacyRequirements_run; cbv zeta.
    rewrite Hperms, Hpolicy.
    repeat split.
Qed.

(** ** Falsy required fields *)

Lemma appendsOnly_bind_lift {A B} P (c : completion A) (k : A -> M B) :
  (forall a, c = Normal a -> appendsOnly P (k a)) ->
  appendsOnly P (bind (lift c) k).
Proof.
  intro H; destruct c as [a |].
  - destruct (H a eq_refl) as [H1 H2]; split; [exact H1 | exact H2].
  - split; [intro r; unfold bind, lift; simpl; now rewrite app_nil_r | constructor].
Qed.

Lemma strictEqualsNum_2 v : strictEqualsNum v 2 = true -> v = Some (JNum 2).
Proof.
  destruct v as [[| | n | | |] |]; simpl; try discriminate.
  intro H; apply Z.eqb_eq in H; now subst.
Qed.

Ltac guard_goal :=
  unfold followUpGuard, followUps; simpl;
  repeat split; intros;
  repeat match goal with
         | H : _ \/ _ |- _ => destruct H
         | H : False |- _ => destruct H
         | H : _ = _ |- _ => discriminate H
         end;
  try assumption.

Lemma validateManifestRequirements_guard props :
  appendsOnly (followUpGuard props) (validateManifestRequirements (JObj props)).
Proof.
  unfold validateManifestRequirements.
  apply appendsOnly_bind; [| intros _].
  { apply appendsOnly_forEach; intros field Hin.
    apply appendsOnly_bind_lift; intros v _.
    apply appendsOnly_when; intros _; apply appendsOnly_push.
    guard_goal. }
  apply appendsOnly_bind; [| intros _].
  { apply appendsOnly_bind_lift; intros nameV Hget.
    cbn [Get] in Hget; injection Hget as <-.
    apply appendsOnly_when; intro Htruthy.
    appends; guard_goal. }
  apply appendsOnly_bind; [| intros _].
  { apply appendsOnly_bind_lift; intros descV Hget.
    cbn [Get] in Hget; injection Hget as <-.
    apply appendsOnly_when; intro Htruthy.
    appends; guard_goal. }
  apply appendsOnly_bind; [| intros _].
  { apply appendsOnly_bind_lift; intros version Hget.
    cbn [Get] in Hget; injection Hget as <-.
    apply appendsOnly_bind_lift; intros bad Hbad.
    apply appendsOnly_when; intros ->; apply appendsOnly_push.
    destruct (truthy (lookup "version" props)) eqn:Htruthy; [| discriminate].
    guard_goal. }
  apply appendsOnly_bind_lift; intros mv Hget.
  cbn [Get] in Hget; injection Hget as <-.
  apply appendsOnly_when; intro Hv2; apply appendsOnly_push.
  apply strictEqualsNum_2 in Hv2.
  guard_goal.
Qed.

Lemma forEach_required props r :
  forEach STORE_REQUIREMENTS.manifest.required_fields (fun field =>
    v <- lift (Get (JObj props) field) ;;
    when (negb (truthy v)) (push (missingField field))) r =
  Done tt (r ++ flat_map (fun field => if truthy (lookup field props)
                                       then [] else [missingField field])
                         STORE_REQUIREMENTS.manifest.required_fields).
Proof.
  revert r; induction STORE_REQUIREMENTS.manifest.required_fields as [| field rest IH];
    intro r.
  - simpl; unfold ret; now rewrite app_nil_r.
  - cbn [forEach flat_map]; unfold bind at 1.
    unfold bind at 1, lift; cbn [Get].
    destruct (truthy (lookup field props)); cbn [negb when].
    + unfold ret; rewrite IH; reflexivity.
    + unfold push; rewrite IH; now rewrite <- app_assoc.
Qed.

Lemma missingField_emitted props field :
  In field STORE_REQUIREMENTS.manifest.required_fields ->
  truthy (lookup field props) = false ->
  In (missingField field) (emitted (validateManifestRequirements (JObj props))).
Proof.
  intros Hin Hfalsy.
  unfold emitted, validateManifestRequirements.
  unfold bind at 1; rewrite forEach_required.
  match goal with |- In _ (resultsOf (?k ?r)) =>
    assert (Hk : appendsOnly (fun _ => True) k) end.
  { appends; exact I. }
  rewrite (appendsOnly_run _ _ _ Hk), resultsOf_appendOutcome.
  apply in_or_app; left; rewrite app_nil_l.
  apply in_flat_map; exists field; split; [exact Hin |].
  rewrite Hfalsy; now left.
Qed.

Lemma falsyValues_truthy v : In v falsyValues <-> truthy (Some v) = false.
Proof.
  unfold falsyValues; split.
  - simpl; intuition (subst; reflexivity).
  - destruct v as [| [|] | n | s | l | p]; simpl; try discriminate; intro H.
    + tauto.
    + tauto.
    + apply negb_false_iff, Z.eqb_eq in H; subst; tauto.
    + apply negb_false_iff, String.eqb_eq in H; subst; tauto.
Qed.

(** C10: a required field bound to a falsy value (the empty string, 0,
    false or null) is reported as missing, by a critical error "Missing
    <field>"; none of the findings of its follow-up validations is pushed,
    and the manifest check behaves exactly as on the manifest without the
    field. *)
Theorem falsy_required_field :
  forall (props : list (string * json)) (field : string) (v : json),
    In field STORE_REQUIREMENTS.manifest.required_fields ->
    lookup field props = Some v ->
    In v falsyValues ->
    let check := validateManifestRequirements (JObj props) in
    In (missingField field) (emitted check)
    /\ (type (missingField field) = error
        /\ severity (missingField field) = critical
        /\ title (missingField field) = ("Missing " ++ field)%string)
    /\ (forall f, In f (followUps field) -> ~ In f (emitted check))
    /\ (forall r, check r = validateManifestRequirements (JObj (deleteProp field props)) r).
Proof.
  intros props field v Hin Hlookup Hv; cbv zeta.
  assert (Hfalsy : truthy (lookup field props) = false).
  { rewrite Hlookup; now apply falsyValues_truthy. }
  split; [now apply missingField_emitted |].
  split; [repeat split |].
  split.
  - intros f Hf Hemitted.
    destruct (validateManifestRequirements_guard props) as [_ Hguard].
    rewrite Forall_forall in Hguard.
    destruct (Hguard f Hemitted) as (Hname & Hdesc & Hversion & Hmv).
    simpl in Hin; destruct Hin as [<- | [<- | [<- | [<- | []]]]].
    + rewrite (Hname Hf) in Hfalsy; discriminate.
    + rewrite (Hversion Hf) in Hfalsy; discriminate.
    + rewrite (Hdesc Hf) in Hfalsy; discriminate.
    + rewrite (Hmv Hf) in Hfalsy; discriminate.
  - intro r.
    unfold falsyValues in Hv; simpl in Hv, Hin.
    destruct Hin as [<- | [<- | [<- | [<- | []]]]];
      unfold validateManifestRequirements;
      cbn [forEach STORE_REQUIREMENTS.manifest.required_fields Get];
      rewrite lookup_deleteProp_eq, !lookup_deleteProp_neq by discriminate;
      rewrite Hlookup;
      destruct Hv as [<- | [<- | [<- | [<- | []]]]]; reflexivity.
Qed.

(** ** Completion of the checks on well-shaped manifests *)

Lemma completes_ret {A} (a : A) : completes (ret a).
Proof. intro r; reflexivity. Qed.

Lemma completes_push f : completes (push f).
Proof. intro r; reflexivity. Qed.

Lemma completes_bind {A B} (c : M A) (k : A -> M B) :
  completes c -> (forall a, completes (k a)) -> completes (bind c k).
Proof.
  intros Hc Hk r; unfold bind; specialize (Hc r).
  destruct (c r) as [a r' | r']; [apply Hk | discriminate].
Qed.

Lemma completes_bind_lift {A B} (c : completion A) (k : A -> M B) :
  isNormal c = true ->
  (forall a, c = Normal a -> completes (k a)) ->
  completes (bind (lift c) k).
Proof.
  intros Hc Hk r; destruct c as [a |]; [| discriminate].
  apply (Hk a eq_refl).
Qed.

Lemma completes_when (b : bool) (c : M unit) :
  (b = true -> completes c) -> completes (when b c).
Proof. destruct b; simpl; intro H; [now apply H | apply completes_ret]. Qed.

Lemma completes_forEach {A} (l : list A) (body : A -> M unit) :
  (forall x, In x l -> completes (body x)) -> completes (forEach l body).
Proof.
  induction l as [| x rest IH]; intro H; simpl.
  - apply completes_ret.
  - apply completes_bind; [apply H; now left |].
    intros _; apply IH; intros y Hy; apply H; now right.
Qed.

Lemma ToString_primitive v : primitive v = true -> isNormal (ToString v) = true.
Proof. destruct v as [| [|] | | | |]; simpl; congruence. Qed.

Lemma ToStringV_primitive v : primitiveOrAbsent v = true -> isNormal (ToStringV v) = true.
Proof. destruct v as [j |]; [apply ToString_primitive | reflexivity]. Qed.

Lemma joinItem_primitive v : primitiveOrAbsent v = true -> isNormal (joinItem v) = true.
Proof. destruct v as [[| [|] | | | |] |]; simpl; congruence. Qed.

Lemma ToNumber_compare_primitive v k :
  primitiveOrAbsent v = true -> isNormal (ToNumber_compare v k) = true.
Proof. destruct v as [[| [|] | | | |] |]; simpl; congruence. Qed.

Lemma lessThan_primitive v k :
  primitiveOrAbsent v = true -> isNormal (lessThan v k) = true.
Proof.
  intro H; unfold lessThan.
  pose proof (ToNumber_compare_primitive v k H) as Hn.
  destruct (ToNumber_compare v k); [reflexivity | discriminate].
Qed.

Lemma greaterThan_primitive v k :
  primitiveOrAbsent v = true -> isNormal (greaterThan v k) = true.
Proof.
  intro H; unfold greaterThan.
  pose proof (ToNumber_compare_primitive v k H) as Hn.
  destruct (ToNumber_compare v k); [reflexivity | discriminate].
Qed.

(** The [length] of anything but a key-value object is a number or absent. *)
Lemma Get_length v :
  notObject (Some v) = true -> v <> JNull ->
  exists len, Get v "length" = Normal len /\ primitiveOrAbsent len = true.
Proof.
  destruct v as [| b | n | s | l | p]; simpl; intros Hshape Hnull;
    try congruence; eexists; split; reflexivity.
Qed.

Lemma truthy_not_null v : truthy (Some v) = true -> v <> JNull.
Proof. intros H ->; discriminate. Qed.

Lemma primitive_notObject v : primitive v = true -> notObject (Some v) = true.
Proof. destruct v; simpl; congruence. Qed.

Lemma find_normal {A} (p : A -> completion bool) l :
  (forall x, In x l -> isNormal (p x) = true) -> isNormal (find p l) = true.
Proof.
  induction l as [| x rest IH]; intro H; simpl; [reflexivity |].
  pose proof (H x (or_introl eq_refl)) as Hx.
  destruct (p x) as [[|] |]; simpl; [reflexivity | | discriminate].
  apply IH; intros y Hy; apply H; now right.
Qed.

Lemma some_normal {A} (p : A -> completion bool) l :
  (forall x, In x l -> isNormal (p x) = true) -> isNormal (some p l) = true.
Proof.
  induction l as [| x rest IH]; intro H; simpl; [reflexivity |].
  pose proof (H x (or_introl eq_refl)) as Hx.
  destruct (p x) as [[|] |]; simpl; [reflexivity | | discriminate].
  apply IH; intros y Hy; apply H; now right.
Qed.

Lemma iconMatches_primitive iconPath f :
  primitive iconPath = true -> isNormal (iconMatches iconPath f) = true.
Proof.
  intro H; unfold iconMatches.
  destruct (isString (name f) iconPath); [reflexivity |].
  pose proof (ToString_primitive iconPath H) as Hs.
  destruct (ToString iconPath); [reflexivity | discriminate].
Qed.

Lemma Get_normal v k : v <> JNull -> isNormal (Get v k) = true.
Proof.
  destruct v; simpl; intro H; try reflexivity; try congruence;
    destruct (k =? "length")%string; reflexivity.
Qed.

Lemma lengthBlock_completes v lo hi tooShort tooLong :
  primitiveOrAbsent v = true ->
  completes (when (truthy v)
    (len <- lift (GetV v "length") ;;
     short <- lift (lessThan len lo) ;;
     if short then push tooShort
     else
       long <- lift (greaterThan len hi) ;;
       when long (push tooLong))).
Proof.
  intro Hprim; apply completes_when; intro Htruthy.
  destruct v as [j |]; [| discriminate].
  destruct (Get_length j (primitive_notObject j Hprim) (truthy_not_null j Htruthy))
    as (len & Hlen & Hlenprim).
  cbn [GetV]; rewrite Hlen.
  apply completes_bind_lift; [reflexivity | intros len' Heq; injection Heq as <-].
  apply completes_bind_lift; [now apply lessThan_primitive | intros short _].
  destruct short; [apply completes_push |].
  apply completes_bind_lift; [now apply greaterThan_primitive | intros long _].
  apply completes_when; intros _; apply completes_push.
Qed.

Lemma validateManifestRequirements_completes props :
  primitiveOrAbsent (lookup "name" props) = true ->
  primitiveOrAbsent (lookup "description" props) = true ->
  primitiveOrAbsent (lookup "version" props) = true ->
  completes (validateManifestRequirements (JObj props)).
Proof.
  intros Hname Hdesc Hversion; unfold validateManifestRequirements.
  apply completes_bind; [| intros _].
  { apply completes_forEach; intros field _.
    apply completes_bind_lift; [reflexivity | intros v _].
    apply completes_when; intros _; apply completes_push. }
  apply completes_bind; [| intros _].
  { apply completes_bind_lift; [reflexivity | intros nameV Hget].
    cbn [Get] in Hget; injection Hget as <-.
    now apply lengthBlock_completes. }
  apply completes_bind; [| intros _].
  { apply completes_bind_lift; [reflexivity | intros descV Hget].
    cbn [Get] in Hget; injection Hget as <-.
    now apply lengthBlock_completes. }
  apply completes_bind; [| intros _].
  { apply completes_bind_lift; [reflexivity | intros version Hget].
    cbn [Get] in Hget; injection Hget as <-.
    apply completes_bind_lift.
    - destruct (truthy (lookup "version" props)); [| reflexivity].
      pose proof (ToStringV_primitive _ Hversion) as Hs.
      destruct (ToStringV (lookup "version" props)); [reflexivity | discriminate].
    - intros bad _; apply completes_when; intros _; apply completes_push. }
  apply completes_bind_lift; [reflexivity | intros mv _].
  apply completes_when; intros _; apply completes_push.
Qed.

Lemma checkIconFile_completes files entry :
  primitive (snd entry) = true -> completes (checkIconFile files entry).
Proof.
  intro Hprim; unfold checkIconFile.
  apply completes_bind_lift.
  - apply find_normal; intros f _; now apply iconMatches_primitive.
  - intros [f |] _.
    + apply completes_when; intros _.
      apply completes_bind_lift; [now apply ToString_primitive | intros p _].
      apply completes_push.
    + apply completes_bind_lift; [now apply ToString_primitive | intros p _].
      apply completes_push.
Qed.

Lemma validateIconRequirements_completes props files :
  forallb (fun entry => primitive (snd entry)) (entriesV (lookup "icons" props)) = true ->
  completes (validateIconRequirements (JObj props) files).
Proof.
  intro Hentries; unfold validateIconRequirements.
  apply completes_bind_lift; [reflexivity | intros iconsV Hget].
  cbn [Get] in Hget; injection Hget as <-.
  destruct (truthy (lookup "icons" props)) eqn:Htruthy; cbn [negb];
    [| apply completes_push].
  destruct (lookup "icons" props) as [j |]; [| discriminate].
  pose proof (truthy_not_null j Htruthy) as Hnull.
  apply completes_bind; [| intros _].
  { apply completes_forEach; intros sz _.
    apply completes_bind_lift; [now apply Get_normal | intros v _].
    apply completes_when; intros _; apply completes_push. }
  apply completes_bind; [| intros _].
  { apply completes_forEach; intros sz _.
    apply completes_bind_lift; [now apply Get_normal | intros v _].
    apply completes_when; intros _; apply completes_push. }
  apply completes_forEach; intros entry Hin.
  apply checkIconFile_completes.
  rewrite forallb_forall in Hentries; now apply Hentries.
Qed.

Lemma isJStr_inv v : isJStr v = true -> exists s, v = JStr s.
Proof. destruct v; try discriminate; intros _; eexists; reflexivity. Qed.

Lemma validatePermissionRequirements_completes props :
  stringsOrAbsent (lookup "permissions" props) = true ->
  completes (validatePermissionRequirements (JObj props)).
Proof.
  intro Hperms; unfold validatePermissionRequirements.
  apply completes_bind_lift; [reflexivity | intros perms Hget].
  cbn [Get] in Hget; injection Hget as <-.
  destruct (lookup "permissions" props) as [[| | | | l |] |];
    try discriminate; try apply completes_ret.
  cbn [truthy negb stringsOrAbsent] in *.
  rewrite forallb_forall in Hperms.
  apply completes_bind; [| intros _].
  { apply completes_bind_lift; [reflexivity | intros ps Hps].
    cbn in Hps; injection Hps as <-.
    apply completes_forEach; intros permission Hin.
    apply completes_when; intros _.
    destruct (isJStr_inv _ (Hperms _ Hin)) as [s ->].
    apply completes_bind_lift; [reflexivity | intros p _].
    apply completes_push. }
  apply completes_bind; [| intros _].
  { apply completes_bind_lift; [reflexivity | intros n Hn].
    cbn in Hn; injection Hn as <-.
    apply completes_bind_lift; [reflexivity | intros many _].
    apply completes_when; intros _.
    apply completes_bind_lift; [reflexivity | intros s _].
    apply completes_push. }
  apply completes_bind_lift; [reflexivity | intros mv _].
  apply completes_bind_lift.
  - destruct (strictEqualsNum mv 3); [| reflexivity].
    cbn [asArrayV asArray cbind].
    apply some_normal; intros p Hin.
    destruct (isJStr_inv _ (Hperms _ Hin)) as [s ->]; reflexivity.
  - intros host _; apply completes_when; intros _; apply completes_push.
Qed.

Lemma completes_from_nil {A} P (c : M A) :
  appendsOnly P c -> completed (c []) = true -> completes c.
Proof.
  intros [H _] Hnil r; now rewrite (H r), completed_appendOutcome.
Qed.

Lemma validatePrivacyRequirements_completes props :
  stringsOrAbsent (lookup "permissions" props) = true ->
  completes (validatePrivacyRequirements (JObj props)).
Proof.
  intro Hperms.
  apply (completes_from_nil _ _ (validatePrivacyRequirements_appendsOnly _)).
  rewrite validatePrivacyRequirements_run; cbv zeta.
  destruct (lookup "permissions" props) as [[| | | | l |] |]; try discriminate;
    try reflexivity.
  cbn [someOpt asArray cbind includesOpt callIncludes].
  assert (Hsome : isNormal (some (fun p =>
            Normal (listIncludes STORE_REQUIREMENTS.privacy.data_collection_apis p)) l) = true).
  { apply some_normal; intros; reflexivity. }
  destruct (some _ l); [reflexivity | discriminate].
Qed.

Lemma json_eq_JNull (j : json) : j = JNull \/ j <> JNull.
Proof. destruct j; [now left | right; discriminate ..]. Qed.

Lemma hasContentScripts_normal props :
  notObject (lookup "content_scripts" props) = true ->
  isNormal (hasContentScripts (JObj props)) = true.
Proof.
  intro Hshape; unfold hasContentScripts; cbn [Get cbind].
  destruct (lookup "content_scripts" props) as [j |] eqn:Hj; [| reflexivity].
  destruct (json_eq_JNull j) as [-> | Hnull]; [reflexivity |].
  destruct (Get_length j Hshape Hnull) as (len & Hlen & Hprim).
  assert (Hopt : GetOpt (Some j) "length" = Normal len).
  { destruct j; try exact Hlen; congruence. }
  rewrite Hopt; cbn [cbind]; now apply greaterThan_primitive.
Qed.

Lemma validateContentPolicies_completes props files :
  primitiveOrAbsent (lookup "name" props) = true ->
  primitiveOrAbsent (lookup "description" props) = true ->
  notObject (lookup "content_scripts" props) = true ->
  completes (validateContentPolicies (JObj props) files).
Proof.
  intros Hname Hdesc Hscripts; unfold validateContentPolicies.
  apply completes_bind; [| intros _].
  { apply completes_when; intros _; apply completes_push. }
  apply completes_bind; [| intros _].
  { apply completes_bind_lift.
    - cbn [Get cbind].
      pose proof (joinItem_primitive _ Hname) as Ha.
      pose proof (joinItem_primitive _ Hdesc) as Hb.
      destruct (joinItem (lookup "name" props)); [| discriminate].
      destruct (joinItem (lookup "description" props)); [reflexivity | discriminate].
    - intros textContent _.
      apply completes_forEach; intros prohibited _.
      apply completes_when; intros _; apply completes_push. }
  apply completes_bind_lift.
  - rewrite hasMultiplePurposes_object.
    pose proof (hasContentScripts_normal props Hscripts) as Hn.
    destruct (hasContentScripts (JObj props)); [reflexivity | discriminate].
  - intros multiple _; apply completes_when; intros _; apply completes_push.
Qed.

Lemma runChecks_emitted manifest files :
  completed (validateManifestRequirements manifest []) = true ->
  completed (validateIconRequirements manifest files []) = true ->
  completed (validatePermissionRequirements manifest []) = true ->
  completed (validatePrivacyRequirements manifest []) = true ->
  completed (validateContentPolicies manifest files []) = true ->
  completed (runChecks manifest files []) = true
  /\ resultsOf (runChecks manifest files []) =
     emitted (validateManifestRequirements manifest)
     ++ emitted (validateIconRequirements manifest files)
     ++ emitted (validatePermissionRequirements manifest)
     ++ emitted (validatePrivacyRequirements manifest)
     ++ emitted (validateContentPolicies manifest files).
Proof.
  intros H1 H2 H3 H4 H5.
  pose proof (appendsOnly_any _ _ (validateIconRequirements_appendsOnly manifest files)) as A2.
  pose proof (appendsOnly_any _ _ (validatePermissionRequirements_appendsOnly manifest)) as A3.
  pose proof (appendsOnly_any _ _ (validatePrivacyRequirements_appendsOnly manifest)) as A4.
  pose proof (appendsOnly_any _ _ (validateContentPolicies_appendsOnly manifest files)) as A5.
  assert (B4 : appendsOnly (fun _ => True)
                 (validatePrivacyRequirements manifest >>
                  validateContentPolicies manifest files)).
  { apply appendsOnly_bind; [exact A4 | intros _; exact A5]. }
  assert (B3 : appendsOnly (fun _ => True)
                 (validatePermissionRequirements manifest >>
                  validatePrivacyRequirements manifest >>
                  validateContentPolicies manifest files)).
  { apply appendsOnly_bind; [exact A3 | intros _; exact B4]. }
  pose proof (afterManifest_appendsOnly manifest files) as B2.
  unfold runChecks; split.
  - rewrite completed_seq by apply B2; rewrite H1.
    rewrite completed_seq by apply B3; rewrite H2.
    rewrite completed_seq by apply B4; rewrite H3.
    rewrite completed_seq by apply A5; rewrite H4, H5; reflexivity.
  - rewrite resultsOf_seq by apply B2; rewrite H1; f_equal.
    unfold emitted at 1; rewrite resultsOf_seq by apply B3; rewrite H2; f_equal.
    unfold emitted at 1; rewrite resultsOf_seq by apply B4; rewrite H3; f_equal.
    unfold emitted at 1; rewrite resultsOf_seq by apply A5; rewrite H4; reflexivity.
Qed.

Lemma wellShaped_inv props :
  wellShaped props = true ->
  primitiveOrAbsent (lookup "name" props) = true
  /\ primitiveOrAbsent (lookup "description" props) = true
  /\ primitiveOrAbsent (lookup "version" props) = true
  /\ forallb (fun entry => primitive (snd entry)) (entriesV (lookup "icons" props)) = true
  /\ stringsOrAbsent (lookup "permissions" props) = true
  /\ notObject (lookup "content_scripts" props) = true.
Proof.
  unfold wellShaped; intro H.
  repeat (apply andb_true_iff in H; destruct H as [H ?]).
  repeat split; assumption.
Qed.

(** ** The purpose count of the content check *)

(** C9 (as amended): in a content check that runs to its end, the purpose
    count is the number of true values among: content_scripts has a
    positive length, background is truthy, action or browser_action is
    truthy, options_page is truthy; "Multiple functionalities detected" (an
    info of low severity) is pushed, once, exactly when that count exceeds
    2.  A content check that raises pushes no such finding, whatever the
    count.  The content check runs to its end whenever name and
    description are absent or primitive values and content_scripts is not a
    key-value object. *)
Theorem purpose_count_rule :
  forall (props : list (string * json)) (files : list File),
    let out := emitted (validateContentPolicies (JObj props) files) in
    (completed (validateContentPolicies (JObj props) files []) = false ->
     withTitle "Multiple functionalities detected" out = [])
    /\ (completed (validateContentPolicies (JObj props) files []) = true ->
        exists scripts,
          hasContentScripts (JObj props) = Normal scripts
          /\ (lookup "content_scripts" props = None -> scripts = false)
          /\ (forall l, lookup "content_scripts" props = Some (JArr l) ->
                        scripts = (0 <? Z.of_nat (List.length l)))
          /\ let count :=
               trueCount [scripts;
                          truthy (lookup "background" props);
                          truthy (lookup "action" props)
                          || truthy (lookup "browser_action" props);
                          truthy (lookup "options_page" props)] in
             withTitle "Multiple functionalities detected" out =
               (if 2 <? count then [multipleFunctionalities] else [])
             /\ (In multipleFunctionalities out <-> 2 < count)
             /\ type multipleFunctionalities = info
             /\ severity multipleFunctionalities = low)
    /\ (primitiveOrAbsent (lookup "name" props) = true ->
        primitiveOrAbsent (lookup "description" props) = true ->
        notObject (lookup "content_scripts" props) = true ->
        completed (validateContentPolicies (JObj props) files []) = true).
Proof.
  intros props files; cbv zeta.
  assert (Hcompletes :
            primitiveOrAbsent (lookup "name" props) = true ->
            primitiveOrAbsent (lookup "description" props) = true ->
            notObject (lookup "content_scripts" props) = true ->
            completed (validateContentPolicies (JObj props) files []) = true).
  { intros Hname Hdesc Hscripts.
    exact (validateContentPolicies_completes props files Hname Hdesc Hscripts []). }
  revert Hcompletes.
  assert (Hout : withTitle "Multiple functionalities detected"
                   (emitted (validateContentPolicies (JObj props) files)) =
                 if completed (checkProhibitedContent (JObj props) [])
                 then withTitle "Multiple functionalities detected"
                        (emitted (checkSinglePurpose (JObj props)))
                 else []).
  { rewrite validateContentPolicies_emitted, !withTitle_app.
    rewrite withTitle_prohibited by discriminate.
    unfold emitted at 1; rewrite checkPackageSize_run; cbn [resultsOf].
    destruct (STORE_REQUIREMENTS.content.max_package_size <? totalSize files);
      destruct (completed (checkProhibitedContent (JObj props) [])); reflexivity. }
  rewrite validateContentPolicies_completed.
  intro Hcompletes.
  split; [| split; [| exact Hcompletes]].
  - intro Hraised; rewrite Hout.
    destruct (completed (checkProhibitedContent (JObj props) [])); [| reflexivity].
    cbn [andb] in Hraised; unfold emitted.
    rewrite checkSinglePurpose_run in *.
    destruct (hasMultiplePurposes (JObj props)); [discriminate | reflexivity].
  - intro Hdone; apply andb_true_iff in Hdone; destruct Hdone as [Htext Hpurpose].
    rewrite checkSinglePurpose_run, hasMultiplePurposes_object in Hpurpose.
    destruct (hasContentScripts (JObj props)) as [scripts |] eqn:Hscripts;
      [| discriminate].
    exists scripts.
    split; [reflexivity |].
    split.
    { intro Habsent; rewrite (hasContentScripts_absent _ Habsent) in Hscripts; congruence. }
    split.
    { intros l Harr; rewrite (hasContentScripts_array _ _ Harr) in Hscripts; congruence. }
    assert (Hfilter : withTitle "Multiple functionalities detected"
                        (emitted (validateContentPolicies (JObj props) files)) =
                      if 2 <? trueCount [scripts;
                                         truthy (lookup "background" props);
                                         truthy (lookup "action" props)
                                         || truthy (lookup "browser_action" props);
                                         truthy (lookup "options_page" props)]
                      then [multipleFunctionalities] else []).
    { rewrite Hout, Htext; unfold emitted.
      rewrite checkSinglePurpose_run, hasMultiplePurposes_object, Hscripts; cbn [cbind resultsOf].
      match goal with |- context [2 <? ?c] => destruct (2 <? c) end; reflexivity. }
    split; [exact Hfilter |].
    split; [| split; reflexivity].
    split.
    + intro Hin.
      assert (Hin' : In multipleFunctionalities
                       (withTitle "Multiple functionalities detected"
                          (emitted (validateContentPolicies (JObj props) files)))).
      { apply filter_In; split; [exact Hin | reflexivity]. }
      rewrite Hfilter in Hin'.
      match goal with |- 2 < ?c => destruct (Z.ltb_spec 2 c) end; [assumption | destruct Hin'].
    + intro Hcount.
      assert (Hin' : In multipleFunctionalities
                       (withTitle "Multiple functionalities detected"
                          (emitted (validateContentPolicies (JObj props) files)))).
      { rewrite Hfilter.
        match goal with |- context [2 <? ?c] => destruct (Z.ltb_spec 2 c) end;
          [now left | lia]. }
      apply filter_In in Hin'; tauto.
Qed.

(** ** Every run ends *)

(** C8 (as amended): [validateForStore] never raises, whatever the decoded
    manifest: it ends with the completion toast or with "Validation
    failed", the validating flag cleared.  For a key-value manifest whose
    fields are absent or of the shapes of [wellShaped], and any files, all
    five checks run to completion, in order, over one findings array, and
    the run publishes their findings; a manifest from which those fields
    are absent is of that shape, so an absent field never stops a later
    check.  For any manifest the run completes exactly when each of the
    five checks does, and then publishes the findings of the run; when a
    check raises, the error is reported as "Validation failed", the checks
    after it are skipped (the progress stops at 20 per check completed
    before it) and nothing is published: the findings and the score in the
    state stay as they were. *)
Theorem validateForStore_total :
  forall (manifest : json) (files : list File) (st : State),
    (snd (validateForStore manifest files st) = validationFailed
     \/ snd (validateForStore manifest files st) =
        validationComplete (resultsOf (runChecks manifest files [])))
    /\ isValidating (fst (validateForStore manifest files st)) = false
    /\ (forall props,
          manifest = JObj props ->
          wellShaped props = true ->
          completed (validateManifestRequirements manifest []) = true
          /\ completed (validateIconRequirements manifest files []) = true
          /\ completed (validatePermissionRequirements manifest []) = true
          /\ completed (validatePrivacyRequirements manifest []) = true
          /\ completed (validateContentPolicies manifest files []) = true
          /\ completed (runChecks manifest files []) = true
          /\ snd (validateForStore manifest files st) =
             validationComplete (resultsOf (runChecks manifest files []))
          /\ progress (fst (validateForStore manifest files st)) = 100
          /\ validationResults (fst (validateForStore manifest files st)) =
             emitted (validateManifestRequirements manifest)
             ++ emitted (validateIconRequirements manifest files)
             ++ emitted (validatePermissionRequirements manifest)
             ++ emitted (validatePrivacyRequirements manifest)
             ++ emitted (validateContentPolicies manifest files))
    /\ (forall props,
          (forall field, In field ["name"; "description"; "version"; "icons";
                                   "permissions"; "content_scripts"] ->
                         lookup field props = None) ->
          wellShaped props = true)
    /\ completed (runChecks manifest files []) =
       completed (validateManifestRequirements manifest [])
       && (completed (validateIconRequirements manifest files [])
           && (completed (validatePermissionRequirements manifest [])
               && (completed (validatePrivacyRequirements manifest [])
                   && completed (validateContentPolicies manifest files []))))
    /\ (completed (runChecks manifest files []) = true ->
        snd (validateForStore manifest files st) =
          validationComplete (resultsOf (runChecks manifest files []))
        /\ validationResults (fst (validateForStore manifest files st)) =
           resultsOf (runChecks manifest files [])
        /\ progress (fst (validateForStore manifest files st)) = 100)
    /\ (completed (runChecks manifest files []) = false ->
        snd (validateForStore manifest files st) = validationFailed
        /\ validationResults (fst (validateForStore manifest files st)) =
           validationResults st
        /\ overallScore (fst (validateForStore manifest files st)) = overallScore st
        /\ progress (fst (validateForStore manifest files st)) =
           (if completed (validateManifestRequirements manifest []) then
              if completed (validateIconRequirements manifest files []) then
                if completed (validatePermissionRequirements manifest []) then
                  if completed (validatePrivacyRequirements manifest []) then 80 else 60
                else 40
              else 20
            else 0)).
Proof.
  intros manifest files st.
  split.
  { rewrite validateForStore_run.
    destruct (runChecks manifest files []) as [[] r | r]; [now right | now left]. }
  split.
  { rewrite validateForStore_run.
    destruct (runChecks manifest files []) as [[] r | r]; reflexivity. }
  split;
    [| split; [intros props Habsent; unfold wellShaped;
               rewrite !Habsent by (simpl; tauto); reflexivity |];
       split; [apply runChecks_completed |];
       split;
       [ intro Hdone; rewrite validateForStore_run;
         destruct (runChecks manifest files []) as [[] r | r]; [| discriminate];
         repeat split
       | intro Hraised;
         destruct (validateForStore_failed manifest files st Hraised)
           as (Ht & Hr & Hs & _ & Hp);
         repeat split; assumption ]].
  intros props -> Hshape.
  destruct (wellShaped_inv props Hshape) as (Hn & Hd & Hv & Hi & Hp & Hc).
  pose proof (validateManifestRequirements_completes props Hn Hd Hv []) as H1.
  pose proof (validateIconRequirements_completes props files Hi []) as H2.
  pose proof (validatePermissionRequirements_completes props Hp []) as H3.
  pose proof (validatePrivacyRequirements_completes props Hp []) as H4.
  pose proof (validateContentPolicies_completes props files Hn Hd Hc []) as H5.
  destruct (runChecks_emitted (JObj props) files H1 H2 H3 H4 H5) as [Hdone Hresults].
  repeat (split; [assumption |]).
  rewrite validateForStore_run, <- Hresults.
  destruct (runChecks (JObj props) files []) as [[] r | r]; [| discriminate].
  repeat split.
Qed.

(** * Further properties of the component *)

(** ** The score as a function of the findings *)

Lemma penalties_cons r results : penalties (r :: results) = penaltyOf r + penalties results.
Proof. rewrite !penalties_sum; reflexivity. Qed.

Lemma score_of results st :
  overallScore (calculateOverallScore results st) = Z.max 0 (100 + penalties results).
Proof.
  unfold calculateOverallScore, setOverallScore; cbn [overallScore].
  pose proof (penalties_nonpos results); lia.
Qed.

(** X1: the score is 100 exactly when there is no finding; any finding
    brings it to 95 or less. *)
Theorem perfect_score_iff_no_findings :
  forall (results : list StoreValidationResult) (st : State),
    (overallScore (calculateOverallScore results st) = 100 <-> results = [])
    /\ (results <> [] -> overallScore (calculateOverallScore results st) <= 95).
Proof.
  intros results st; rewrite score_of.
  destruct results as [| r rest].
  - split; [split; reflexivity | congruence].
  - rewrite penalties_cons.
    pose proof (penalties_nonpos rest).
    assert (penaltyOf r <= -5) by (unfold penaltyOf; destruct (severity r); lia).
    split; [split; [lia | discriminate] | lia].
Qed.

(** X2: the score does not depend on the order of the findings. *)
Theorem score_order_independent :
  forall (results results' : list StoreValidationResult) (st : State),
    Permutation results results' ->
    overallScore (calculateOverallScore results st) =
    overallScore (calculateOverallScore results' st).
Proof.
  intros results results' st Hperm; rewrite !score_of; f_equal; f_equal.
  induction Hperm; rewrite ?penalties_cons in *; try lia; reflexivity.
Qed.

(** X3: further findings never raise the score, wherever they are
    inserted. *)
Theorem more_findings_lower_score :
  forall (before extra after : list StoreValidationResult) (st : State),
    overallScore (calculateOverallScore (before ++ extra ++ after) st) <=
    overallScore (calculateOverallScore (before ++ after) st).
Proof.
  intros before extra after st; rewrite !score_of, !penalties_app.
  pose proof (penalties_nonpos extra); lia.
Qed.

(** X4: every score is a multiple of 5. *)
Theorem score_multiple_of_5 :
  forall (results : list StoreValidationResult) (st : State),
    exists q, overallScore (calculateOverallScore results st) = 5 * q /\ 0 <= q <= 20.
Proof.
  intros results st; rewrite score_of.
  assert (Hdiv : exists p, penalties results = 5 * p).
  { induction results as [| r rest [p Hp]].
    - now exists 0.
    - rewrite penalties_cons, Hp; unfold penaltyOf.
      destruct (severity r);
        [exists (p - 5) | exists (p - 3) | exists (p - 2) | exists (p - 1)]; lia. }
  destruct Hdiv as [p Hp]; pose proof (penalties_nonpos results).
  destruct (Z_le_gt_dec (100 + penalties results) 0).
  - exists 0; lia.
  - exists (20 + p); lia.
Qed.


(** ** What a run publishes *)

Lemma emitted_Forall {A} P (c : M A) : appendsOnly P c -> Forall P (emitted c).
Proof. intros [_ H]; exact H. Qed.

Lemma runChecks_Forall (P : StoreValidationResult -> Prop) manifest files :
  (forall f, manifestFinding f -> P f) ->
  (forall f, iconFinding f -> P f) ->
  (forall f, permissionFinding f -> P f) ->
  (forall f, privacyFinding f -> P f) ->
  (forall f, contentFinding f -> P f) ->
  Forall P (resultsOf (runChecks manifest files [])).
Proof.
  intros H1 H2 H3 H4 H5; rewrite runChecks_results.
  pose proof (emitted_Forall _ _ (appendsOnly_weaken _ _ _ H1
    (validateManifestRequirements_appendsOnly manifest))) as F1.
  pose proof (emitted_Forall _ _ (appendsOnly_weaken _ _ _ H2
    (validateIconRequirements_appendsOnly manifest files))) as F2.
  pose proof (emitted_Forall _ _ (appendsOnly_weaken _ _ _ H3
    (validatePermissionRequirements_appendsOnly manifest))) as F3.
  pose proof (emitted_Forall _ _ (appendsOnly_weaken _ _ _ H4
    (validatePrivacyRequirements_appendsOnly manifest))) as F4.
  pose proof (emitted_Forall _ _ (appendsOnly_weaken _ _ _ H5
    (validateContentPolicies_appendsOnly manifest files))) as F5.
  repeat match goal with
         | |- Forall _ (_ ++ _) => apply Forall_app; split; [assumption |]
         | |- Forall _ (if ?b then _ else _) => destruct b; [| constructor]
         end.
  assumption.
Qed.

Lemma filter_all {A} (p : A -> bool) l :
  Forall (fun x => p x = true) l -> filter p l = l.
Proof.
  induction 1 as [| x l Hx _ IH]; simpl; [reflexivity |].
  now rewrite Hx, IH.
Qed.

Lemma filter_none {A} (p : A -> bool) l :
  Forall (fun x => p x = false) l -> filter p l = [].
Proof.
  induction 1 as [| x l Hx _ IH]; simpl; [reflexivity |].
  now rewrite Hx.
Qed.

Lemma filter_same {A} (p q : A -> bool) l :
  Forall (fun x => p x = q x) l -> filter p l = filter q l.
Proof.
  induction 1 as [| x l Hx _ IH]; simpl; [reflexivity |].
  now rewrite Hx, IH.
Qed.

Lemma filter_orb_length {A} (p q : A -> bool) l :
  (List.length (filter p l) <= List.length (filter (fun x => p x || q x) l))%nat.
Proof.
  induction l as [| x l IH]; simpl; [apply Nat.le_refl |].
  destruct (p x); simpl; [now apply le_n_S |].
  destruct (q x); simpl; [now apply Nat.le_le_succ_r | exact IH].
Qed.

Lemma validateForStore_published manifest files st :
  completed (runChecks manifest files []) = true ->
  validationResults (fst (validateForStore manifest files st)) =
    resultsOf (runChecks manifest files [])
  /\ overallScore (fst (validateForStore manifest files st)) =
     Z.max 0 (100 + penalties (resultsOf (runChecks manifest files []))).
Proof.
  intro Hdone; rewrite validateForStore_run.
  destruct (runChecks manifest files []) as [[] r | r]; [| discriminate].
  cbn [fst validationResults overallScore resultsOf].
  pose proof (penalties_nonpos r); split; [reflexivity | lia].
Qed.

(** X5: what a completed run publishes holds no finding of type success
    and none of category metadata, so "Requirements Met" reads 0; every
    critical finding is an error, so the critical count is at most the
    error count and the issues tab lists exactly the errors; every
    finding carries a suggestion. *)
Theorem published_findings_shape :
  forall (manifest : json) (files : list File) (st : State),
    completed (runChecks manifest files []) = true ->
    let st' := fst (validateForStore manifest files st) in
    requirementsMet st' = 0
    /\ categoryTab metadata st' = []
    /\ criticalIssues st' <= errors st'
    /\ issuesTab st' = filter isError (validationResults st')
    /\ Forall (fun f => suggestion f <> None) (validationResults st').
Proof.
  intros manifest files st Hdone; cbv zeta.
  destruct (validateForStore_published manifest files st Hdone) as [Hres _].
  assert (Hshape : Forall (fun f => isSuccess f = false
                                    /\ Category_eqb (category f) metadata = false
                                    /\ (isCritical f || isError f = isError f)
                                    /\ suggestion f <> None)
                          (resultsOf (runChecks manifest files []))).
  { apply runChecks_Forall; intros f Hf; destruct Hf; repeat split; discriminate. }
  unfold requirementsMet, categoryTab, criticalIssues, errors, issuesTab; rewrite Hres.
  split.
  { rewrite filter_none; [reflexivity |].
    eapply Forall_impl; [| exact Hshape]; simpl; tauto. }
  split.
  { apply filter_none.
    eapply Forall_impl; [| exact Hshape]; simpl; tauto. }
  assert (Hissues : filter (fun r => isCritical r || isError r)
                      (resultsOf (runChecks manifest files [])) =
                    filter isError (resultsOf (runChecks manifest files []))).
  { apply filter_same.
    eapply Forall_impl; [| exact Hshape]; simpl; tauto. }
  split.
  { apply inj_le; rewrite <- Hissues; apply filter_orb_length. }
  split; [exact Hissues |].
  eapply Forall_impl; [| exact Hshape]; simpl; tauto.
Qed.


Lemma emitted_category m files :
  Forall (fun f => category f = manifest) (emitted (validateManifestRequirements m))
  /\ Forall (fun f => category f = icons) (emitted (validateIconRequirements m files))
  /\ Forall (fun f => category f = permissions)
            (emitted (validatePermissionRequirements m))
  /\ Forall (fun f => category f = privacy) (emitted (validatePrivacyRequirements m))
  /\ Forall (fun f => category f = content) (emitted (validateContentPolicies m files)).
Proof.
  repeat split; apply emitted_Forall;
    [ eapply appendsOnly_weaken; [| apply validateManifestRequirements_appendsOnly]
    | eapply appendsOnly_weaken; [| apply validateIconRequirements_appendsOnly]
    | eapply appendsOnly_weaken; [| apply validatePermissionRequirements_appendsOnly]
    | eapply appendsOnly_weaken; [| apply validatePrivacyRequirements_appendsOnly]
    | eapply appendsOnly_weaken; [| apply validateContentPolicies_appendsOnly] ];
    intros f Hf; destruct Hf; reflexivity.
Qed.

Lemma filter_category (c c' : Category) l :
  Forall (fun f => category f = c') l ->
  filter (fun r => Category_eqb (category r) c) l = if Category_eqb c' c then l else [].
Proof.
  intro H; destruct (Category_eqb c' c) eqn:E.
  - apply filter_all; eapply Forall_impl; [| exact H]; simpl; intros f ->; exact E.
  - apply filter_none; eapply Forall_impl; [| exact H]; simpl; intros f ->; exact E.
Qed.

(** X6: after a completed run each category tab lists exactly the
    findings of the check of that name, in the order pushed, and the
    published list is the five tabs one after the other: m, icons,
    permissions, privacy, content. *)
Theorem category_tabs_are_the_checks :
  forall (m : json) (files : list File) (st : State),
    completed (runChecks m files []) = true ->
    let st' := fst (validateForStore m files st) in
    categoryTab manifest st' = emitted (validateManifestRequirements m)
    /\ categoryTab icons st' = emitted (validateIconRequirements m files)
    /\ categoryTab permissions st' = emitted (validatePermissionRequirements m)
    /\ categoryTab privacy st' = emitted (validatePrivacyRequirements m)
    /\ categoryTab content st' = emitted (validateContentPolicies m files)
    /\ validationResults st' =
       categoryTab manifest st' ++ categoryTab icons st'
       ++ categoryTab permissions st' ++ categoryTab privacy st' ++ categoryTab content st'.
Proof.
  intros m files st Hdone; cbv zeta.
  destruct (validateForStore_published m files st Hdone) as [Hres _].
  pose proof Hdone as Hall; rewrite runChecks_completed in Hall.
  repeat (apply andb_true_iff in Hall; destruct Hall as [? Hall]).
  destruct (runChecks_emitted m files) as [_ Hcat]; try assumption.
  destruct (emitted_category m files) as (C1 & C2 & C3 & C4 & C5).
  assert (Htab : forall c,
    categoryTab c (fst (validateForStore m files st)) =
    (if Category_eqb manifest c then emitted (validateManifestRequirements m) else [])
    ++ (if Category_eqb icons c then emitted (validateIconRequirements m files) else [])
    ++ (if Category_eqb permissions c
        then emitted (validatePermissionRequirements m) else [])
    ++ (if Category_eqb privacy c then emitted (validatePrivacyRequirements m) else [])
    ++ (if Category_eqb content c
        then emitted (validateContentPolicies m files) else [])).
  { intro c; unfold categoryTab; rewrite Hres, Hcat, !filter_app.
    rewrite (filter_category c _ _ C1), (filter_category c _ _ C2),
      (filter_category c _ _ C3), (filter_category c _ _ C4), (filter_category c _ _ C5).
    reflexivity. }
  rewrite !Htab; cbn [Category_eqb app]; rewrite !app_nil_r.
  repeat split; rewrite Hres; exact Hcat.
Qed.

(** ** How many critical findings a run can hold *)

Lemma criticalAtMost_app l1 l2 n1 n2 :
  (List.length (filter isCritical l1) <= n1)%nat ->
  (List.length (filter isCritical l2) <= n2)%nat ->
  (List.length (filter isCritical (l1 ++ l2)) <= n1 + n2)%nat.
Proof. intros H1 H2; rewrite filter_app, length_app; now apply Nat.add_le_mono. Qed.

Lemma noncritical_count l :
  Forall (fun f => isCritical f = false) l -> List.length (filter isCritical l) = 0%nat.
Proof. intro H; now rewrite filter_none. Qed.

Lemma manifest_critical_count manifest :
  (List.length (filter isCritical (emitted (validateManifestRequirements manifest))) <= 4)%nat.
Proof.
  unfold validateManifestRequirements.
  match goal with |- context [emitted (?loop >> ?rest)] =>
    assert (Hrest : appendsOnly (fun f => isCritical f = false) rest);
    [appends; reflexivity |];
    assert (Hloop : (List.length (filter isCritical (emitted loop)) <= 4)%nat)
  end.
  { unfold emitted; cbn [forEach STORE_REQUIREMENTS.manifest.required_fields].
    unfold bind, lift, ret.
    repeat match goal with
           | |- context [match Get manifest ?k with _ => _ end] =>
               destruct (Get manifest k) as [? |]; simpl
           | |- context [when (negb (truthy ?v)) _ _] =>
               destruct (truthy v); simpl
           end; repeat constructor. }
  unfold emitted at 1; rewrite resultsOf_seq by apply Hrest.
  change 4%nat with (4 + 0)%nat; apply criticalAtMost_app; [exact Hloop |].
  destruct (completed _); [| apply Nat.le_0_l].
  rewrite noncritical_count; [apply Nat.le_refl | now apply emitted_Forall].
Qed.

Lemma icons_critical_count manifest files :
  (List.length (filter isCritical (emitted (validateIconRequirements manifest files))) <= 1)%nat.
Proof.
  unfold validateIconRequirements, emitted, bind at 1, lift at 1.
  destruct (Get manifest "icons") as [iconsV |]; [| apply Nat.le_0_l].
  destruct (negb (truthy iconsV)); [apply Nat.le_refl |].
  match goal with |- context [resultsOf (?c [])] =>
    assert (Hc : appendsOnly (fun f => isCritical f = false) c) end.
  { appends; reflexivity. }
  destruct Hc as [_ Hc]; unfold emitted in Hc.
  rewrite noncritical_count by exact Hc; apply Nat.le_0_l.
Qed.


Lemma privacy_critical_count manifest :
  (List.length (filter isCritical (emitted (validatePrivacyRequirements manifest))) <= 1)%nat.
Proof.
  unfold validatePrivacyRequirements, emitted, bind at 1, lift at 1.
  destruct (Get manifest "permissions") as [perms |]; [| apply Nat.le_0_l].
  unfold bind at 1, lift at 1.
  destruct (someOpt perms _) as [collectsData |]; [| apply Nat.le_0_l].
  match goal with |- context [resultsOf ((?first >> ?rest) [])] =>
    assert (Hrest : appendsOnly (fun f => isCritical f = false) rest);
    [appends; reflexivity |];
    assert (Hfirst : (List.length (filter isCritical (emitted first)) <= 1)%nat)
  end.
  { unfold emitted, bind, lift.
    destruct collectsData; [| apply Nat.le_0_l].
    destruct (Get manifest "privacy_policy") as [policy |]; [| apply Nat.le_0_l].
    cbn [cbind]; destruct (negb (truthy policy)); [apply Nat.le_refl | apply Nat.le_0_l]. }
  rewrite resultsOf_seq by apply Hrest.
  change 1%nat with (1 + 0)%nat; apply criticalAtMost_app; [exact Hfirst |].
  destruct (completed _); [| apply Nat.le_0_l].
  rewrite noncritical_count; [apply Nat.le_refl | now apply emitted_Forall].
Qed.

Lemma permissions_critical_count manifest :
  List.length (filter isCritical (emitted (validatePermissionRequirements manifest))) = 0%nat.
Proof.
  apply noncritical_count, emitted_Forall.
  eapply appendsOnly_weaken; [| apply validatePermissionRequirements_appendsOnly].
  intros f Hf; destruct Hf; reflexivity.
Qed.

Lemma content_critical_count manifest files :
  List.length (filter isCritical (emitted (validateContentPolicies manifest files))) = 0%nat.
Proof.
  apply noncritical_count, emitted_Forall.
  eapply appendsOnly_weaken; [| apply validateContentPolicies_appendsOnly].
  intros f Hf; destruct Hf; reflexivity.
Qed.

Lemma runChecks_critical_count manifest files :
  (List.length (filter isCritical (resultsOf (runChecks manifest files []))) <= 6)%nat.
Proof.
  rewrite runChecks_results.
  pose proof (manifest_critical_count manifest) as H1.
  pose proof (icons_critical_count manifest files) as H2.
  pose proof (permissions_critical_count manifest) as H3.
  pose proof (privacy_critical_count manifest) as H4.
  pose proof (content_critical_count manifest files) as H5.
  repeat match goal with
         | |- context [if ?b then _ else _] => destruct b
         end;
    rewrite ?app_nil_r, ?filter_app, ?length_app; cbn [filter List.length];
    rewrite ?H3, ?H5;
    generalize dependent (List.length (filter isCritical
      (emitted (validateManifestRequirements manifest))));
    generalize dependent (List.length (filter isCritical
      (emitted (validateIconRequirements manifest files))));
    generalize dependent (List.length (filter isCritical
      (emitted (validatePrivacyRequirements manifest))));
    intros; lia.
Qed.

(** X7: a run holds at most 6 critical findings (four missing fields, no
    icons, no privacy policy), so the "Compliance Score" a completed run
    shows lies between 40 and 100; permissions = ["tabs"] alone reaches
    40. *)
Theorem compliance_score_bounds :
  forall (manifest : json) (files : list File) (st : State),
    completed (runChecks manifest files []) = true ->
    let st' := fst (validateForStore manifest files st) in
    0 <= criticalIssues st' <= 6
    /\ 40 <= complianceScore st' <= 100
    /\ complianceScore (fst (validateForStore (JObj tabsManifest) [] st)) = 40.
Proof.
  intros manifest files st Hdone; cbv zeta.
  destruct (validateForStore_published manifest files st Hdone) as [Hres _].
  pose proof (runChecks_critical_count manifest files) as Hcount.
  unfold complianceScore, criticalIssues; rewrite Hres.
  apply inj_le in Hcount; change (Z.of_nat 6) with 6 in Hcount.
  pose proof (Nat2Z.is_nonneg (List.length (filter isCritical
                (resultsOf (runChecks manifest files []))))) as Hpos.
  split; [split; assumption |].
  split; [lia |].
  rewrite validateForStore_run; reflexivity.
Qed.

(** ** The score card *)

Lemma getScoreLabel_cases score :
  (90 <= score /\ getScoreLabel score = "Excellent" /\ getScoreColor score = "text-green-600")
  \/ (80 <= score < 90 /\ getScoreLabel score = "Good"
      /\ getScoreColor score = "text-yellow-600")
  \/ (70 <= score < 80 /\ getScoreLabel score = "Fair"
      /\ getScoreColor score = "text-yellow-600")
  \/ (60 <= score < 70 /\ getScoreLabel score = "Poor"
      /\ getScoreColor score = "text-red-600")
  \/ (score < 60 /\ getScoreLabel score = "Critical Issues"
      /\ getScoreColor score = "text-red-600").
Proof.
  unfold getScoreLabel, getScoreColor.
  destruct (Z.leb_spec 90 score); [left; repeat split; lia |].
  destruct (Z.leb_spec 80 score);
    [right; left; destruct (Z.leb_spec 70 score); repeat split; lia |].
  destruct (Z.leb_spec 70 score); [right; right; left; repeat split; lia |].
  destruct (Z.leb_spec 60 score); [right; right; right; left; repeat split; lia |].
  right; right; right; right; repeat split; lia.
Qed.

(** X8: a findings list that holds a critical finding scores 75 at most:
    its label is never "Excellent" or "Good" and its colour never green;
    two critical findings are never better than "Critical Issues" in
    red. *)
Theorem critical_finding_caps_label :
  forall (results : list StoreValidationResult) (f g : StoreValidationResult) (st : State),
    In f results -> severity f = critical ->
    let score := overallScore (calculateOverallScore results st) in
    score <= 75
    /\ getScoreLabel score <> "Excellent"
    /\ getScoreLabel score <> "Good"
    /\ getScoreColor score <> "text-green-600"
    /\ (forall before middle after,
          results = before ++ f :: middle ++ g :: after -> severity g = critical ->
          getScoreLabel score = "Critical Issues" /\ getScoreColor score = "text-red-600").
Proof.
  intros results f g st Hin Hsev; cbv zeta; rewrite score_of.
  apply in_split in Hin; destruct Hin as (l1 & l2 & ->).
  assert (Hf : penaltyOf f = -25) by (unfold penaltyOf; now rewrite Hsev).
  assert (Hscore : Z.max 0 (100 + penalties (l1 ++ f :: l2)) <= 75).
  { rewrite penalties_app, penalties_cons.
    pose proof (penalties_nonpos l1); pose proof (penalties_nonpos l2); lia. }
  split; [exact Hscore |].
  assert (Htwo : forall before middle after,
            l1 ++ f :: l2 = before ++ f :: middle ++ g :: after ->
            severity g = critical ->
            Z.max 0 (100 + penalties (l1 ++ f :: l2)) < 60).
  { intros before middle after Heq Hg.
    assert (Hgp : penaltyOf g = -25) by (unfold penaltyOf; now rewrite Hg).
    rewrite Heq, penalties_app, penalties_cons, penalties_app, penalties_cons.
    pose proof (penalties_nonpos before); pose proof (penalties_nonpos middle);
      pose proof (penalties_nonpos after); lia. }
  destruct (getScoreLabel_cases (Z.max 0 (100 + penalties (l1 ++ f :: l2))))
    as [(? & _) | [(? & _) | [(? & -> & ->) | [(? & -> & ->) | (? & -> & ->)]]]];
    try lia;
    (split; [discriminate | split; [discriminate | split; [discriminate |]]]);
    intros before middle after Heq Hg;
    pose proof (Htwo before middle after Heq Hg);
    first [lia | split; reflexivity].
Qed.

(** X9: the score card is rendered only for a positive score, that is
    when the penalties of the published findings sum to more than -100; a
    manifest without its four required fields never gets one. *)
Theorem score_card_hidden_at_zero :
  forall (manifest : json) (files : list File) (st : State),
    completed (runChecks manifest files []) = true ->
    let st' := fst (validateForStore manifest files st) in
    (showsScoreCard st' = true <-> -100 < sumZ (map penaltyOf (validationResults st')))
    /\ (forall props,
          manifest = JObj props ->
          (forall field, In field STORE_REQUIREMENTS.manifest.required_fields ->
                         lookup field props = None) ->
          showsScoreCard st' = false).
Proof.
  intros manifest files st Hdone; cbv zeta.
  destruct (validateForStore_published manifest files st Hdone) as [Hres Hscore].
  unfold showsScoreCard; rewrite Hscore, Hres, <- penalties_sum.
  split.
  - rewrite Z.ltb_lt; lia.
  - intros props -> Hmissing.
    destruct (runChecks_starts_with_manifest (JObj props) files) as [rest Hrest].
    assert (Hcheck : validateManifestRequirements (JObj props) [] =
                     Done tt (map missingField STORE_REQUIREMENTS.manifest.required_fields)).
    { unfold validateManifestRequirements; simpl.
      unfold bind, lift; simpl.
      rewrite !Hmissing by (simpl; tauto).
      reflexivity. }
    rewrite Hrest; unfold emitted; rewrite Hcheck; cbn [resultsOf].
    rewrite penalties_app, penalties_missing_fields.
    pose proof (penalties_nonpos rest).
    apply Z.ltb_ge; lia.
Qed.


(** ** The rules of the manifest check *)

Lemma ltb_of_compare n k :
  match n ?= k with Lt => true | _ => false end = (n <? k).
Proof. reflexivity. Qed.

Lemma gtb_of_compare n k :
  match n ?= k with Gt => true | _ => false end = (k <? n).
Proof.
  rewrite Z.ltb_compare, Z.compare_antisym; destruct (k ?= n); reflexivity.
Qed.

Lemma lengthBlock_run v lo hi tooShort tooLong r :
  primitiveOrAbsent v = true ->
  when (truthy v)
    (len <- lift (GetV v "length") ;;
     short <- lift (lessThan len lo) ;;
     if short then push tooShort
     else
       long <- lift (greaterThan len hi) ;;
       when long (push tooLong)) r
  = Done tt (r ++ lengthFindings v lo hi tooShort tooLong).
Proof.
  intro Hprim.
  destruct v as [[| [|] | n | s | l | p] |]; try discriminate;
    try (cbn; unfold ret; now rewrite app_nil_r).
  - cbn [truthy]; destruct (n =? 0); cbn; unfold ret; now rewrite app_nil_r.
  - cbn [truthy lengthFindings]; destruct (s =? "")%string; cbn [negb when].
    + unfold ret; now rewrite app_nil_r.
    + unfold bind, lift; cbn [GetV Get String.eqb Ascii.eqb Bool.eqb].
      unfold lessThan, greaterThan; cbn [ToNumber_compare cbind].
      rewrite ltb_of_compare, gtb_of_compare.
      destruct (Z.of_nat (String.length s) <? lo); [reflexivity |].
      destruct (hi <? Z.of_nat (String.length s)); cbn [when];
        [reflexivity | unfold ret; now rewrite app_nil_r].
Qed.

(** On a manifest whose name, description and version are absent or
    primitive the manifest check runs to its end and pushes, in order:
    the missing fields, the name findings, the description findings, the
    version finding, the deprecation notice. *)
Lemma validateManifestRequirements_primitive props :
  primitiveOrAbsent (lookup "name" props) = true ->
  primitiveOrAbsent (lookup "description" props) = true ->
  primitiveOrAbsent (lookup "version" props) = true ->
  validateManifestRequirements (JObj props) [] =
  Done tt (missingFindings props
           ++ lengthFindings (lookup "name" props)
                STORE_REQUIREMENTS.manifest.name_length_min
                STORE_REQUIREMENTS.manifest.name_length_max nameTooShort nameTooLong
           ++ lengthFindings (lookup "description" props)
                STORE_REQUIREMENTS.manifest.description_length_min
                STORE_REQUIREMENTS.manifest.description_length_max
                descriptionTooShort descriptionTooLong
           ++ versionFindings (lookup "version" props)
           ++ (if strictEqualsNum (lookup "manifest_version" props) 2
               then [manifestV2] else [])).
Proof.
  intros Hname Hdesc Hversion.
  unfold validateManifestRequirements.
  unfold bind at 1; rewrite forEach_required; rewrite app_nil_l.
  unfold bind at 1; unfold bind at 1, lift at 1; cbn [Get].
  rewrite lengthBlock_run by exact Hname.
  unfold bind at 1; unfold bind at 1, lift at 1; cbn [Get].
  rewrite lengthBlock_run by exact Hdesc.
  unfold bind at 1; unfold bind at 1, lift at 1; cbn [Get].
  assert (Hv : forall r,
    (bad <- lift (if truthy (lookup "version" props)
                  then s <-- ToStringV (lookup "version" props) ;;
                       Normal (negb (STORE_REQUIREMENTS.manifest.version_format_test s))
                  else Normal false) ;;
     when bad (push invalidVersion)) r
    = Done tt (r ++ versionFindings (lookup "version" props))).
  { intro r; unfold versionFindings, bind, lift.
    destruct (truthy (lookup "version" props)); [| unfold ret; cbn; now rewrite app_nil_r].
    pose proof (ToStringV_primitive _ Hversion) as Hs.
    destruct (ToStringV (lookup "version" props)) as [s |]; [| discriminate].
    cbn [cbind].
    destruct (STORE_REQUIREMENTS.manifest.version_format_test s); cbn [negb when];
      [unfold ret; now rewrite app_nil_r | reflexivity]. }
  rewrite Hv.
  unfold bind, lift; cbn [Get].
  unfold missingFindings.
  destruct (strictEqualsNum (lookup "manifest_version" props) 2); cbn [when].
  - unfold push; now rewrite <- !app_assoc.
  - unfold ret; now rewrite app_nil_r, <- !app_assoc.
Qed.

Lemma In_missingFindings f props :
  In f (missingFindings props) -> exists field, f = missingField field.
Proof.
  unfold missingFindings; rewrite in_flat_map; intros (field & _ & Hin).
  destruct (truthy (lookup field props)); [destruct Hin |].
  destruct Hin as [<- | []]; now exists field.
Qed.

Lemma In_lengthFindings f v lo hi tooShort tooLong :
  In f (lengthFindings v lo hi tooShort tooLong) -> f = tooShort \/ f = tooLong.
Proof.
  unfold lengthFindings.
  destruct v as [[| | | s | |] |]; try (intros []).
  destruct (s =? "")%string; [intros [] |].
  destruct (_ <? lo); [intros [<- | []]; now left |].
  destruct (hi <? _); [intros [<- | []]; now right | intros []].
Qed.

Lemma In_versionFindings f v : In f (versionFindings v) -> f = invalidVersion.
Proof.
  unfold versionFindings.
  destruct (truthy v); [| intros []].
  destruct (ToStringV v) as [s |]; [| intros []].
  destruct (STORE_REQUIREMENTS.manifest.version_format_test s); [intros [] |].
  intros [<- | []]; reflexivity.
Qed.

Ltac other_finding :=
  match goal with
  | H : In _ (missingFindings _) |- _ =>
      apply In_missingFindings in H; destruct H as [? H]; discriminate H
  | H : In _ (lengthFindings _ _ _ _ _) |- _ =>
      apply In_lengthFindings in H; destruct H as [H | H]; discriminate H
  | H : In _ (versionFindings _) |- _ =>
      apply In_versionFindings in H; discriminate H
  | H : In _ (if ?b then _ else _) |- _ =>
      destruct b; [destruct H as [H | []]; discriminate H | destruct H]
  end.

(** X10: for a manifest whose description and version are absent or
    primitive values and whose name is a non-empty string of characters up
    to U+00FF (the strings of the model, of which [String.length] is the
    length the component reads), "Name too short" is pushed exactly when
    the name has fewer than 3 characters and "Name too long" exactly when
    it has more than 45; both are errors of high severity and a name of 3
    to 45 characters gets neither. *)
Theorem name_length_rule :
  forall (props : list (string * json)) (s : string),
    primitiveOrAbsent (lookup "description" props) = true ->
    primitiveOrAbsent (lookup "version" props) = true ->
    lookup "name" props = Some (JStr s) ->
    s <> EmptyString ->
    let out := emitted (validateManifestRequirements (JObj props)) in
    let n := Z.of_nat (String.length s) in
    (In nameTooShort out <-> n < 3)
    /\ (In nameTooLong out <-> 45 < n)
    /\ (3 <= n <= 45 -> ~ In nameTooShort out /\ ~ In nameTooLong out)
    /\ type nameTooShort = error /\ severity nameTooShort = high
    /\ type nameTooLong = error /\ severity nameTooLong = high.
Proof.
  intros props s Hdesc Hversion Hname Hs; cbv zeta.
  unfold emitted.
  rewrite validateManifestRequirements_primitive by (rewrite ?Hname; auto).
  cbn [resultsOf]; rewrite Hname.
  assert (Hlen : lengthFindings (Some (JStr s)) 3 45 nameTooShort nameTooLong =
                 if Z.of_nat (String.length s) <? 3 then [nameTooShort]
                 else if 45 <? Z.of_nat (String.length s) then [nameTooLong] else []).
  { unfold lengthFindings.
    destruct (String.eqb_spec s ""); [contradiction | reflexivity]. }
  change STORE_REQUIREMENTS.manifest.name_length_min with 3.
  change STORE_REQUIREMENTS.manifest.name_length_max with 45.
  rewrite Hlen.
  assert (Hshort : In nameTooShort
            (missingFindings props
             ++ (if Z.of_nat (String.length s) <? 3 then [nameTooShort]
                 else if 45 <? Z.of_nat (String.length s) then [nameTooLong] else [])
             ++ lengthFindings (lookup "description" props)
                  STORE_REQUIREMENTS.manifest.description_length_min
                  STORE_REQUIREMENTS.manifest.description_length_max
                  descriptionTooShort descriptionTooLong
             ++ versionFindings (lookup "version" props)
             ++ (if strictEqualsNum (lookup "manifest_version" props) 2
                 then [manifestV2] else []))
          <-> Z.of_nat (String.length s) < 3).
  { rewrite !in_app_iff; split.
    - intros [H | [H | [H | [H | H]]]]; try other_finding.
      destruct (Z.ltb_spec (Z.of_nat (String.length s)) 3); [assumption |].
      destruct (45 <? _); [destruct H as [H | []]; discriminate H | destruct H].
    - intro H; right; left.
      destruct (Z.ltb_spec (Z.of_nat (String.length s)) 3); [now left | lia]. }
  assert (Hlong : In nameTooLong
            (missingFindings props
             ++ (if Z.of_nat (String.length s) <? 3 then [nameTooShort]
                 else if 45 <? Z.of_nat (String.length s) then [nameTooLong] else [])
             ++ lengthFindings (lookup "description" props)
                  STORE_REQUIREMENTS.manifest.description_length_min
                  STORE_REQUIREMENTS.manifest.description_length_max
                  descriptionTooShort descriptionTooLong
             ++ versionFindings (lookup "version" props)
             ++ (if strictEqualsNum (lookup "manifest_version" props) 2
                 then [manifestV2] else []))
          <-> 45 < Z.of_nat (String.length s)).
  { rewrite !in_app_iff; split.
    - intros [H | [H | [H | [H | H]]]]; try other_finding.
      destruct (Z.ltb_spec (Z.of_nat (String.length s)) 3);
        [destruct H as [H | []]; discriminate H |].
      destruct (Z.ltb_spec 45 (Z.of_nat (String.length s))); [assumption | destruct H].
    - intro H; right; left.
      destruct (Z.ltb_spec (Z.of_nat (String.length s)) 3); [lia |].
      destruct (Z.ltb_spec 45 (Z.of_nat (String.length s))); [now left | lia]. }
  split; [exact Hshort |].
  split; [exact Hlong |].
  split; [intros Hrange; rewrite Hshort, Hlong; lia |].
  repeat split.
Qed.


(** X11: for a manifest whose name and version are absent or primitive
    values and whose description is a non-empty string of characters up to
    U+00FF (the strings of the model, of which [String.length] is the
    length the component reads), "Description too short" (an error of high
    severity) is pushed exactly under 10 characters and "Description too
    long" (a warning of medium severity) exactly over 132. *)
Theorem description_length_rule :
  forall (props : list (string * json)) (s : string),
    primitiveOrAbsent (lookup "name" props) = true ->
    primitiveOrAbsent (lookup "version" props) = true ->
    lookup "description" props = Some (JStr s) ->
    s <> EmptyString ->
    let out := emitted (validateManifestRequirements (JObj props)) in
    let n := Z.of_nat (String.length s) in
    (In descriptionTooShort out <-> n < 10)
    /\ (In descriptionTooLong out <-> 132 < n)
    /\ type descriptionTooShort = error /\ severity descriptionTooShort = high
    /\ type descriptionTooLong = warning /\ severity descriptionTooLong = medium.
Proof.
  intros props s Hname Hversion Hdesc Hs; cbv zeta.
  unfold emitted.
  rewrite validateManifestRequirements_primitive by (rewrite ?Hdesc; auto).
  cbn [resultsOf]; rewrite Hdesc.
  assert (Hlen : lengthFindings (Some (JStr s)) 10 132 descriptionTooShort descriptionTooLong =
                 if Z.of_nat (String.length s) <? 10 then [descriptionTooShort]
                 else if 132 <? Z.of_nat (String.length s) then [descriptionTooLong] else []).
  { unfold lengthFindings.
    destruct (String.eqb_spec s ""); [contradiction | reflexivity]. }
  change STORE_REQUIREMENTS.manifest.description_length_min with 10.
  change STORE_REQUIREMENTS.manifest.description_length_max with 132.
  rewrite Hlen, !in_app_iff.
  split; [| split; [| repeat split]].
  - split.
    + intros [H | [H | [H | [H | H]]]]; try other_finding.
      destruct (Z.ltb_spec (Z.of_nat (String.length s)) 10); [assumption |].
      destruct (132 <? _); [destruct H as [H | []]; discriminate H | destruct H].
    + intro H; right; right; left.
      destruct (Z.ltb_spec (Z.of_nat (String.length s)) 10); [now left | lia].
  - split.
    + intros [H | [H | [H | [H | H]]]]; try other_finding.
      destruct (Z.ltb_spec (Z.of_nat (String.length s)) 10);
        [destruct H as [H | []]; discriminate H |].
      destruct (Z.ltb_spec 132 (Z.of_nat (String.length s))); [assumption | destruct H].
    + intro H; right; right; left.
      destruct (Z.ltb_spec (Z.of_nat (String.length s)) 10); [lia |].
      destruct (Z.ltb_spec 132 (Z.of_nat (String.length s))); [now left | lia].
Qed.

(** *** The version pattern *)

Lemma version_format_digits b d rest :
  allDigits d = true -> d <> EmptyString ->
  STORE_REQUIREMENTS.manifest.version_format_from b (d ++ rest) =
  STORE_REQUIREMENTS.manifest.version_format_from true rest.
Proof.
  revert b; induction d as [| c d IH]; intros b Hd Hne; [contradiction |].
  simpl in Hd; apply andb_true_iff in Hd; destruct Hd as [Hc Hd].
  cbn [append STORE_REQUIREMENTS.manifest.version_format_from]; rewrite Hc.
  destruct d as [| c' d']; [reflexivity |].
  apply IH; [exact Hd | discriminate].
Qed.

Lemma concat_cons (g : string) (groups : list string) :
  groups <> [] ->
  String.concat "." (g :: groups) = (g ++ "." ++ String.concat "." groups)%string.
Proof. destruct groups; [contradiction | reflexivity]. Qed.

Lemma version_format_complete s :
  isVersionNumber s -> STORE_REQUIREMENTS.manifest.version_format_test s = true.
Proof.
  unfold STORE_REQUIREMENTS.manifest.version_format_test.
  intros (groups & Hne & Hgroups & ->).
  induction groups as [| g rest IH]; [contradiction |].
  inversion Hgroups as [| g' rest' [Hg Hd] Hrest]; subst.
  destruct rest as [| g2 rest2].
  - cbn [String.concat].
    replace g with (g ++ "")%string by (clear; induction g; simpl; congruence).
    rewrite version_format_digits by assumption; reflexivity.
  - rewrite concat_cons by discriminate.
    rewrite version_format_digits by assumption.
    cbn [append STORE_REQUIREMENTS.manifest.version_format_from isDigit].
    apply IH; [discriminate | exact Hrest].
Qed.

Lemma version_format_sound s :
  (STORE_REQUIREMENTS.manifest.version_format_from false s = true -> isVersionNumber s)
  /\ (STORE_REQUIREMENTS.manifest.version_format_from true s = true ->
      exists d, allDigits d = true
                /\ (s = d \/ exists v, isVersionNumber v /\ s = (d ++ "." ++ v)%string)).
Proof.
  induction s as [| c r [IHfalse IHtrue]].
  - split; [discriminate |].
    intros _; exists EmptyString; split; [reflexivity | now left].
  - cbn [STORE_REQUIREMENTS.manifest.version_format_from].
    destruct (isDigit c) eqn:Hc.
    + assert (Hgroup : forall d, allDigits d = true ->
                (r = d \/ exists v, isVersionNumber v /\ r = (d ++ "." ++ v)%string) ->
                isVersionNumber (String c r)).
      { intros d Hd [-> | (v & (groups & Hne & Hgroups & ->) & ->)].
        - exists [String c d]; repeat split; try discriminate.
          constructor; [| constructor].
          split; [discriminate | simpl; now rewrite Hc, Hd].
        - exists (String c d :: groups); split; [discriminate |].
          split.
          + constructor; [| exact Hgroups].
            split; [discriminate | simpl; now rewrite Hc, Hd].
          + now rewrite concat_cons by exact Hne. }
      split.
      * intro H; destruct (IHtrue H) as (d & Hd & Hr); now apply (Hgroup d).
      * intro H; destruct (IHtrue H) as (d & Hd & Hr).
        exists (String c d); split; [simpl; now rewrite Hc, Hd |].
        destruct Hr as [-> | (v & Hv & ->)]; [now left |].
        right; exists v; split; [exact Hv | reflexivity].
    + destruct (Ascii.eqb_spec c "."%char) as [-> | Hne]; cbn [andb];
        [| split; discriminate].
      split; [discriminate |].
      intro H; exists EmptyString; split; [reflexivity |].
      right; exists r; split; [now apply IHfalse | reflexivity].
Qed.

Lemma version_format_test_spec s :
  STORE_REQUIREMENTS.manifest.version_format_test s = true <-> isVersionNumber s.
Proof.
  split; [apply (proj1 (version_format_sound s)) | apply version_format_complete].
Qed.

(** X12: the version pattern accepts exactly the strings made of one or
    more groups of one or more digits joined by single dots; for a
    manifest whose name and description are absent or primitive values (an
    object there can make the check raise before the version is looked
    at) and whose version is a non-empty string, "Invalid version format"
    (an error of high severity) is pushed exactly when the version is not
    of that form. *)
Theorem version_format_rule :
  forall (props : list (string * json)) (s : string),
    primitiveOrAbsent (lookup "name" props) = true ->
    primitiveOrAbsent (lookup "description" props) = true ->
    lookup "version" props = Some (JStr s) ->
    s <> EmptyString ->
    let out := emitted (validateManifestRequirements (JObj props)) in
    (STORE_REQUIREMENTS.manifest.version_format_test s = true <-> isVersionNumber s)
    /\ (In invalidVersion out <-> ~ isVersionNumber s)
    /\ type invalidVersion = error /\ severity invalidVersion = high.
Proof.
  intros props s Hname Hdesc Hversion Hs; cbv zeta.
  split; [apply version_format_test_spec |].
  split; [| split; reflexivity].
  unfold emitted.
  rewrite validateManifestRequirements_primitive by (rewrite ?Hversion; auto).
  cbn [resultsOf]; rewrite Hversion.
  assert (Hv : versionFindings (Some (JStr s)) =
               if STORE_REQUIREMENTS.manifest.version_format_test s
               then [] else [invalidVersion]).
  { unfold versionFindings; cbn [truthy ToStringV ToString].
    destruct (String.eqb_spec s ""); [contradiction | reflexivity]. }
  rewrite Hv, !in_app_iff, <- version_format_test_spec.
  split.
  - intros [H | [H | [H | [H | H]]]]; try other_finding.
    destruct (STORE_REQUIREMENTS.manifest.version_format_test s);
      [destruct H | discriminate].
  - intro H; right; right; right; left.
    destruct (STORE_REQUIREMENTS.manifest.version_format_test s);
      [congruence | now left].
Qed.

(** X13: for a manifest whose name, description and version are absent or
    primitive values (an object there can make the check raise before
    manifest_version is looked at), the deprecation notice "Manifest V2
    deprecation" (a warning of high severity) is pushed exactly when
    manifest_version is the number 2; the string "2" does not trigger
    it. *)
Theorem manifest_v2_rule :
  forall (props : list (string * json)),
    primitiveOrAbsent (lookup "name" props) = true ->
    primitiveOrAbsent (lookup "description" props) = true ->
    primitiveOrAbsent (lookup "version" props) = true ->
    let out := emitted (validateManifestRequirements (JObj props)) in
    (In manifestV2 out <-> lookup "manifest_version" props = Some (JNum 2))
    /\ (lookup "manifest_version" props = Some (JStr "2") -> ~ In manifestV2 out)
    /\ type manifestV2 = warning /\ severity manifestV2 = high.
Proof.
  intros props Hname Hdesc Hversion; cbv zeta.
  assert (Hiff : In manifestV2 (emitted (validateManifestRequirements (JObj props))) <->
                 lookup "manifest_version" props = Some (JNum 2)).
  { unfold emitted.
    rewrite validateManifestRequirements_primitive by assumption.
    cbn [resultsOf]; rewrite !in_app_iff.
    split.
    - intros [H | [H | [H | [H | H]]]]; try other_finding.
      destruct (strictEqualsNum (lookup "manifest_version" props) 2) eqn:E;
        [now apply strictEqualsNum_2 | destruct H].
    - intros ->; right; right; right; right; now left. }
  split; [exact Hiff |].
  split; [| split; reflexivity].
  intros Hstr Hin; apply Hiff in Hin; congruence.
Qed.


(** ** The rules of the icons check *)

Lemma flat_map_nil {A B} (f : A -> list B) l :
  flat_map f l = [] <-> forall x, In x l -> f x = [].
Proof.
  induction l as [| x l IH]; simpl.
  - split; [intros _ y [] | reflexivity].
  - split.
    + intros H y [<- | Hy]; apply app_eq_nil in H; destruct H as [Hx Hl];
        [exact Hx | now apply IH].
    + intro H; rewrite (H x (or_introl eq_refl)); apply IH.
      intros y Hy; apply H; now right.
Qed.

(** X14: when the manifest has no icons, or a falsy value for them, the
    icons check pushes the single critical error "No icons specified" and
    stops: no size is reported and no file looked up, whatever the files.
    An empty icons object is instead reported size by size: three errors of
    high severity and five infos of low severity. *)
Theorem icons_absent_or_empty :
  forall (props : list (string * json)) (files : list File),
    (truthy (lookup "icons" props) = false ->
     validateIconRequirements (JObj props) files [] = Done tt [noIcons]
     /\ type noIcons = error /\ severity noIcons = critical
     /\ penalties (emitted (validateIconRequirements (JObj props) files)) = -25)
    /\ (lookup "icons" props = Some (JObj []) ->
        emitted (validateIconRequirements (JObj props) files) =
          map missingIcon STORE_REQUIREMENTS.icons.required_sizes
          ++ map recommendedIcon STORE_REQUIREMENTS.icons.recommended_sizes
        /\ penalties (emitted (validateIconRequirements (JObj props) files)) = -70).
Proof.
  intros props files; split.
  - intro Hfalsy.
    assert (Hrun : validateIconRequirements (JObj props) files [] = Done tt [noIcons]).
    { unfold validateIconRequirements, bind, lift; cbn [Get]; rewrite Hfalsy; reflexivity. }
    unfold emitted; rewrite Hrun; repeat split.
  - intro Hempty.
    pose proof (validateIconRequirements_declared props [] files Hempty) as Hrun.
    unfold emitted; rewrite Hrun; split; reflexivity.
Qed.

(** X15: for an icons mapping from sizes to paths the icons check pushes
    nothing exactly when each of the eight sizes (16, 48, 128, 19, 38, 32,
    64, 96) is declared with a non-empty path and every declared path is
    matched by a file of at most 2 MiB. *)
Theorem icons_check_silent_iff :
  forall (props : list (string * json)) (declared : list (string * string))
         (files : list File),
    lookup "icons" props = Some (JObj (iconsObject declared)) ->
    (emitted (validateIconRequirements (JObj props) files) = [] <->
     (forall sz, In sz (STORE_REQUIREMENTS.icons.required_sizes
                        ++ STORE_REQUIREMENTS.icons.recommended_sizes) ->
                 truthy (lookup (numToString sz) (iconsObject declared)) = true)
     /\ (forall entry, In entry declared ->
           exists f, matchingFile (snd entry) files = Some f
                     /\ Z.of_N (size f) <= 2 * 1024 * 1024)).
Proof.
  intros props declared files Hicons.
  unfold emitted; rewrite (validateIconRequirements_declared _ _ _ Hicons).
  cbn [resultsOf]; unfold missingSizeFindings.
  split.
  - intro H.
    apply app_eq_nil in H; destruct H as [Hsizes Hentries].
    apply app_eq_nil in Hsizes; destruct Hsizes as [Hreq Hrec].
    pose proof (proj1 (flat_map_nil _ _) Hreq) as Hreq'.
    pose proof (proj1 (flat_map_nil _ _) Hrec) as Hrec'.
    pose proof (proj1 (flat_map_nil _ _) Hentries) as Hentries'.
    clear Hreq Hrec Hentries.
    split.
    + intros sz Hsz; apply in_app_iff in Hsz.
      destruct Hsz as [Hsz | Hsz]; [specialize (Hreq' sz Hsz) | specialize (Hrec' sz Hsz)];
        cbv beta in *;
        destruct (truthy (lookup (numToString sz) (iconsObject declared)));
        congruence.
    + intros entry Hentry; pose proof (Hentries' entry Hentry) as Hentries.
      cbv beta in Hentries; unfold iconEntryFindings in Hentries.
      destruct (matchingFile (snd entry) files) as [f |]; [| discriminate].
      exists f; split; [reflexivity |].
      change STORE_REQUIREMENTS.icons.max_file_size with (2 * 1024 * 1024) in Hentries.
      destruct (Z.ltb_spec (2 * 1024 * 1024) (Z.of_N (size f))); [discriminate | assumption].
  - intros [Hsizes Hentries].
    assert (Hreq : flat_map (fun sz => if truthy (lookup (numToString sz) (iconsObject declared))
                                       then [] else [missingIcon sz])
                            STORE_REQUIREMENTS.icons.required_sizes = []).
    { apply flat_map_nil; intros sz Hsz.
      rewrite Hsizes by (apply in_app_iff; now left); reflexivity. }
    assert (Hrec : flat_map (fun sz => if truthy (lookup (numToString sz) (iconsObject declared))
                                       then [] else [recommendedIcon sz])
                            STORE_REQUIREMENTS.icons.recommended_sizes = []).
    { apply flat_map_nil; intros sz Hsz.
      rewrite Hsizes by (apply in_app_iff; now right); reflexivity. }
    rewrite Hreq, Hrec; cbn [app].
    apply flat_map_nil; intros entry Hentry.
    destruct (Hentries entry Hentry) as (f & Hf & Hsize).
    unfold iconEntryFindings; rewrite Hf.
    change STORE_REQUIREMENTS.icons.max_file_size with (2 * 1024 * 1024).
    destruct (Z.ltb_spec (2 * 1024 * 1024) (Z.of_N (size f))); [lia | reflexivity].
Qed.

(** ** The rules of the permissions and privacy checks *)

Lemma forEach_permissions ps r :
  forEach (map JStr ps) (fun permission =>
    when (listIncludes STORE_REQUIREMENTS.permissions.dangerous permission)
      (p <- lift (ToString permission) ;;
       push (broadPermission p))) r =
  Done tt (r ++ map broadPermission
                 (filter (fun p => listIncludes STORE_REQUIREMENTS.permissions.dangerous (JStr p))
                         ps)).
Proof.
  revert r; induction ps as [| p rest IH]; intro r.
  - cbn; unfold ret; now rewrite app_nil_r.
  - cbn [map forEach filter]; unfold bind at 1.
    destruct (listIncludes STORE_REQUIREMENTS.permissions.dangerous (JStr p)); cbn [when].
    + unfold bind at 1, lift, push; cbn [ToString].
      rewrite IH; cbn [map]; now rewrite <- app_assoc.
    + unfold ret; rewrite IH; reflexivity.
Qed.

Lemma some_callIncludes ps needle :
  some (fun p => callIncludes p needle) (map JStr ps) =
  Normal (existsb (fun p => includes p needle) ps).
Proof.
  induction ps as [| p rest IH]; [reflexivity |].
  cbn [map some callIncludes cbind existsb].
  destruct (includes p needle); [reflexivity | exact IH].
Qed.

(** X16: for permissions given as an array of strings the permissions
    check pushes, in order: one "Broad permission" warning (high) for
    every occurrence of a dangerous permission, in the order listed; "Many
    permissions requested" (medium) when there are more than 10; and "Host
    permissions in wrong field" (a high error) when manifest_version is
    the number 3 and some permission contains "://". *)
Theorem permissions_rule :
  forall (props : list (string * json)) (ps : list string),
    lookup "permissions" props = Some (JArr (map JStr ps)) ->
    validatePermissionRequirements (JObj props) [] =
    Done tt
      (map broadPermission
         (filter (fun p => listIncludes STORE_REQUIREMENTS.permissions.dangerous (JStr p)) ps)
       ++ (if 10 <? Z.of_nat (List.length ps)
           then [manyPermissions (numToString (Z.of_nat (List.length ps)))] else [])
       ++ (if strictEqualsNum (lookup "manifest_version" props) 3
              && existsb (fun p => includes p "://") ps
           then [hostPermissions] else [])).
Proof.
  intros props ps Hperms.
  unfold validatePermissionRequirements.
  unfold bind at 1; unfold lift at 1; cbn [Get]; rewrite Hperms; cbn [truthy negb].
  unfold bind at 1; unfold bind at 1, lift at 1; cbn [iterateV iterate].
  rewrite forEach_permissions, app_nil_l.
  unfold bind at 1; unfold bind at 1, lift at 1.
  cbn [GetV Get String.eqb Ascii.eqb Bool.eqb].
  rewrite length_map.
  unfold bind at 1, lift at 1; unfold greaterThan; cbn [ToNumber_compare cbind].
  rewrite gtb_of_compare.
  unfold bind at 2, lift at 2; cbn [Get].
  unfold bind at 2, lift at 2.
  assert (Hhost : (if strictEqualsNum (lookup "manifest_version" props) 3
                   then l <-- asArrayV (Some (JArr (map JStr ps))) ;;
                        some (fun p => callIncludes p "://") l
                   else Normal false)
                  = Normal (strictEqualsNum (lookup "manifest_version" props) 3
                            && existsb (fun p => includes p "://") ps)).
  { destruct (strictEqualsNum (lookup "manifest_version" props) 3); [| reflexivity].
    cbn [asArrayV asArray cbind andb]; apply some_callIncludes. }
  rewrite Hhost.
  destruct (10 <? Z.of_nat (List.length ps)); cbn [when];
    destruct (strictEqualsNum (lookup "manifest_version" props) 3
              && existsb (fun p => includes p "://") ps);
    cbn; unfold ret, push; rewrite ?app_nil_r, <- ?app_assoc; reflexivity.
Qed.


Lemma some_pure (p : json -> bool) l :
  some (fun x => Normal (p x)) l = Normal (existsb p l).
Proof.
  induction l as [| x rest IH]; [reflexivity |].
  cbn [some cbind existsb]; destruct (p x); [reflexivity | exact IH].
Qed.

Lemma arrayIncludes_strings ps s :
  arrayIncludes (map JStr ps) s = true <-> In s ps.
Proof.
  unfold arrayIncludes; rewrite existsb_exists; split.
  - intros (x & Hx & Heq); apply in_map_iff in Hx; destruct Hx as (p & <- & Hp).
    simpl in Heq; apply String.eqb_eq in Heq; now subst.
  - intro H; exists (JStr s); split; [now apply in_map | simpl; apply String.eqb_refl].
Qed.

Lemma listIncludes_string l p : listIncludes l (JStr p) = true <-> In p l.
Proof.
  unfold listIncludes; rewrite existsb_exists; split.
  - intros (s & Hs & Heq); simpl in Heq; apply String.eqb_eq in Heq; now subst.
  - intro H; exists p; split; [exact H | simpl; apply String.eqb_refl].
Qed.

(** X17: for permissions given as an array of strings the privacy check
    runs to its end and pushes at most three findings, each at most once:
    "Privacy policy required" exactly when some permission is one of
    identity, cookies, history, tabs and privacy_policy is absent or
    falsy; "Identity permission detected" exactly when identity is
    listed; "Cookie access detected" exactly when cookies is listed. *)
Theorem privacy_rule :
  forall (props : list (string * json)) (ps : list string),
    lookup "permissions" props = Some (JArr (map JStr ps)) ->
    let out := emitted (validatePrivacyRequirements (JObj props)) in
    validatePrivacyRequirements (JObj props) [] = Done tt out
    /\ (In privacyPolicyRequired out <->
        (exists p, In p ps /\ In p STORE_REQUIREMENTS.privacy.data_collection_apis)
        /\ truthy (lookup "privacy_policy" props) = false)
    /\ (In identityPermission out <-> In "identity" ps)
    /\ (In cookieAccess out <-> In "cookies" ps)
    /\ NoDup out
    /\ (List.length out <= 3)%nat.
Proof.
  intros props ps Hperms; cbv zeta.
  assert (Hrun : validatePrivacyRequirements (JObj props) [] =
    Done tt ((if existsb (listIncludes STORE_REQUIREMENTS.privacy.data_collection_apis)
                         (map JStr ps)
                 && negb (truthy (lookup "privacy_policy" props))
              then [privacyPolicyRequired] else [])
             ++ (if arrayIncludes (map JStr ps) "identity" then [identityPermission] else [])
             ++ (if arrayIncludes (map JStr ps) "cookies" then [cookieAccess] else []))).
  { rewrite validatePrivacyRequirements_run; cbv zeta; rewrite Hperms.
    cbn [someOpt asArray cbind includesOpt callIncludes].
    rewrite some_pure; now rewrite <- app_assoc. }
  unfold emitted; rewrite Hrun; cbn [resultsOf].
  assert (Hcollect : existsb (listIncludes STORE_REQUIREMENTS.privacy.data_collection_apis)
                             (map JStr ps) = true <->
                     exists p, In p ps /\ In p STORE_REQUIREMENTS.privacy.data_collection_apis).
  { rewrite existsb_exists; split.
    - intros (x & Hx & Hinc); apply in_map_iff in Hx; destruct Hx as (p & <- & Hp).
      exists p; split; [exact Hp | now apply listIncludes_string].
    - intros (p & Hp & Hapi); exists (JStr p); split;
        [now apply in_map | now apply listIncludes_string]. }
  pose proof (arrayIncludes_strings ps "identity") as Hid.
  pose proof (arrayIncludes_strings ps "cookies") as Hck.
  destruct (existsb (listIncludes STORE_REQUIREMENTS.privacy.data_collection_apis)
                    (map JStr ps));
    destruct (truthy (lookup "privacy_policy" props));
    destruct (arrayIncludes (map JStr ps) "identity");
    destruct (arrayIncludes (map JStr ps) "cookies");
    cbn [andb negb app];
    (split; [reflexivity |]);
    (split; [split; [intro H; simpl in H; intuition discriminate
                    | intros [H1 H2]; simpl; intuition discriminate] |]);
    (split; [split; [intro H; simpl in H; intuition discriminate
                    | intro H; simpl; intuition discriminate] |]);
    (split; [split; [intro H; simpl in H; intuition discriminate
                    | intro H; simpl; intuition discriminate] |]);
    (split; [repeat constructor; simpl; intuition discriminate | simpl; lia]).
Qed.

(** X18: on a key-value manifest the privacy check raises exactly when
    permissions is present and neither null nor an array.  The falsy
    values "", 0 and false are such values: the permissions check skips
    them without a finding, yet the run then fails in the privacy
    check. *)
Theorem privacy_check_raises_iff :
  forall (props : list (string * json)) (files : list File),
    completed (validatePrivacyRequirements (JObj props) []) =
      match lookup "permissions" props with
      | None => true
      | Some JNull => true
      | Some (JArr _) => true
      | Some _ => false
      end
    /\ (forall v, lookup "permissions" props = Some v ->
                  In v [JStr ""; JNum 0; JBool false] ->
                  validatePermissionRequirements (JObj props) [] = Done tt []
                  /\ completed (runChecks (JObj props) files []) = false).
Proof.
  intros props files.
  assert (Hraise : completed (validatePrivacyRequirements (JObj props) []) =
                   match lookup "permissions" props with
                   | None => true
                   | Some JNull => true
                   | Some (JArr _) => true
                   | Some _ => false
                   end).
  { rewrite validatePrivacyRequirements_run; cbv zeta.
    destruct (lookup "permissions" props) as [[| b | n | s | l | p] |]; try reflexivity.
    cbn [someOpt asArray cbind includesOpt callIncludes].
    rewrite some_pure; reflexivity. }
  split; [exact Hraise |].
  intros v Hv Hfalsy; split.
  - unfold validatePermissionRequirements, bind, lift; cbn [Get]; rewrite Hv.
    simpl in Hfalsy; destruct Hfalsy as [<- | [<- | [<- | []]]]; reflexivity.
  - rewrite runChecks_completed, Hraise, Hv.
    simpl in Hfalsy; destruct Hfalsy as [<- | [<- | [<- | []]]];
      now rewrite !andb_false_r.
Qed.


(** ** The prohibited-content rule *)

Lemma prefix_nil s : String.prefix EmptyString s = true.
Proof. destruct s; reflexivity. Qed.

Lemma prefix_spec needle s :
  String.prefix needle s = true <-> exists post, s = (needle ++ post)%string.
Proof.
  revert s; induction needle as [| c needle IH]; intro s.
  - split; [intros _; now exists s | intros _; apply prefix_nil].
  - destruct s as [| c' s']; simpl.
    + split; [discriminate | intros [post H]; discriminate].
    + destruct (ascii_dec c c') as [<- | Hne].
      * rewrite IH; split; intros [post H]; exists post; congruence.
      * split; [discriminate | intros [post H]; congruence].
Qed.

Lemma includes_unfold s needle :
  includes s needle =
  if String.prefix needle s then true
  else match s with
       | EmptyString => false
       | String _ r => includes r needle
       end.
Proof. destruct s; reflexivity. Qed.

Lemma includes_spec s needle : includes s needle = true <-> occursIn needle s.
Proof.
  unfold occursIn; induction s as [| c r IH]; rewrite includes_unfold.
  - destruct (String.prefix needle "") eqn:Hp.
    + apply prefix_spec in Hp; destruct Hp as [post Hp].
      split; [intros _; now exists EmptyString, post | reflexivity].
    + split; [discriminate |].
      intros ([| c pre] & post & H); [| discriminate].
      assert (String.prefix needle "" = true) by (apply prefix_spec; now exists post).
      congruence.
  - destruct (String.prefix needle (String c r)) eqn:Hp.
    + apply prefix_spec in Hp; destruct Hp as [post Hp].
      split; [intros _; now exists EmptyString, post | reflexivity].
    + rewrite IH; split.
      * intros (pre & post & ->); now exists (String c pre), post.
      * intros ([| c' pre] & post & H).
        -- assert (String.prefix needle (String c r) = true)
             by (apply prefix_spec; now exists post).
           congruence.
        -- exists pre, post; simpl in H; congruence.
Qed.

Lemma prefix_before_char needle a c b :
  hasChar c needle = false ->
  String.prefix needle (a ++ String c b) = String.prefix needle a.
Proof.
  revert a; induction needle as [| k needle IH]; intros a Hc;
    [now rewrite !prefix_nil |].
  simpl in Hc; apply orb_false_iff in Hc; destruct Hc as [Hk Hrest].
  destruct a as [| a0 a']; simpl.
  - destruct (ascii_dec k c) as [-> | _]; [| reflexivity].
    rewrite Ascii.eqb_refl in Hk; discriminate.
  - destruct (ascii_dec k a0); [now apply IH | reflexivity].
Qed.

Lemma includes_across_char needle a c b :
  hasChar c needle = false ->
  includes (a ++ String c b) needle = includes a needle || includes b needle.
Proof.
  intro Hc; induction a as [| a0 a' IH].
  - cbn [append]; rewrite (includes_unfold (String c b)), (includes_unfold EmptyString).
    pose proof (prefix_before_char needle EmptyString c b Hc) as Hp; cbn [append] in Hp.
    rewrite Hp; destruct (String.prefix needle ""); reflexivity.
  - cbn [append].
    rewrite (includes_unfold (String a0 (a' ++ String c b))),
      (includes_unfold (String a0 a')).
    pose proof (prefix_before_char needle (String a0 a') c b Hc) as Hp; cbn [append] in Hp.
    rewrite Hp, IH; destruct (String.prefix needle (String a0 a')); reflexivity.
Qed.

Lemma toLowerCase_app a b :
  toLowerCase (a ++ b) = (toLowerCase a ++ toLowerCase b)%string.
Proof. induction a as [| c a IH]; simpl; [reflexivity | now rewrite IH]. Qed.

Lemma forEach_prohibited textContent keywords r :
  forEach keywords (fun prohibited =>
    when (includes textContent prohibited) (push (prohibitedContent prohibited))) r =
  Done tt (r ++ map prohibitedContent (filter (includes textContent) keywords)).
Proof.
  revert r; induction keywords as [| k rest IH]; intro r.
  - cbn; unfold ret; now rewrite app_nil_r.
  - cbn [forEach filter]; unfold bind at 1.
    destruct (includes textContent k); cbn [when].
    + unfold push; rewrite IH; cbn [map]; now rewrite <- app_assoc.
    + unfold ret; rewrite IH; reflexivity.
Qed.

Lemma prohibitedContent_inj k k' : prohibitedContent k = prohibitedContent k' -> k = k'.
Proof.
  intro H; apply (f_equal message) in H; cbn [message prohibitedContent] in H.
  revert H; generalize "Content may contain references to ".
  intro pre; induction pre as [| c pre IH]; simpl; intro H; [exact H |].
  injection H as H; now apply IH.
Qed.

(** X19: for a manifest whose name and description are strings, the
    warning "Potentially prohibited content" for a keyword of the rulebook
    is pushed exactly when the keyword occurs in the lower-cased name or
    in the lower-cased description (as a substring, so also inside a
    longer word); the check is blind to letter case. *)
Theorem prohibited_content_rule :
  forall (props : list (string * json)) (files : list File)
         (nameText descText keyword : string),
    lookup "name" props = Some (JStr nameText) ->
    lookup "description" props = Some (JStr descText) ->
    In keyword STORE_REQUIREMENTS.content.prohibited_content ->
    let out := emitted (validateContentPolicies (JObj props) files) in
    (In (prohibitedContent keyword) out <->
     occursIn keyword (toLowerCase nameText) \/ occursIn keyword (toLowerCase descText))
    /\ type (prohibitedContent keyword) = warning
    /\ severity (prohibitedContent keyword) = high.
Proof.
  intros props files nameText descText keyword Hname Hdesc Hkeyword; cbv zeta.
  split; [| split; reflexivity].
  assert (Hrun : checkProhibitedContent (JObj props) [] =
                 Done tt (map prohibitedContent
                            (filter (includes (toLowerCase nameText ++ " "
                                               ++ toLowerCase descText)%string)
                                    STORE_REQUIREMENTS.content.prohibited_content))).
  { unfold checkProhibitedContent, bind at 1, lift at 1.
    cbn [Get cbind]; rewrite Hname, Hdesc; cbn [joinItem ToString cbind].
    rewrite forEach_prohibited, app_nil_l.
    rewrite toLowerCase_app; reflexivity. }
  rewrite validateContentPolicies_emitted.
  unfold emitted at 2; rewrite Hrun; cbn [resultsOf completed].
  unfold emitted at 1; rewrite checkPackageSize_run; cbn [resultsOf].
  unfold emitted; rewrite checkSinglePurpose_run.
  rewrite !in_app_iff.
  assert (Hspace : hasChar " " keyword = false).
  { simpl in Hkeyword; destruct Hkeyword as [<- | [<- | [<- | [<- | []]]]]; reflexivity. }
  assert (Hinc : includes (toLowerCase nameText ++ " " ++ toLowerCase descText) keyword = true
                 <-> occursIn keyword (toLowerCase nameText)
                     \/ occursIn keyword (toLowerCase descText)).
  { cbn [append]; rewrite includes_across_char by exact Hspace.
    rewrite orb_true_iff, !includes_spec; reflexivity. }
  rewrite <- Hinc; split.
  - intros [H | [H | H]].
    + destruct (_ <? _); [destruct H as [H | []]; discriminate H | destruct H].
    + apply in_map_iff in H; destruct H as (k & Heq & Hk).
      apply prohibitedContent_inj in Heq; subst k.
      now apply filter_In in Hk.
    + destruct (hasMultiplePurposes (JObj props)) as [[|] |]; simpl in H;
        [destruct H as [H | []]; discriminate H | destruct H | destruct H].
  - intro H; right; left.
    apply in_map, filter_In; split; assumption.
Qed.


(** ** Failed runs and uploads *)

(** X20: when a check raises, the run ends with the "Validation failed"
    toast and leaves the findings and the score of the previous run in
    the state, hence on display; the progress stops at 20 per check that
    completed before the one that raised. *)
Theorem failed_run_keeps_previous_report :
  forall (manifest : json) (files : list File) (st : State),
    completed (runChecks manifest files []) = false ->
    let st' := fst (validateForStore manifest files st) in
    snd (validateForStore manifest files st) = validationFailed
    /\ validationResults st' = validationResults st
    /\ overallScore st' = overallScore st
    /\ isValidating st' = false
    /\ progress st' =
       (if completed (validateManifestRequirements manifest []) then
          if completed (validateIconRequirements manifest files []) then
            if completed (validatePermissionRequirements manifest []) then
              if completed (validatePrivacyRequirements manifest []) then 80 else 60
            else 40
          else 20
        else 0).
Proof.
  intros manifest files st; cbv zeta.
  rewrite runChecks_completed.
  unfold validateForStore.
  destruct (validateManifestRequirements manifest []) as [[] r1 | r1];
    [| intros _; repeat split].
  rewrite (appendsOnly_run _ _ r1 (validateIconRequirements_appendsOnly manifest files)).
  destruct (validateIconRequirements manifest files []) as [[] r2 | r2];
    [| intros _; repeat split].
  cbn [appendOutcome].
  rewrite (appendsOnly_run _ _ (r1 ++ r2) (validatePermissionRequirements_appendsOnly manifest)).
  destruct (validatePermissionRequirements manifest []) as [[] r3 | r3];
    [| intros _; repeat split].
  cbn [appendOutcome].
  rewrite (appendsOnly_run _ _ ((r1 ++ r2) ++ r3)
             (validatePrivacyRequirements_appendsOnly manifest)).
  destruct (validatePrivacyRequirements manifest []) as [[] r4 | r4];
    [| intros _; repeat split].
  cbn [appendOutcome].
  rewrite (appendsOnly_run _ _ (((r1 ++ r2) ++ r3) ++ r4)
             (validateContentPolicies_appendsOnly manifest files)).
  destruct (validateContentPolicies manifest files []) as [[] r5 | r5];
    [discriminate | intros _; repeat split].
Qed.

Lemma findManifestFile_Some uploads u :
  findManifestFile uploads = Some u ->
  In u uploads /\ name (file u) = "manifest.json".
Proof.
  unfold findManifestFile; intro H; apply find_some in H.
  destruct H as [Hin Hname]; split; [exact Hin | now apply String.eqb_eq].
Qed.

Lemma totalSize_member files f : In f files -> Z.of_N (size f) <= totalSize files.
Proof.
  rewrite totalSize_sum; induction files as [| g rest IH]; [intros [] |].
  intros [<- | Hin]; simpl.
  - assert (0 <= sumZ (map (fun file => Z.of_N (size file)) rest)).
    { clear; induction rest; simpl; lia. }
    lia.
  - specialize (IH Hin); lia.
Qed.

(** X21: an upload in which no file named exactly "manifest.json" parses
    starts no validation: the drop handler answers "Manifest not found"
    or "Invalid manifest" and leaves the store and the extension data as
    they were; the file input leaves the whole component untouched when
    there is no such file. *)
Theorem upload_without_usable_manifest :
  forall (JSON_parse : string -> option json) (uploads : list Upload) (c : Component),
    (forall u, In u uploads -> name (file u) = "manifest.json" ->
               JSON_parse (text u) = None) ->
    store (fst (handleDrop JSON_parse uploads c)) = store c
    /\ extensionData (fst (handleDrop JSON_parse uploads c)) = extensionData c
    /\ dragActive (fst (handleDrop JSON_parse uploads c)) = false
    /\ (snd (handleDrop JSON_parse uploads c) = manifestNotFound
        \/ snd (handleDrop JSON_parse uploads c) = invalidManifest)
    /\ (snd (handleDrop JSON_parse uploads c) = manifestNotFound <->
        forall u, In u uploads -> name (file u) <> "manifest.json")
    /\ fst (handleFileInput JSON_parse uploads c) = c
    /\ (findManifestFile uploads = None ->
        snd (handleFileInput JSON_parse uploads c) = None).
Proof.
  intros JSON_parse uploads c Hbad.
  unfold handleDrop, handleFileInput, parseAndValidate.
  destruct (findManifestFile uploads) as [u |] eqn:Hfind.
  - destruct (findManifestFile_Some _ _ Hfind) as [Hin Hname].
    rewrite (Hbad u Hin Hname); cbn [fst snd].
    split; [reflexivity |].
    split; [reflexivity |].
    split; [reflexivity |].
    split; [now right |].
    split; [| split; [reflexivity | discriminate]].
    split; [discriminate |].
    intro Hnone; exfalso; now apply (Hnone u Hin).
  - cbn [fst snd].
    split; [reflexivity |].
    split; [reflexivity |].
    split; [reflexivity |].
    split; [now left |].
    split; [| split; reflexivity].
    split; [| reflexivity].
    intros _ u Hin Hname.
    pose proof (find_none _ _ Hfind u Hin) as Hno; simpl in Hno.
    rewrite Hname in Hno; discriminate.
Qed.

(** X22: when the upload holds a file named "manifest.json" the drop
    handler and the file input do the same: the first such file is
    parsed and, if it parses, validated against all the uploaded files,
    the manifest file included (its bytes count in the package size);
    both end with the same store, extension data and toast. *)
Theorem drop_and_file_input_agree :
  forall (JSON_parse : string -> option json) (uploads : list Upload) (c : Component)
         (u : Upload),
    findManifestFile uploads = Some u ->
    let dropped := handleDrop JSON_parse uploads c in
    let chosen := handleFileInput JSON_parse uploads c in
    store (fst dropped) = store (fst chosen)
    /\ extensionData (fst dropped) = extensionData (fst chosen)
    /\ snd chosen = Some (snd dropped)
    /\ (forall decoded,
          JSON_parse (text u) = Some decoded ->
          store (fst dropped) =
            fst (validateForStore decoded (map file uploads) (store c))
          /\ snd dropped = snd (validateForStore decoded (map file uploads) (store c))
          /\ extensionData (fst dropped) = Some decoded
          /\ In (file u) (map file uploads)
          /\ Z.of_N (size (file u)) <= totalSize (map file uploads)).
Proof.
  intros JSON_parse uploads c u Hfind; cbv zeta.
  unfold handleDrop, handleFileInput, parseAndValidate; rewrite Hfind.
  destruct (findManifestFile_Some _ _ Hfind) as [Hin _].
  destruct (JSON_parse (text u)) as [decoded |].
  - cbn [store setExtensionData setDragActive].
    destruct (validateForStore decoded (map file uploads) (store c)) as [st toast] eqn:Hv.
    cbn [fst snd store extensionData setStore].
    split; [reflexivity |].
    split; [reflexivity |].
    split; [reflexivity |].
    intros decoded' Heq; injection Heq as <-; rewrite Hv; cbn [fst snd].
    split; [reflexivity |].
    split; [reflexivity |].
    split; [reflexivity |].
    split; [now apply in_map |].
    apply totalSize_member; now apply in_map.
  - cbn [fst snd].
    split; [reflexivity |].
    split; [reflexivity |].
    split; [reflexivity |].
    intros decoded Heq; discriminate.
Qed.

End Checks.

(** ** The properties at the sample inputs *)

Lemma critical_finding_lowers_score_sample :
  severity Findings.privacyPolicyRequired = critical
  /\ overallScore (calculateOverallScore [Findings.privacyPolicyRequired] initialState) = 75.
Proof.
  split; [reflexivity |].
  exact (proj1 (critical_finding_lowers_score
                  [] Findings.privacyPolicyRequired initialState eq_refl)).
Defined.

Lemma validateForStore_deterministic_sample :
  completed (runChecks decimalCompare (JObj tabsManifest) [] []) = true
  /\ fst (validateForStore decimalCompare (JObj tabsManifest) [] initialState)
     = fst (validateForStore decimalCompare (JObj tabsManifest) []
              (mkState [Findings.noIcons] true 40 85))
  /\ completed (runChecks decimalCompare (JObj stringPermissionsManifest) [] []) = false
  /\ overallScore (fst (validateForStore decimalCompare (JObj stringPermissionsManifest)
                          [] previousReport)) = overallScore previousReport.
Proof.
  split; [reflexivity |].
  split.
  - exact (proj1 (proj1 (proj2 (proj2 (validateForStore_deterministic decimalCompare
                                        (JObj tabsManifest) [] initialState
                                        (mkState [Findings.noIcons] true 40 85))))
                        eq_refl)).
  - split; [reflexivity |].
    pose proof (proj2 (proj2 (proj2 (validateForStore_deterministic decimalCompare
                                       (JObj stringPermissionsManifest) []
                                       initialState previousReport))) eq_refl) as H.
    exact (proj2 (proj2 (proj2 (proj2 (proj2 H))))).
Defined.

Lemma missing_required_fields_sample :
  (forall field, In field STORE_REQUIREMENTS.manifest.required_fields ->
                 lookup field emptyManifest = None)
  /\ validateManifestRequirements decimalCompare (JObj emptyManifest) [] =
     Done tt (map Findings.missingField STORE_REQUIREMENTS.manifest.required_fields)
  /\ completed (runChecks decimalCompare (JObj emptyManifest) [] []) = true
  /\ overallScore (fst (validateForStore decimalCompare (JObj emptyManifest) []
                          previousReport)) = 0.
Proof.
  split; [intros field _; reflexivity |].
  split.
  - exact (proj1 (missing_required_fields decimalCompare emptyManifest [] initialState
                    (fun field _ => eq_refl))).
  - split; [reflexivity |].
    exact (proj1 (proj2 (proj2 (proj2
             (missing_required_fields decimalCompare emptyManifest [] previousReport
                (fun field _ => eq_refl)))))
                 eq_refl).
Defined.


Lemma privacy_policy_frame_sample :
  truthy (Some policyUrl) = true
  /\ emitted (validatePrivacyRequirements
                (JObj (setProp "privacy_policy" policyUrl tabsManifest))) =
     withoutTitle "Privacy policy required"
       (emitted (validatePrivacyRequirements (JObj tabsManifest))).
Proof.
  split; [reflexivity |].
  exact (proj1 (proj2 (proj2 (proj2 (proj2 (proj2
           (privacy_policy_frame decimalCompare tabsManifest policyUrl [] eq_refl))))))).
Defined.

Lemma package_size_rule_sample :
  totalSize largePackage = 130 * 1024 * 1024
  /\ withTitle "Package too large"
       (emitted (validateContentPolicies decimalCompare (JObj emptyManifest) largePackage)) =
     [Findings.packageTooLarge (totalSize largePackage)]
  /\ message (Findings.packageTooLarge (totalSize largePackage)) =
     "Extension package is 130.0MB".
Proof.
  split; [reflexivity |].
  exact (proj1 (proj2 (proj2 (proj2
           (package_size_rule decimalCompare (JObj emptyManifest) largePackage)))) eq_refl).
Defined.

Lemma validateForStore_total_sample :
  wellShaped blankNameManifest = true
  /\ completed (runChecks decimalCompare (JObj blankNameManifest) [] []) = true
  /\ completed (runChecks decimalCompare (JObj stringPermissionsManifest) [] []) = false
  /\ snd (validateForStore decimalCompare (JObj stringPermissionsManifest) []
            previousReport) = validationFailed
  /\ validationResults (fst (validateForStore decimalCompare
                               (JObj stringPermissionsManifest) [] previousReport)) =
     validationResults previousReport.
Proof.
  split; [reflexivity |].
  split.
  - pose proof (proj1 (proj2 (proj2
      (validateForStore_total decimalCompare (JObj blankNameManifest) [] initialState)))
      blankNameManifest eq_refl eq_refl) as H.
    exact (proj1 (proj2 (proj2 (proj2 (proj2 (proj2 H)))))).
  - split; [reflexivity |].
    pose proof (proj2 (proj2 (proj2 (proj2 (proj2 (proj2
      (validateForStore_total decimalCompare (JObj stringPermissionsManifest) []
         previousReport)))))) eq_refl) as H.
    exact (conj (proj1 H) (proj1 (proj2 H))).
Defined.

Lemma purpose_count_rule_sample :
  completed (validateContentPolicies decimalCompare (JObj manyPurposesManifest) [] []) = true
  /\ exists scripts,
       hasContentScripts decimalCompare (JObj manyPurposesManifest) = Normal scripts
       /\ scripts = true.
Proof.
  split; [reflexivity |].
  destruct (proj1 (proj2 (purpose_count_rule decimalCompare manyPurposesManifest []))
              eq_refl)
    as (scripts & Hscripts & _ & Harray & _).
  exists scripts; split; [exact Hscripts |].
  exact (Harray [JObj []] eq_refl).
Defined.

Lemma falsy_required_field_sample :
  In "name" STORE_REQUIREMENTS.manifest.required_fields
  /\ lookup "name" blankNameManifest = Some (JStr "")
  /\ In (JStr "") falsyValues
  /\ In (Findings.missingField "name")
        (emitted (validateManifestRequirements decimalCompare (JObj blankNameManifest)))
  /\ In (Findings.missingField "manifest_version")
        (emitted (validateManifestRequirements decimalCompare (JObj blankNameManifest))).
Proof.
  split; [now left |].
  split; [reflexivity |].
  split; [now left |].
  split.
  - exact (proj1 (falsy_required_field decimalCompare blankNameManifest "name" (JStr "")
                    (or_introl eq_refl) eq_refl (or_introl eq_refl))).
  - exact (proj1 (falsy_required_field decimalCompare blankNameManifest
                    "manifest_version" (JNum 0)
                    (or_intror (or_intror (or_intror (or_introl eq_refl))))
                    eq_refl (or_intror (or_introl eq_refl)))).
Defined.

(** ** Where the specification's wording goes further than the component *)

(** C6, as worded, takes any added privacy_policy field to silence the
    finding: an empty policy does not. *)
Lemma empty_privacy_policy_keeps_finding :
  validatePrivacyRequirements (JObj tabsManifest) [] =
    Done tt [Findings.privacyPolicyRequired]
  /\ lookup "privacy_policy" (setProp "privacy_policy" (JStr "") tabsManifest) =
     Some (JStr "")
  /\ validatePrivacyRequirements
       (JObj (setProp "privacy_policy" (JStr "") tabsManifest)) [] =
     Done tt [Findings.privacyPolicyRequired].
Proof. repeat split. Qed.

(** C8, as worded, has all five checks run for any key-value manifest:
    with permissions written as a string the privacy check raises, the
    content check never runs and nothing is published, whatever the
    engine's conversion of strings. *)
Lemma string_permissions_stop_the_run :
  validatePrivacyRequirements (JObj stringPermissionsManifest) [] = Raised []
  /\ (fun cmp => completed (runChecks cmp (JObj stringPermissionsManifest) [] []))
     = (fun _ => false)
  /\ (fun cmp => validateForStore cmp (JObj stringPermissionsManifest) [] initialState)
     = (fun _ => (mkState [] false 60 0, validationFailed)).
Proof. repeat split. Qed.

(** C2, as worded, has any two runs on the same manifest and files end
    with the same findings and score, nothing carried over.  A manifest
    with permissions written as a string makes the privacy check raise,
    and the report on display afterwards is that of the run before: empty
    with score 0 on a fresh mount, the missing-icons report with score 75
    after a run on [noIconsManifest]. *)
Lemma raised_run_shows_previous_report :
  (fun cmp => validateForStore cmp (JObj noIconsManifest) [] initialState)
  = (fun _ => (previousReport, validationComplete [Findings.noIcons]))
  /\ (fun cmp => fst (validateForStore cmp (JObj stringPermissionsManifest) []
                        initialState))
     = (fun _ => mkState [] false 60 0)
  /\ (fun cmp => fst (validateForStore cmp (JObj stringPermissionsManifest) []
                        previousReport))
     = (fun _ => mkState [Findings.noIcons] false 60 75).
Proof. repeat split. Qed.

(** C3, as worded, has the score of the run at 0 whenever the four fields
    are missing.  With permissions written as a string as well, the four
    findings are pushed but the run fails in the privacy check and
    publishes no score: the 75 of the previous run stays. *)
Lemma missing_fields_score_not_published :
  (forall field, In field STORE_REQUIREMENTS.manifest.required_fields ->
                 lookup field stringPermissionsManifest = None)
  /\ (fun cmp => validateManifestRequirements cmp (JObj stringPermissionsManifest) [])
     = (fun _ => Done tt (map Findings.missingField
                            STORE_REQUIREMENTS.manifest.required_fields))
  /\ (fun cmp => validateForStore cmp (JObj stringPermissionsManifest) [] previousReport)
     = (fun _ => (mkState [Findings.noIcons] false 60 75, validationFailed)).
Proof.
  split; [| repeat split].
  intros field Hfield; simpl in Hfield.
  destruct Hfield as [<- | [<- | [<- | [<- | []]]]]; reflexivity.
Qed.

(** C9, as worded, has the finding pushed for every manifest whose purpose
    count exceeds 2.  With a name that cannot be converted to a string the
    count is 3, but building the text to scan for keywords raises and the
    content check ends before the purposes are counted: no finding is
    pushed. *)
Lemma object_name_hides_purpose_count :
  (fun cmp => hasContentScripts cmp (JObj objectNameManifest)) = (fun _ => Normal true)
  /\ trueCount [true;
                truthy (lookup "background" objectNameManifest);
                truthy (lookup "action" objectNameManifest)
                || truthy (lookup "browser_action" objectNameManifest);
                truthy (lookup "options_page" objectNameManifest)] = 3
  /\ (fun cmp => validateContentPolicies cmp (JObj objectNameManifest) [] [])
     = (fun _ => Raised []).
Proof. repeat split. Qed.

(** ** The icon resizer dashboard *)

Import Dashboard.

Lemma digitsPrefix_acc d acc :
  digitsPrefix 10 (Some (Z.pos acc)) (NilEmpty.string_of_uint d) =
  Some (Z.pos (Pos.of_uint_acc d acc)).
Proof.
  revert acc; induction d as [| d IH | d IH | d IH | d IH | d IH | d IH | d IH | d IH | d IH | d IH]; intro acc;
    [reflexivity | ..];
    cbn [NilEmpty.string_of_uint digitsPrefix Pos.of_uint_acc];
    match goal with |- context [digitValue 10 ?c] =>
      let v := eval vm_compute in (digitValue 10 c) in change (digitValue 10 c) with v
    end;
    cbv iota beta;
    rewrite <- IH; f_equal; f_equal; lia.
Qed.

Lemma digitsPrefix_zero d :
  digitsPrefix 10 (Some 0) (NilEmpty.string_of_uint d) = Some (Z.of_N (Pos.of_uint d)).
Proof.
  induction d as [| d IH | d IH | d IH | d IH | d IH | d IH | d IH | d IH | d IH | d IH];
    [reflexivity | ..];
    cbn [NilEmpty.string_of_uint digitsPrefix Pos.of_uint];
    match goal with |- context [digitValue 10 ?c] =>
      let v := eval vm_compute in (digitValue 10 c) in change (digitValue 10 c) with v
    end;
    cbv iota beta;
    first [exact IH | cbn [Z.of_N]; rewrite <- digitsPrefix_acc; reflexivity].
Qed.

Lemma allDigits_uint d : allDigits (NilEmpty.string_of_uint d) = true.
Proof. induction d; simpl; [reflexivity | assumption ..]. Qed.

Lemma numToString_pos p :
  numToString (Z.pos p) = NilEmpty.string_of_uint (Pos.to_uint p).
Proof.
  unfold numToString; cbn [Z.to_int NilZero.string_of_int NilZero.string_of_uint].
  pose proof (Unsigned.to_uint_nonnil p) as Hnil.
  destruct (Pos.to_uint p); [contradiction | reflexivity ..].
Qed.

Lemma uint_string_nonempty d : d <> Decimal.Nil -> NilEmpty.string_of_uint d <> EmptyString.
Proof. destruct d; [contradiction | discriminate ..]. Qed.

Lemma isDigit_not_eq c x : isDigit c = true -> isDigit x = false -> Ascii.eqb c x = false.
Proof.
  intros Hc Hx; destruct (Ascii.eqb_spec c x) as [-> | _]; [congruence | reflexivity].
Qed.

Lemma isDigit_not_space c : isDigit c = true -> isWhiteSpace c = false.
Proof.
  unfold isDigit, isWhiteSpace; cbv zeta; intro H.
  apply andb_true_iff in H; destruct H as [H1 H2].
  apply Nat.leb_le in H1, H2.
  repeat match goal with
         | |- context [(?a <=? ?b)%nat] => destruct (Nat.leb_spec a b)
         | |- context [(?a =? ?b)%nat] => destruct (Nat.eqb_spec a b)
         end; simpl; try reflexivity; lia.
Qed.

Lemma trimStart_digits s : allDigits s = true -> trimStart s = s.
Proof.
  destruct s as [| c r]; [reflexivity |]; simpl; intro H.
  apply andb_true_iff in H; destruct H as [Hc _].
  now rewrite (isDigit_not_space c Hc).
Qed.

Lemma trimEnd_digits s : allDigits s = true -> trimEnd s = s.
Proof.
  induction s as [| c r IH]; [reflexivity |]; simpl; intro H.
  apply andb_true_iff in H; destruct H as [Hc Hr].
  now rewrite (isDigit_not_space c Hc), (IH Hr).
Qed.

Lemma parseInt_digits s :
  allDigits s = true -> s <> EmptyString -> parseInt s = digitsPrefix 10 (Some 0) s.
Proof.
  intros Hd Hne; unfold parseInt; cbv zeta; rewrite (trimStart_digits s Hd).
  destruct s as [| c r]; [contradiction |].
  simpl in Hd; apply andb_true_iff in Hd; destruct Hd as [Hc Hr].
  assert (Hsign : startsWith "-" (String c r) = false /\ startsWith "+" (String c r) = false).
  { cbn [startsWith].
    now rewrite (isDigit_not_eq c "-" Hc eq_refl), (isDigit_not_eq c "+" Hc eq_refl). }
  destruct Hsign as [Hminus Hplus]; rewrite Hminus, Hplus; cbn [orb].
  assert (Hhex : startsWith "x" (dropFirst (String c r))
                 || startsWith "X" (dropFirst (String c r)) = false).
  { cbn [dropFirst]; destruct r as [| c2 r2]; [reflexivity |].
    simpl in Hr; apply andb_true_iff in Hr; destruct Hr as [Hc2 _].
    cbn [startsWith].
    now rewrite (isDigit_not_eq c2 "x" Hc2 eq_refl), (isDigit_not_eq c2 "X" Hc2 eq_refl). }
  rewrite Hhex, andb_false_r.
  cbn [digitsPrefix].
  destruct (digitValue 10 c) as [v |] eqn:E.
  - destruct (digitsPrefix 10 (Some (10 * 0 + v)) r) as [w |]; [f_equal; lia | reflexivity].
  - exfalso; unfold digitValue, isDigit in *; cbv zeta in *.
    apply andb_true_iff in Hc; destruct Hc as [H1 H2].
    apply Nat.leb_le in H1, H2.
    assert (Hlo : (48 <=? Z.of_nat (nat_of_ascii c)) = true) by (apply Z.leb_le; lia).
    assert (Hhi : (Z.of_nat (nat_of_ascii c) <=? 57) = true) by (apply Z.leb_le; lia).
    rewrite Hlo, Hhi in E; cbn [andb] in E.
    destruct (Z.ltb_spec (Z.of_nat (nat_of_ascii c) - 48) 10); [discriminate | lia].
Qed.

Lemma parseInt_numToString n : 0 < n -> parseInt (trim (numToString n)) = Some n.
Proof.
  intro Hn; destruct n as [| p | p]; try lia.
  rewrite numToString_pos.
  pose proof (allDigits_uint (Pos.to_uint p)) as Hd.
  unfold trim; rewrite (trimStart_digits _ Hd), (trimEnd_digits _ Hd).
  rewrite parseInt_digits;
    [| exact Hd | apply uint_string_nonempty, Unsigned.to_uint_nonnil].
  rewrite digitsPrefix_zero, Unsigned.of_to; reflexivity.
Qed.


Lemma split_piece sep p :
  hasChar sep p = false -> split sep p = [p].
Proof.
  induction p as [| c r IH]; [reflexivity |]; simpl; intro H.
  apply orb_false_iff in H; destruct H as [Hc Hr].
  rewrite Ascii.eqb_sym, Hc, (IH Hr); reflexivity.
Qed.

Lemma split_app sep p rest :
  hasChar sep p = false ->
  split sep (p ++ String sep rest) = p :: split sep rest.
Proof.
  induction p as [| c r IH]; simpl; intro H.
  - now rewrite Ascii.eqb_refl.
  - apply orb_false_iff in H; destruct H as [Hc Hr].
    rewrite Ascii.eqb_sym, Hc, (IH Hr); reflexivity.
Qed.

Lemma split_concat sep pieces :
  pieces <> [] ->
  Forall (fun p => hasChar sep p = false) pieces ->
  split sep (String.concat (String sep EmptyString) pieces) = pieces.
Proof.
  induction pieces as [| p rest IH]; [contradiction |]; intros _ Hall.
  inversion Hall as [| p' rest' Hp Hrest]; subst.
  destruct rest as [| q rest'].
  - cbn [String.concat]; now apply split_piece.
  - change (String.concat (String sep "") (p :: q :: rest'))
      with (p ++ String sep (String.concat (String sep "") (q :: rest')))%string.
    rewrite split_app by exact Hp.
    f_equal; apply IH; [discriminate | exact Hrest].
Qed.

Lemma hasChar_uint d : hasChar "," (NilEmpty.string_of_uint d) = false.
Proof. induction d; simpl; [reflexivity | assumption ..]. Qed.

Lemma sizeArray_pieces pieces :
  flat_map (fun parsed => match parsed with
                          | Some s => if 0 <? s then [s] else []
                          | None => []
                          end)
           (map (fun s => parseInt (trim s)) pieces)
  = flat_map (fun piece => match parseInt (trim piece) with
                           | Some s => if 0 <? s then [s] else []
                           | None => []
                           end) pieces.
Proof. induction pieces as [| p rest IH]; simpl; [reflexivity | now rewrite IH]. Qed.

Lemma split_nonempty sep s : split sep s <> [].
Proof.
  destruct s as [| c r]; [discriminate |]; simpl.
  destruct (Ascii.eqb c sep); [discriminate |].
  destruct (split sep r); discriminate.
Qed.

Lemma split_at sep a b :
  split sep (a ++ String sep b) = (split sep a ++ split sep b)%list.
Proof.
  induction a as [| c r IH]; simpl.
  - now rewrite Ascii.eqb_refl.
  - destruct (Ascii.eqb c sep); [now rewrite IH |].
    rewrite IH.
    pose proof (split_nonempty sep r) as Hne.
    destruct (split sep r) as [| piece pieces]; [contradiction | reflexivity].
Qed.

Lemma digitValue_not_digit c : isDigit c = false -> digitValue 10 c = None.
Proof.
  destruct c as [[] [] [] [] [] [] [] []]; try reflexivity; discriminate.
Qed.

Lemma parseInt_not_numeral piece c r :
  trimStart piece = String c r ->
  isDigit c = false -> c <> "+"%char -> c <> "-"%char ->
  parseInt piece = None.
Proof.
  intros Hstart Hdigit Hplus Hminus; unfold parseInt; rewrite Hstart.
  assert (Hm : Ascii.eqb c "-" = false) by now apply Ascii.eqb_neq.
  assert (Hp : Ascii.eqb c "+" = false) by now apply Ascii.eqb_neq.
  assert (Hz : Ascii.eqb c "0" = false).
  { apply Ascii.eqb_neq; intros ->; discriminate. }
  cbv zeta; cbn [startsWith]; rewrite Hm, Hp; cbn [orb startsWith].
  rewrite Hz; cbn [andb digitsPrefix].
  now rewrite (digitValue_not_digit c Hdigit).
Qed.

Lemma trimStart_trim s : trimStart (trim s) = trim s.
Proof.
  unfold trim; induction s as [| c r IH]; [reflexivity |].
  cbn [trimStart]; destruct (isWhiteSpace c) eqn:Hc; [exact IH |].
  cbn [trimEnd]; rewrite Hc; cbn [andb trimStart]; now rewrite Hc.
Qed.

(** X23: the sizes field is read piece by piece: the sizes of a field cut
    at a comma are those of the part before it followed by those of the
    part after it, and a field without a comma gives the one integer
    [parseInt] reads from it, surrounding blanks apart, when that is
    positive, and nothing otherwise; so a piece that reads as zero or as a
    negative number, and a piece whose first character after the blanks
    is neither a digit nor a sign, is dropped, and there are never more
    sizes than pieces.  The field is taken to hold no numeral beyond the
    safe integers. *)
Theorem sizeArray_piecewise :
  forall (sizes : string),
    safePieces sizes = true ->
    (forall a b,
        sizes = (a ++ "," ++ b)%string ->
        sizeArray sizes = (sizeArray a ++ sizeArray b)%list
        /\ safePieces a = true /\ safePieces b = true)
    /\ (hasChar "," sizes = false ->
        sizeArray sizes = match parseInt (trim sizes) with
                          | Some s => if 0 <? s then [s] else []
                          | None => []
                          end
        /\ (forall c r, trim sizes = String c r ->
                        isDigit c = false -> c <> "+"%char -> c <> "-"%char ->
                        sizeArray sizes = []))
    /\ Forall (fun s => 0 < s <= MAX_SAFE_INTEGER) (sizeArray sizes)
    /\ (List.length (sizeArray sizes) <= List.length (split "," sizes))%nat.
Proof.
  intros sizes Hsafe.
  assert (Hone : hasChar "," sizes = false ->
                 sizeArray sizes = match parseInt (trim sizes) with
                                   | Some s => if 0 <? s then [s] else []
                                   | None => []
                                   end).
  { intro Hcomma; unfold sizeArray.
    rewrite sizeArray_pieces, (split_piece _ _ Hcomma); cbn [flat_map].
    apply app_nil_r. }
  split; [| split; [| split]].
  - clear Hone; intros a b ->; unfold sizeArray, safePieces in *.
    rewrite !sizeArray_pieces.
    change (a ++ "," ++ b)%string with (a ++ String "," b)%string in *.
    rewrite split_at in *.
    rewrite flat_map_app; split; [reflexivity |].
    rewrite forallb_app in Hsafe; apply andb_true_iff in Hsafe; exact Hsafe.
  - intro Hcomma; split; [exact (Hone Hcomma) |].
    intros c r Htrim Hdigit Hplus Hminus.
    rewrite (Hone Hcomma).
    assert (Hstart : trimStart (trim sizes) = String c r)
      by (rewrite trimStart_trim; exact Htrim).
    now rewrite (parseInt_not_numeral (trim sizes) c r Hstart Hdigit Hplus Hminus).
  - clear Hone; unfold sizeArray, safePieces in *; rewrite sizeArray_pieces.
    revert Hsafe; induction (split "," sizes) as [| piece rest IH]; intro Hsafe;
      [constructor |].
    cbn [forallb flat_map] in *.
    apply andb_true_iff in Hsafe; destruct Hsafe as [Hpiece Hrest].
    apply Forall_app; split; [| exact (IH Hrest)].
    destruct (parseInt (trim piece)) as [v |]; [| constructor].
    destruct (Z.ltb_spec 0 v); [| constructor].
    constructor; [| constructor].
    unfold isSafeInteger in Hpiece; apply Z.leb_le in Hpiece; lia.
  - unfold sizeArray; rewrite sizeArray_pieces.
    induction (split "," sizes) as [| piece rest IH]; simpl; [apply Nat.le_refl |].
    rewrite length_app.
    destruct (parseInt (trim piece)) as [v |]; [destruct (0 <? v) |]; simpl; lia.
Qed.

(** X24: reading back a list of positive sizes (safe integers, which
    numbers hold exactly) written in decimal and joined by commas gives
    the list itself. *)
Theorem sizeArray_round_trip :
  forall (l : list Z),
    Forall (fun n => 0 < n <= 9007199254740991) l ->
    sizeArray (String.concat "," (map numToString l)) = l.
Proof.
  intros l Hpos; unfold sizeArray; rewrite sizeArray_pieces.
  destruct l as [| n rest]; [reflexivity |].
  rewrite split_concat.
  - induction Hpos as [| m l Hm _ IH]; [reflexivity |].
    cbn [map flat_map]; rewrite (parseInt_numToString m (proj1 Hm)).
    destruct (Z.ltb_spec 0 m); [| lia].
    now rewrite IH.
  - discriminate.
  - apply Forall_forall; intros piece Hpiece.
    apply in_map_iff in Hpiece; destruct Hpiece as (m & <- & Hm).
    rewrite Forall_forall in Hpos; specialize (Hpos m Hm).
    destruct m as [| p | p]; try lia.
    rewrite numToString_pos; apply hasChar_uint.
Qed.

(** *** Names of the generated icons *)

Lemma isExtension_spec ext :
  isExtension ext = true <->
  ext <> EmptyString /\ hasChar "." ext = false /\ hasChar "/" ext = false.
Proof.
  induction ext as [| c r IH]; [split; [discriminate | intros [H _]; contradiction] |].
  cbn [isExtension hasChar].
  rewrite (Ascii.eqb_sym "."%char c), (Ascii.eqb_sym "/"%char c).
  destruct (Ascii.eqb c "/"); destruct (Ascii.eqb c "."); cbn [orb negb andb];
    try (split; [discriminate | intros (_ & H1 & H2); discriminate]).
  destruct r as [| c' r'].
  - split; [intros _; repeat split; discriminate | reflexivity].
  - rewrite IH; split.
    + intros (_ & H1 & H2); repeat split; [discriminate | assumption ..].
    + intros (_ & H1 & H2); repeat split; [discriminate | assumption ..].
Qed.

Lemma hasChar_app c a b : hasChar c (a ++ b) = hasChar c a || hasChar c b.
Proof.
  induction a as [| x a IH]; [reflexivity |]; simpl.
  now rewrite IH, orb_assoc.
Qed.

Lemma baseName_strips base ext :
  isExtension ext = true -> baseName (base ++ "." ++ ext) = base.
Proof.
  intro Hext; induction base as [| c b IH].
  - cbn [append baseName]; now rewrite Ascii.eqb_refl, Hext.
  - cbn [append baseName].
    assert (Hno : isExtension (b ++ String "." ext) = false).
    { destruct (isExtension (b ++ String "." ext)) eqn:E; [| reflexivity].
      apply isExtension_spec in E; destruct E as (_ & Hdot & _).
      rewrite hasChar_app in Hdot; cbn [hasChar] in Hdot.
      rewrite Ascii.eqb_refl, orb_true_r in Hdot; discriminate. }
    cbn [append] in IH; rewrite Hno, andb_false_r, IH; reflexivity.
Qed.

Lemma baseName_keeps name :
  (forall base ext, name = (base ++ "." ++ ext)%string -> isExtension ext = false) ->
  baseName name = name.
Proof.
  induction name as [| c r IH]; [reflexivity |]; intro Hnone.
  cbn [baseName].
  destruct (Ascii.eqb_spec c ".") as [-> | Hc]; cbn [andb].
  - rewrite (Hnone EmptyString r eq_refl); f_equal.
    apply IH; intros base ext ->.
    apply (Hnone (String "." base) ext); reflexivity.
  - f_equal; apply IH; intros base ext ->.
    apply (Hnone (String c base) ext); reflexivity.
Qed.

(** X25: the base name of a file is its name without the extension, an
    extension being a last dot followed to the end by one or more
    characters other than a dot or a slash; a name without one (no dot, a
    dot at the very end, a dot only in a directory part) is kept whole.
    The names given to the generated icons always carry such an
    extension, so their base name is the original base name followed by
    the size suffix. *)
Theorem baseName_spec :
  forall (name : string),
    (forall base ext,
        name = (base ++ "." ++ ext)%string ->
        ext <> EmptyString -> hasChar "." ext = false -> hasChar "/" ext = false ->
        baseName name = base)
    /\ ((forall base ext,
            name = (base ++ "." ++ ext)%string ->
            ext = EmptyString \/ hasChar "." ext = true \/ hasChar "/" ext = true) ->
        baseName name = name)
    /\ (forall size outputFormat,
          baseName (filename name size outputFormat) =
          (baseName name ++ "_" ++ numToString size ++ "x" ++ numToString size)%string).
Proof.
  intro name; split; [| split].
  - intros base ext -> Hne Hdot Hslash.
    apply baseName_strips, isExtension_spec; repeat split; assumption.
  - intro Hnone; apply baseName_keeps; intros base ext Heq.
    destruct (isExtension ext) eqn:E; [| reflexivity].
    apply isExtension_spec in E; destruct E as (Hne & Hdot & Hslash).
    destruct (Hnone base ext Heq) as [H | [H | H]]; congruence.
  - intros sz outputFormat; unfold filename.
    assert (Hext : isExtension (extension outputFormat) = true)
      by (destruct outputFormat; reflexivity).
    rewrite <- (baseName_strips
                  (baseName name ++ "_" ++ numToString sz ++ "x" ++ numToString sz)
                  (extension outputFormat) Hext) at 1.
    f_equal.
    rewrite !string_app_assoc; reflexivity.
Qed.

(** ** The further properties at the sample inputs *)

Lemma perfect_score_iff_no_findings_sample :
  [Findings.noIcons] <> []
  /\ overallScore (calculateOverallScore [Findings.noIcons] initialState) <= 95.
Proof.
  split; [discriminate |].
  apply (proj2 (perfect_score_iff_no_findings [Findings.noIcons] initialState)).
  discriminate.
Defined.

Lemma score_order_independent_sample :
  Permutation [Findings.noIcons; Findings.cookieAccess]
              [Findings.cookieAccess; Findings.noIcons]
  /\ overallScore (calculateOverallScore
                     [Findings.noIcons; Findings.cookieAccess] initialState) =
     overallScore (calculateOverallScore
                     [Findings.cookieAccess; Findings.noIcons] initialState).
Proof.
  split; [apply perm_swap |].
  apply score_order_independent, perm_swap.
Defined.

Lemma published_findings_shape_sample :
  completed (runChecks decimalCompare (JObj tabsManifest) [] []) = true
  /\ requirementsMet (fst (validateForStore decimalCompare (JObj tabsManifest) []
                             initialState)) = 0.
Proof.
  split; [reflexivity |].
  exact (proj1 (published_findings_shape decimalCompare (JObj tabsManifest) []
                  initialState eq_refl)).
Defined.

Lemma category_tabs_are_the_checks_sample :
  completed (runChecks decimalCompare (JObj tabsManifest) [] []) = true
  /\ categoryTab privacy
       (fst (validateForStore decimalCompare (JObj tabsManifest) [] initialState)) =
     emitted (validatePrivacyRequirements (JObj tabsManifest)).
Proof.
  split; [reflexivity |].
  exact (proj1 (proj2 (proj2 (proj2
           (category_tabs_are_the_checks decimalCompare (JObj tabsManifest) []
              initialState eq_refl))))).
Defined.

Lemma compliance_score_bounds_sample :
  completed (runChecks decimalCompare (JObj draftManifest) [] []) = true
  /\ 40 <= complianceScore (fst (validateForStore decimalCompare (JObj draftManifest) []
                                   initialState)) <= 100.
Proof.
  split; [reflexivity |].
  exact (proj1 (proj2 (compliance_score_bounds decimalCompare (JObj draftManifest) []
                         initialState eq_refl))).
Defined.

Lemma critical_finding_caps_label_sample :
  In Findings.noIcons [Findings.noIcons; Findings.privacyPolicyRequired]
  /\ severity Findings.noIcons = critical
  /\ severity Findings.privacyPolicyRequired = critical
  /\ getScoreLabel (overallScore (calculateOverallScore
                      [Findings.noIcons; Findings.privacyPolicyRequired] initialState))
     = "Critical Issues".
Proof.
  split; [now left |].
  split; [reflexivity |].
  split; [reflexivity |].
  pose proof (critical_finding_caps_label
                [Findings.noIcons; Findings.privacyPolicyRequired]
                Findings.noIcons Findings.privacyPolicyRequired initialState
                (or_introl eq_refl) eq_refl) as H.
  exact (proj1 (proj2 (proj2 (proj2 (proj2 H))) [] [] [] eq_refl eq_refl)).
Defined.

Lemma score_card_hidden_at_zero_sample :
  completed (runChecks decimalCompare (JObj emptyManifest) [] []) = true
  /\ (forall field, In field STORE_REQUIREMENTS.manifest.required_fields ->
                    lookup field emptyManifest = None)
  /\ showsScoreCard (fst (validateForStore decimalCompare (JObj emptyManifest) []
                            initialState)) = false.
Proof.
  split; [reflexivity |].
  split; [intros field _; reflexivity |].
  exact (proj2 (score_card_hidden_at_zero decimalCompare (JObj emptyManifest) []
                  initialState eq_refl)
               emptyManifest eq_refl (fun field _ => eq_refl)).
Defined.

Lemma name_length_rule_sample :
  primitiveOrAbsent (lookup "description" draftManifest) = true
  /\ primitiveOrAbsent (lookup "version" draftManifest) = true
  /\ lookup "name" draftManifest = Some (JStr "Ab")
  /\ "Ab" <> EmptyString
  /\ In Findings.nameTooShort
        (emitted (validateManifestRequirements decimalCompare (JObj draftManifest)))
  /\ ~ In Findings.nameTooLong
         (emitted (validateManifestRequirements decimalCompare (JObj draftManifest))).
Proof.
  split; [reflexivity |].
  split; [reflexivity |].
  split; [reflexivity |].
  split; [discriminate |].
  pose proof (name_length_rule decimalCompare draftManifest "Ab"
                eq_refl eq_refl eq_refl ltac:(discriminate)) as H.
  cbv zeta in H; destruct H as (Hshort & Hlong & _).
  split.
  - apply Hshort; reflexivity.
  - intro Hin; apply Hlong in Hin; discriminate Hin.
Defined.

Lemma description_length_rule_sample :
  primitiveOrAbsent (lookup "name" draftManifest) = true
  /\ primitiveOrAbsent (lookup "version" draftManifest) = true
  /\ lookup "description" draftManifest = Some (JStr "Too short")
  /\ "Too short" <> EmptyString
  /\ In Findings.descriptionTooShort
        (emitted (validateManifestRequirements decimalCompare (JObj draftManifest))).
Proof.
  split; [reflexivity |].
  split; [reflexivity |].
  split; [reflexivity |].
  split; [discriminate |].
  pose proof (description_length_rule decimalCompare draftManifest "Too short"
                eq_refl eq_refl eq_refl ltac:(discriminate)) as H.
  cbv zeta in H; destruct H as (Hshort & _).
  apply Hshort; reflexivity.
Defined.

Lemma version_format_rule_sample :
  primitiveOrAbsent (lookup "name" draftManifest) = true
  /\ primitiveOrAbsent (lookup "description" draftManifest) = true
  /\ lookup "version" draftManifest = Some (JStr "1.0")
  /\ "1.0" <> EmptyString
  /\ isVersionNumber "1.0"
  /\ ~ In Findings.invalidVersion
         (emitted (validateManifestRequirements decimalCompare (JObj draftManifest))).
Proof.
  split; [reflexivity |].
  split; [reflexivity |].
  split; [reflexivity |].
  split; [discriminate |].
  pose proof (version_format_rule decimalCompare draftManifest "1.0"
                eq_refl eq_refl eq_refl ltac:(discriminate)) as H.
  cbv zeta in H; destruct H as (Htest & Hin & _).
  assert (Hversion : isVersionNumber "1.0") by (apply Htest; reflexivity).
  split; [exact Hversion |].
  intro Hfound; exact (proj1 Hin Hfound Hversion).
Defined.

Lemma manifest_v2_rule_sample :
  primitiveOrAbsent (lookup "name" draftManifest) = true
  /\ primitiveOrAbsent (lookup "description" draftManifest) = true
  /\ primitiveOrAbsent (lookup "version" draftManifest) = true
  /\ In Findings.manifestV2
        (emitted (validateManifestRequirements decimalCompare (JObj draftManifest))).
Proof.
  split; [reflexivity |].
  split; [reflexivity |].
  split; [reflexivity |].
  pose proof (manifest_v2_rule decimalCompare draftManifest eq_refl eq_refl eq_refl) as H.
  cbv zeta in H; destruct H as (Hv2 & _).
  apply Hv2; reflexivity.
Defined.

Lemma icons_absent_or_empty_sample :
  truthy (lookup "icons" emptyManifest) = false
  /\ validateIconRequirements (JObj emptyManifest) [] [] = Done tt [Findings.noIcons].
Proof.
  split; [reflexivity |].
  exact (proj1 (proj1 (icons_absent_or_empty emptyManifest []) eq_refl)).
Defined.

Lemma icons_check_silent_iff_sample :
  lookup "icons" icon128Manifest = Some (JObj (iconsObject [("128", "icon128.png")]))
  /\ emitted (validateIconRequirements (JObj icon128Manifest) []) <> [].
Proof.
  split; [reflexivity |].
  intro Hsilent.
  apply (icons_check_silent_iff icon128Manifest [("128", "icon128.png")] [] eq_refl)
    in Hsilent.
  destruct Hsilent as (_ & Hfiles).
  destruct (Hfiles ("128", "icon128.png") (or_introl eq_refl)) as (f & Hf & _).
  discriminate Hf.
Defined.

Lemma permissions_rule_sample :
  lookup "permissions" tabsManifest = Some (JArr (map JStr ["tabs"]))
  /\ validatePermissionRequirements decimalCompare (JObj tabsManifest) [] =
     Done tt [Findings.broadPermission "tabs"].
Proof.
  split; [reflexivity |].
  exact (permissions_rule decimalCompare tabsManifest ["tabs"] eq_refl).
Defined.

Lemma privacy_rule_sample :
  lookup "permissions" tabsManifest = Some (JArr (map JStr ["tabs"]))
  /\ In Findings.privacyPolicyRequired
        (emitted (validatePrivacyRequirements (JObj tabsManifest)))
  /\ ~ In Findings.cookieAccess
         (emitted (validatePrivacyRequirements (JObj tabsManifest))).
Proof.
  split; [reflexivity |].
  pose proof (privacy_rule tabsManifest ["tabs"] eq_refl) as H.
  cbv zeta in H; destruct H as (_ & Hpolicy & _ & Hcookies & _).
  split.
  - apply Hpolicy; split; [| reflexivity].
    exists "tabs"; split; [now left |].
    cbv; tauto.
  - intro Hin; apply Hcookies in Hin.
    destruct Hin as [Heq | []]; discriminate Heq.
Defined.

Lemma privacy_check_raises_iff_sample :
  lookup "permissions" zeroPermissionsManifest = Some (JNum 0)
  /\ In (JNum 0) [JStr ""; JNum 0; JBool false]
  /\ validatePermissionRequirements decimalCompare (JObj zeroPermissionsManifest) [] =
     Done tt []
  /\ completed (runChecks decimalCompare (JObj zeroPermissionsManifest) [] []) = false.
Proof.
  split; [reflexivity |].
  split; [right; now left |].
  exact (proj2 (privacy_check_raises_iff decimalCompare zeroPermissionsManifest [])
               (JNum 0) eq_refl (or_intror (or_introl eq_refl))).
Defined.

Lemma prohibited_content_rule_sample :
  lookup "name" miningManifest = Some (JStr "Coin Mining Helper")
  /\ lookup "description" miningManifest = Some (JStr "Shows the hash rate")
  /\ In "mining" STORE_REQUIREMENTS.content.prohibited_content
  /\ In (Findings.prohibitedContent "mining")
        (emitted (validateContentPolicies decimalCompare (JObj miningManifest) [])).
Proof.
  split; [reflexivity |].
  split; [reflexivity |].
  split; [right; now left |].
  pose proof (prohibited_content_rule decimalCompare miningManifest []
                "Coin Mining Helper" "Shows the hash rate" "mining"
                eq_refl eq_refl (or_intror (or_introl eq_refl))) as H.
  cbv zeta in H; destruct H as (Hfound & _).
  apply Hfound; left.
  exists "coin ", " helper"; reflexivity.
Defined.

Lemma failed_run_keeps_previous_report_sample :
  completed (runChecks decimalCompare (JObj stringPermissionsManifest) [] []) = false
  /\ snd (validateForStore decimalCompare (JObj stringPermissionsManifest) []
            previousReport) = validationFailed
  /\ validationResults (fst (validateForStore decimalCompare
                               (JObj stringPermissionsManifest) [] previousReport)) =
     [Findings.noIcons]
  /\ overallScore (fst (validateForStore decimalCompare
                          (JObj stringPermissionsManifest) [] previousReport)) = 75.
Proof.
  split; [reflexivity |].
  pose proof (failed_run_keeps_previous_report decimalCompare
                (JObj stringPermissionsManifest) [] previousReport eq_refl) as H.
  cbv zeta in H; destruct H as (Htoast & Hresults & Hscore & _).
  exact (conj Htoast (conj Hresults Hscore)).
Defined.

Lemma upload_without_usable_manifest_sample :
  (forall u, In u brokenUpload -> name (file u) = "manifest.json" ->
             sampleParse (text u) = None)
  /\ store (fst (handleDrop decimalCompare sampleParse brokenUpload initialComponent)) =
     initialState
  /\ dragActive (fst (handleDrop decimalCompare sampleParse brokenUpload
                        initialComponent)) = false.
Proof.
  assert (Hbroken : forall u, In u brokenUpload -> name (file u) = "manifest.json" ->
                              sampleParse (text u) = None).
  { intros u [<- | []] _; reflexivity. }
  split; [exact Hbroken |].
  pose proof (upload_without_usable_manifest decimalCompare sampleParse brokenUpload
                initialComponent Hbroken) as H.
  destruct H as (Hstore & _ & Hdrag & _).
  exact (conj Hstore Hdrag).
Defined.

Lemma drop_and_file_input_agree_sample :
  findManifestFile sampleUpload = Some (mkUpload (mkFile "manifest.json" 2) "{}")
  /\ sampleParse "{}" = Some (JObj [])
  /\ extensionData (fst (handleDrop decimalCompare sampleParse sampleUpload
                           initialComponent)) = Some (JObj [])
  /\ snd (handleFileInput decimalCompare sampleParse sampleUpload initialComponent) =
     Some (snd (handleDrop decimalCompare sampleParse sampleUpload initialComponent)).
Proof.
  split; [reflexivity |].
  split; [reflexivity |].
  pose proof (drop_and_file_input_agree decimalCompare sampleParse sampleUpload
                initialComponent (mkUpload (mkFile "manifest.json" 2) "{}") eq_refl) as H.
  cbv zeta in H; destruct H as (_ & _ & Htoast & Hparsed).
  destruct (Hparsed (JObj []) eq_refl) as (_ & _ & Hdata & _).
  exact (conj Hdata Htoast).
Defined.

Lemma sizeArray_piecewise_sample :
  safePieces "16, 48,x,-3" = true
  /\ sizeArray "16, 48,x,-3" = (sizeArray "16, 48" ++ sizeArray "x,-3")%list
  /\ Forall (fun s => 0 < s <= MAX_SAFE_INTEGER) (sizeArray "16, 48,x,-3").
Proof.
  split; [reflexivity |].
  split.
  - exact (proj1 (proj1 (sizeArray_piecewise "16, 48,x,-3" eq_refl)
                        "16, 48" "x,-3" eq_refl)).
  - exact (proj1 (proj2 (proj2 (sizeArray_piecewise "16, 48,x,-3" eq_refl)))).
Defined.

Lemma sizeArray_round_trip_sample :
  Forall (fun n => 0 < n <= 9007199254740991) [16; 48; 128]
  /\ sizeArray "16,48,128" = [16; 48; 128].
Proof.
  assert (Hsizes : Forall (fun n => 0 < n <= 9007199254740991) [16; 48; 128])
    by (repeat (constructor; try lia)).
  split; [exact Hsizes |].
  exact (sizeArray_round_trip [16; 48; 128] Hsizes).
Defined.

Lemma baseName_spec_sample :
  "png" <> EmptyString
  /\ hasChar "." "png" = false
  /\ hasChar "/" "png" = false
  /\ baseName "icon.final.png" = "icon.final"
  /\ filename "icon.final.png" 48 jpeg = "icon.final_48x48.jpg".
Proof.
  split; [discriminate |].
  split; [reflexivity |].
  split; [reflexivity |].
  split.
  - exact (proj1 (baseName_spec "icon.final.png") "icon.final" "png" eq_refl
                 ltac:(discriminate) eq_refl eq_refl).
  - unfold filename.
    rewrite (proj1 (baseName_spec "icon.final.png") "icon.final" "png" eq_refl
                   ltac:(discriminate) eq_refl eq_refl).
    reflexivity.
Defined.
